(** * Charger: the menu state machine (Menu.c, Menu.h) and the paged
      text renderer (LCD.c), embedded in Rocq.

    The C code is translated function by function.  Integers of a fixed
    width are [Z] with the wrap-around written out, the characters of the
    text buffers are [ascii], the pixel bytes of the page buffer are [Z].
    An access outside an array is undefined in C: the embedding stops
    there with a [Fault] that names the array and the index.  A shift of
    an [int] by its width is undefined as well; no memory is accessed in
    it, and the embedding leaves its value open (class [IntModel]). *)

From Stdlib Require Import ZArith Lia List String Ascii Bool.
From stdpp Require Import list strings.

Local Open Scope Z_scope.

(** ** Results of fallible code *)

Inductive fault : Type :=
| OutOfBounds (array : string) (index : Z)
| NullPointer
| Unterminated.

Inductive result (A : Type) : Type :=
| Ok (a : A)
| Fault (f : fault).

Arguments Ok {A} a.
Arguments Fault {A} f.

Definition bind {A B : Type} (m : result A) (k : A -> result B) : result B :=
  match m with
  | Ok a => k a
  | Fault f => Fault f
  end.

Notation "'do' p <- m ; k" := (bind m (fun p => k))
  (at level 10, p pattern, m at level 100, k at level 200).

(** [array[i]] as an rvalue. *)
Definition load {A : Type} (array : string) (l : list A) (i : Z) : result A :=
  if 0 <=? i then
    match l !! Z.to_nat i with
    | Some a => Ok a
    | None => Fault (OutOfBounds array i)
    end
  else Fault (OutOfBounds array i).

(** [array[i] = a]. *)
Definition store {A : Type} (array : string) (l : list A) (i : Z) (a : A)
  : result (list A) :=
  if (0 <=? i) && (i <? Z.of_nat (length l)) then Ok (<[Z.to_nat i := a]> l)
  else Fault (OutOfBounds array i).

(** ** Characters *)

Definition code (c : ascii) : Z := Z.of_N (N_of_ascii c).
Definition char (z : Z) : ascii := ascii_of_N (Z.to_N (z mod 256)).
Definition NUL : ascii := "000"%char.
Definition chars (s : string) : list ascii := list_ascii_of_string s.

(** ** Common.h *)

Definition BATTERY_VOLTAGE : Z := 8.
Definition BATTERY_CURRENT : Z := 9.

(** A [char *]: the null pointer (Menu.h calls it [UPDATABLE_DATA]), a
    string literal, or one of the menu system's own char tables,
    [pMenu->updatableCharTables[j]]. *)
Inductive char_ptr : Type :=
| UPDATABLE_DATA
| Literal (s : string)
| Table (j : Z).

Record T_TextField : Type := mkTextField {
  pText : char_ptr;
  tf_x : Z;
  tf_y : Z
}.

(** ** Menu.h *)

Definition MENU_SAVE : Z := 10.
Definition MENU_CANCEL : Z := 11.
Definition MENU_NO_ACTION : Z := 12.
Definition MENU_MEASURE_1 : Z := 13.
Definition MENU_MEASURE_2 : Z := 14.

Inductive E_ButtonClicks : Type := NO_CLICK | SHORT_CLICK | LONG_CLICK.

Inductive E_MenuStates : Type :=
| PANEL_VIEW | BATTERY_VIEW
| MENU_VIEW_1 | MENU_VIEW_2 | MENU_VIEW_3
| CALIBRATION_VIEW_1 | CALIBRATION_VIEW_2
| NO_MENU.

(** The enumerators' values. *)
Definition state_value (s : E_MenuStates) : Z :=
  match s with
  | PANEL_VIEW => 0 | BATTERY_VIEW => 1
  | MENU_VIEW_1 => 2 | MENU_VIEW_2 => 3 | MENU_VIEW_3 => 4
  | CALIBRATION_VIEW_1 => 5 | CALIBRATION_VIEW_2 => 6
  | NO_MENU => 7
  end.

(** [menuState++]; the code applies it to [MENU_VIEW_1] and [MENU_VIEW_2]
    only, the value after [NO_MENU] names no enumerator. *)
Definition state_incr (s : E_MenuStates) : E_MenuStates :=
  match s with
  | PANEL_VIEW => BATTERY_VIEW | BATTERY_VIEW => MENU_VIEW_1
  | MENU_VIEW_1 => MENU_VIEW_2 | MENU_VIEW_2 => MENU_VIEW_3
  | MENU_VIEW_3 => CALIBRATION_VIEW_1
  | CALIBRATION_VIEW_1 => CALIBRATION_VIEW_2
  | CALIBRATION_VIEW_2 => NO_MENU
  | NO_MENU => NO_MENU
  end.

Record T_MenuView : Type := mkMenuView {
  textFields : list T_TextField;
  textFieldCount : Z
}.

Record T_MenuSystem : Type := mkMenuSystem {
  menuState : E_MenuStates;
  currentSelection : Z;
  previousMenu : E_MenuStates;
  views : list T_MenuView;
  updatableCharTables : list (list ascii);
  currentTextFields : list T_TextField
}.

Definition set_menuState (pMenu : T_MenuSystem) (s : E_MenuStates) :=
  mkMenuSystem s (currentSelection pMenu) (previousMenu pMenu) (views pMenu)
    (updatableCharTables pMenu) (currentTextFields pMenu).
Definition set_currentSelection (pMenu : T_MenuSystem) (n : Z) :=
  mkMenuSystem (menuState pMenu) n (previousMenu pMenu) (views pMenu)
    (updatableCharTables pMenu) (currentTextFields pMenu).
Definition set_previousMenu (pMenu : T_MenuSystem) (s : E_MenuStates) :=
  mkMenuSystem (menuState pMenu) (currentSelection pMenu) s (views pMenu)
    (updatableCharTables pMenu) (currentTextFields pMenu).
Definition set_updatableCharTables (pMenu : T_MenuSystem) (t : list (list ascii)) :=
  mkMenuSystem (menuState pMenu) (currentSelection pMenu) (previousMenu pMenu)
    (views pMenu) t (currentTextFields pMenu).
Definition set_currentTextFields (pMenu : T_MenuSystem) (f : list T_TextField) :=
  mkMenuSystem (menuState pMenu) (currentSelection pMenu) (previousMenu pMenu)
    (views pMenu) (updatableCharTables pMenu) f.

Definition field (s : string) (x y : Z) : T_TextField := mkTextField (Literal s) x y.
Definition live (x y : Z) : T_TextField := mkTextField UPDATABLE_DATA x y.

Definition PANEL_VIEW_FIELDS : list T_TextField :=
  [ field "PANEELI" 0 2; field "JaNNITE" 47 2; field "VIRTA" 96 2;
    field "1" 20 15; field "2" 20 28; field "3" 20 41; field "4" 20 54;
    live 45 15; live 85 15; live 45 28; live 85 28;
    live 45 41; live 85 41; live 45 54; live 85 54 ].

Definition BATTERY_VIEW_FIELDS : list T_TextField :=
  [ field "AKKU" 53 2; field "JaNNITE" 10 20; field "VIRTA" 80 20;
    live 5 38; live 70 38 ].

Definition MENU_1_FIELDS : list T_TextField :=
  [ field "VIRITYS 1/3" 15 2;
    field "PANEELI 1: JaNNITE" 10 15; field "PANEELI 1: VIRTA" 10 28;
    field "PANEELI 2: JaNNITE" 10 41; field "PANEELI 2: VIRTA" 10 54;
    live 5 15; live 5 28; live 5 41; live 5 54 ].

Definition MENU_2_FIELDS : list T_TextField :=
  [ field "VIRITYS 2/3" 15 2;
    field "PANEELI 3: JaNNITE" 10 15; field "PANEELI 3: VIRTA" 10 28;
    field "PANEELI 4: JaNNITE" 10 41; field "PANEELI 4: VIRTA" 10 54;
    live 5 15; live 5 28; live 5 41; live 5 54 ].

Definition MENU_3_FIELDS : list T_TextField :=
  [ field "VIRITYS 3/3" 15 2;
    field "AKKU: JaNNITE" 10 15; field "AKKU: VIRTA" 10 28;
    field "TALLENNA" 10 41; field "PERUUTA" 10 54;
    live 5 15; live 5 28; live 5 41; live 5 54 ].

Definition CALIBRATION_MENU_FIELDS : list T_TextField :=
  [ live 40 2; live 90 2;
    field "ASETA" 15 15; live 50 15; live 95 15;
    live 40 28;
    live 7 41; field "TAKAISIN" 13 41; live 60 41; field "OK" 84 41;
    field "MITTAUS" 19 54; live 67 54 ].

Definition MENU_VIEWS : list T_MenuView :=
  [ mkMenuView PANEL_VIEW_FIELDS 15;
    mkMenuView BATTERY_VIEW_FIELDS 5;
    mkMenuView MENU_1_FIELDS 9;
    mkMenuView MENU_2_FIELDS 9;
    mkMenuView MENU_3_FIELDS 9;
    mkMenuView CALIBRATION_MENU_FIELDS 12;
    mkMenuView CALIBRATION_MENU_FIELDS 12 ].

(** ** Menu.c: view change and button actions *)

(** The loop of [Menu_ChangeView]: [n] iterations are left, [i] and [j]
    are the loop's counters. *)
Fixpoint Menu_ChangeView_loop (n : nat) (i j : Z) (view : T_MenuView)
    (cur : list T_TextField) : result (list T_TextField) :=
  match n with
  | O => Ok cur
  | S n' =>
      do f <- load "textFields" (textFields view) i ;
      match pText f with
      | UPDATABLE_DATA =>
          do cur' <- store "currentTextFields" cur i
                    (mkTextField (Table j) (tf_x f) (tf_y f)) ;
          Menu_ChangeView_loop n' (i + 1) (j + 1) view cur'
      | p =>
          do cur' <- store "currentTextFields" cur i
                    (mkTextField p (tf_x f) (tf_y f)) ;
          Menu_ChangeView_loop n' (i + 1) j view cur'
      end
  end.

Definition Menu_ChangeView (pMenu : T_MenuSystem) : result T_MenuSystem :=
  do view <- load "views" (views pMenu) (state_value (menuState pMenu)) ;
  do cur <- Menu_ChangeView_loop (Z.to_nat (textFieldCount view)) 0 0 view
           (currentTextFields pMenu) ;
  Ok (set_currentTextFields pMenu cur).

(** [currentSelection] is a [uint8_t]. *)
Definition uint8 (z : Z) : Z := z mod 256.

Definition Menu_PrimaryAction (pMenu : T_MenuSystem) : result (T_MenuSystem * Z) :=
  do pMenu' <-
    match menuState pMenu with
    | PANEL_VIEW => Menu_ChangeView (set_menuState pMenu BATTERY_VIEW)
    | BATTERY_VIEW => Menu_ChangeView (set_menuState pMenu PANEL_VIEW)
    | MENU_VIEW_1 | MENU_VIEW_2 =>
        let pMenu1 := set_currentSelection pMenu (uint8 (currentSelection pMenu + 1)) in
        if currentSelection pMenu1 >? 3 then
          Menu_ChangeView
            (set_currentSelection
               (set_menuState pMenu1 (state_incr (menuState pMenu1))) 0)
        else Ok pMenu1
    | MENU_VIEW_3 =>
        let pMenu1 := set_currentSelection pMenu (uint8 (currentSelection pMenu + 1)) in
        if currentSelection pMenu1 >? 3 then
          Menu_ChangeView (set_currentSelection (set_menuState pMenu1 MENU_VIEW_1) 0)
        else Ok pMenu1
    | CALIBRATION_VIEW_1 | CALIBRATION_VIEW_2 =>
        let pMenu1 := set_currentSelection pMenu (uint8 (currentSelection pMenu + 1)) in
        if currentSelection pMenu1 >? 1 then Ok (set_currentSelection pMenu1 0)
        else Ok pMenu1
    | NO_MENU => Ok pMenu
    end ;
  Ok (pMenu', MENU_NO_ACTION).

Definition Menu_SecondaryAction (pMenu : T_MenuSystem) : result (T_MenuSystem * Z) :=
  let result0 := MENU_NO_ACTION in
  let pMenu0 := set_previousMenu pMenu (menuState pMenu) in
  let '(pMenu1, result1) :=
    match menuState pMenu0 with
    | PANEL_VIEW | BATTERY_VIEW =>
        (set_currentSelection (set_menuState pMenu0 MENU_VIEW_1) 0, result0)
    | MENU_VIEW_1 | MENU_VIEW_2 | MENU_VIEW_3 =>
        let r := uint8 ((state_value (menuState pMenu0) - 2) * 4
                        + currentSelection pMenu0) in
        let pMenu' := set_currentSelection pMenu0 0 in
        if (r =? 10) || (r =? 11) then (set_menuState pMenu' PANEL_VIEW, r)
        else (set_menuState pMenu' CALIBRATION_VIEW_1, r)
    | CALIBRATION_VIEW_1 =>
        if 0 =? currentSelection pMenu0 then (set_menuState pMenu0 MENU_VIEW_1, result0)
        else (set_menuState pMenu0 CALIBRATION_VIEW_2, MENU_MEASURE_1)
    | CALIBRATION_VIEW_2 =>
        if 0 =? currentSelection pMenu0 then
          (set_menuState pMenu0 CALIBRATION_VIEW_1, result0)
        else (set_menuState pMenu0 MENU_VIEW_1, MENU_MEASURE_2)
    | NO_MENU => (pMenu0, result0)
    end in
  do pMenu2 <- Menu_ChangeView pMenu1 ;
  Ok (pMenu2, result1).

Definition Menu_HandleButtonState (pMenu : T_MenuSystem) (buttonState : E_ButtonClicks)
  : result (T_MenuSystem * Z) :=
  match buttonState with
  | SHORT_CLICK => Menu_PrimaryAction pMenu
  | LONG_CLICK => Menu_SecondaryAction pMenu
  | NO_CLICK => Ok (pMenu, MENU_NO_ACTION)
  end.

(** ** Menu.c: text of the updatable char tables *)

(** [Menu_CharArrayToTable]: [array] is the string literal the caller
    passes, [i] the write position, a [char] that wraps round at 256. *)
Fixpoint Menu_CharArrayToTable_loop (array table : list ascii) (i : Z)
  : result (list ascii) :=
  match array with
  | [] => store "table" table i NUL
  | c :: array' =>
      do table' <- store "table" table i c ;
      Menu_CharArrayToTable_loop array' table' (uint8 (i + 1))
  end.

Definition Menu_CharArrayToTable (array : string) (table : list ascii)
  : result (list ascii) :=
  Menu_CharArrayToTable_loop (chars array) table 0.

(** [(newValue % 10) + '0'] stored in a [char]. *)
Definition digit (newValue : Z) : ascii := char (newValue mod 10 + code "0").

(** The two loops of [Menu_FloatToCharArray].  The signed counter [i] of
    the code runs downwards from 2; the loops recurse on [k = i + 1], so
    that [k = 0] is [i = -1]. *)
Fixpoint Menu_FloatToCharArray_digits (k : nat) (charArray : list ascii)
    (newValue : Z) : result (list ascii * nat) :=
  if newValue >? 0 then
    match k with
    | O => Fault (OutOfBounds "charArray" (-1))
    | S k' =>
        do charArray' <- store "charArray" charArray (Z.of_nat k') (digit newValue) ;
        Menu_FloatToCharArray_digits k' charArray' (newValue / 10)
    end
  else Ok (charArray, k).

Fixpoint Menu_FloatToCharArray_blanks (k : nat) (charArray : list ascii)
  : result (list ascii) :=
  match k with
  | O => Ok charArray
  | S k' =>
      do charArray' <- store "charArray" charArray (Z.of_nat k') " "%char ;
      Menu_FloatToCharArray_blanks k' charArray'
  end.

(** [Menu_FloatToCharArray] from the converted value on:
    [newValue = (unsigned int)(( *value) * 100)]. *)
Definition Menu_FloatToCharArray_uint (charArray : list ascii) (newValue : Z)
  : result (list ascii) :=
  do a5 <- store "charArray" charArray 5 (digit newValue) ;
  let newValue1 := newValue / 10 in
  do a4 <- store "charArray" a5 4 (digit newValue1) ;
  let newValue2 := newValue1 / 10 in
  do a3 <- store "charArray" a4 3 ","%char ;
  do ak <-
    (if 0 =? newValue2 then
       do a2 <- store "charArray" a3 2 "0"%char ;
       Ok (a2, 2%nat)
     else Menu_FloatToCharArray_digits 3 a3 newValue2) ;
  Menu_FloatToCharArray_blanks (snd ak) (fst ak).

(** [f] applied to the row [updatableCharTables[j]]. *)
Definition with_table (tables : list (list ascii)) (j : Z)
    (f : list ascii -> result (list ascii)) : result (list (list ascii)) :=
  do t <- load "updatableCharTables" tables j ;
  do t' <- f t ;
  store "updatableCharTables" tables j t'.

(** The type [float] of the target and the one operation Menu.c applies
    to a value of it: [hundredths v] is the cast [(unsigned int)(v * 100)].
    [float_of_Z] gives the literals of Common.h, [2.0f] and the like. *)
Class FloatModel : Type := {
  float : Type;
  hundredths : float -> Z;
  float_of_Z : Z -> float
}.

Section Measurements.

Context `{FloatModel}.

Definition CALIBRATION_POINTS : list (list float) :=
  [ [ float_of_Z 2; float_of_Z 15 ];
    [ float_of_Z 1; float_of_Z 5 ] ].

Record T_CalibrationInfo : Type := mkCalibrationInfo {
  measToCalibrate : Z;
  calibResults : list float
}.

Definition Menu_FloatToCharArray (charArray : list ascii) (value : float)
  : result (list ascii) :=
  Menu_FloatToCharArray_uint charArray (hundredths value).

Definition Menu_SetCalibrationView (pMenu : T_MenuSystem)
    (pCalibInfo : T_CalibrationInfo) : result T_MenuSystem :=
  let m := measToCalibrate pCalibInfo in
  do ts1 <- with_table (updatableCharTables pMenu) 1 (Menu_CharArrayToTable "       ") ;
  do ts2 <-
    (if m >? 7 then with_table ts1 0 (Menu_CharArrayToTable "  AKKU ")
     else
       do ts <- with_table ts1 0 (Menu_CharArrayToTable "PANEELI") ;
       with_table ts 1 (fun t => store "table" t 0 (char ((m + 2) / 2 + code "0")))) ;
  let '(calibrationState, state) :=
    match menuState pMenu with
    | CALIBRATION_VIEW_2 => (1, "2/2    "%string)
    | _ => (0, "1/2    "%string)
    end in
  let '(quantity, unit, calibUnit) :=
    if 0 =? m mod 2 then ("JaNNITE"%string, "V"%char, 0)
    else ("VIRTA"%string, "A"%char, 1) in
  do ts3 <- with_table ts2 2 (Menu_CharArrayToTable quantity) ;
  do ts4 <- with_table ts3 3 (Menu_CharArrayToTable state) ;
  do points <- load "CALIBRATION_POINTS" CALIBRATION_POINTS calibUnit ;
  do point <- load "CALIBRATION_POINTS" points calibrationState ;
  do ts5 <- with_table ts4 4 (fun t => Menu_FloatToCharArray t point) ;
  do ts6 <- with_table ts5 5 (fun t => store "table" t 6 unit) ;
  do ts7 <- with_table ts6 7 (fun t => store "table" t 6 unit) ;
  Ok (set_updatableCharTables pMenu ts7).

(** The loop of the [PANEL_VIEW] case: [n] iterations are left. *)
Fixpoint Menu_UpdateTextFields_panel (n : nat) (i : Z) (pMeasResults : list float)
    (tables : list (list ascii)) : result (list (list ascii)) :=
  match n with
  | O => Ok tables
  | S n' =>
      do v <- load "pMeasResults" pMeasResults i ;
      do ts1 <- with_table tables i (fun t => Menu_FloatToCharArray t v) ;
      do ts2 <- with_table ts1 i
                  (fun t => store "table" t 6
                              (if 0 =? i mod 2 then "V"%char else "A"%char)) ;
      Menu_UpdateTextFields_panel n' (i + 1) pMeasResults ts2
  end.

(** The loop of the menu views' case. *)
Fixpoint Menu_UpdateTextFields_menu (n : nat) (i : Z) (tables : list (list ascii))
  : result (list (list ascii)) :=
  match n with
  | O => Ok tables
  | S n' =>
      do ts <- with_table tables i (Menu_CharArrayToTable "       ") ;
      Menu_UpdateTextFields_menu n' (i + 1) ts
  end.

(** The [switch] of [Menu_UpdateTextFields]: the char tables after it. *)
Definition Menu_UpdateTextFields_switch (pMenu : T_MenuSystem)
    (pMeasResults : list float) (pCalibInfo : T_CalibrationInfo)
  : result (list (list ascii)) :=
  let tables := updatableCharTables pMenu in
  match menuState pMenu with
  | PANEL_VIEW => Menu_UpdateTextFields_panel 8 0 pMeasResults tables
  | BATTERY_VIEW =>
      do v <- load "pMeasResults" pMeasResults BATTERY_VOLTAGE ;
      do ts1 <- with_table tables 0 (fun t => Menu_FloatToCharArray t v) ;
      do a <- load "pMeasResults" pMeasResults BATTERY_CURRENT ;
      do ts2 <- with_table ts1 1 (fun t => Menu_FloatToCharArray t a) ;
      do ts3 <- with_table ts2 0 (fun t => store "table" t 6 "V"%char) ;
      with_table ts3 1 (fun t => store "table" t 6 "A"%char)
  | MENU_VIEW_1 | MENU_VIEW_2 | MENU_VIEW_3 =>
      do ts <- Menu_UpdateTextFields_menu 4 0 tables ;
      with_table ts (currentSelection pMenu) (fun t => store "table" t 0 ">"%char)
  | CALIBRATION_VIEW_1 | CALIBRATION_VIEW_2 =>
      do ts2 <-
        (if 0 =? currentSelection pMenu then
           do ts1 <- with_table tables 5 (Menu_CharArrayToTable ">      ") ;
           with_table ts1 6 (Menu_CharArrayToTable "<      ")
         else
           do ts1 <- with_table tables 5 (Menu_CharArrayToTable "       ") ;
           with_table ts1 6 (Menu_CharArrayToTable "   >  <")) ;
      do v <- load "pMeasResults" pMeasResults (measToCalibrate pCalibInfo) ;
      with_table ts2 7 (fun t => Menu_FloatToCharArray t v)
  | NO_MENU => Ok tables
  end.

Definition Menu_UpdateTextFields (pMenu : T_MenuSystem) (pMeasResults : list float)
    (pCalibInfo : T_CalibrationInfo) : result T_MenuSystem :=
  do pMenu1 <-
    (match menuState pMenu with
     | NO_MENU => Menu_ChangeView (set_menuState pMenu PANEL_VIEW)
     | _ => Ok pMenu
     end) ;
  do pMenu2 <-
    (if ((5 =? state_value (menuState pMenu1)) || (6 =? state_value (menuState pMenu1)))
        && negb (state_value (menuState pMenu1) =? state_value (previousMenu pMenu1))
     then Menu_SetCalibrationView pMenu1 pCalibInfo
     else Ok pMenu1) ;
  do tables' <- Menu_UpdateTextFields_switch pMenu2 pMeasResults pCalibInfo ;
  Ok (set_updatableCharTables pMenu2 tables').

Definition Menu_UpdateView (pMenu : T_MenuSystem) (buttonState : E_ButtonClicks)
    (pMeasResults : list float) (pCalibInfo : T_CalibrationInfo)
  : result (T_MenuSystem * Z) :=
  do r <- Menu_HandleButtonState pMenu buttonState ;
  do pMenu' <- Menu_UpdateTextFields (fst r) pMeasResults pCalibInfo ;
  Ok (pMenu', snd r).

(** The menu system as [main] creates it:
    [{ NO_MENU, 0, NO_MENU, MENU_VIEWS, 0, 0 }]. *)
Definition initial_menu : T_MenuSystem :=
  mkMenuSystem NO_MENU 0 NO_MENU MENU_VIEWS
    (replicate 8 (replicate 8 NUL))
    (replicate 15 (mkTextField UPDATABLE_DATA 0 0)).

End Measurements.

(** ** LCD.c *)

Definition CHARWIDTH : Z := 5.

(** The font: five column bytes a glyph, bit 0 the top pixel. *)
Definition FONT_8P : list Z :=
  [ 0x7E; 0x09; 0x09; 0x09; 0x7E;   (* A *)
    0x7F; 0x49; 0x49; 0x49; 0x36;   (* B *)
    0x3E; 0x41; 0x41; 0x41; 0x22;   (* C *)
    0x7F; 0x41; 0x41; 0x41; 0x3E;   (* D *)
    0x7F; 0x49; 0x49; 0x49; 0x41;   (* E *)
    0x7F; 0x09; 0x09; 0x09; 0x01;   (* F *)
    0x3E; 0x41; 0x49; 0x49; 0x7A;   (* G *)
    0x7F; 0x08; 0x08; 0x08; 0x7F;   (* H *)
    0x00; 0x41; 0x7F; 0x41; 0x00;   (* I *)
    0x20; 0x40; 0x41; 0x3F; 0x01;   (* J *)
    0x7F; 0x08; 0x14; 0x22; 0x41;   (* K *)
    0x7F; 0x40; 0x40; 0x40; 0x40;   (* L *)
    0x7F; 0x02; 0x0C; 0x02; 0x7F;   (* M *)
    0x7F; 0x04; 0x08; 0x10; 0x7F;   (* N *)
    0x3E; 0x41; 0x41; 0x41; 0x3E;   (* O *)
    0x7F; 0x09; 0x09; 0x09; 0x06;   (* P *)
    0x3E; 0x41; 0x51; 0x21; 0x5E;   (* Q *)
    0x7F; 0x09; 0x19; 0x29; 0x46;   (* R *)
    0x46; 0x49; 0x49; 0x49; 0x31;   (* S *)
    0x01; 0x01; 0x7F; 0x01; 0x01;   (* T *)
    0x3F; 0x40; 0x40; 0x40; 0x3F;   (* U *)
    0x0F; 0x30; 0x40; 0x30; 0x0F;   (* V *)
    0x3F; 0x40; 0x38; 0x40; 0x3F;   (* W *)
    0x63; 0x14; 0x08; 0x14; 0x63;   (* X *)
    0x07; 0x08; 0x70; 0x08; 0x07;   (* Y *)
    0x61; 0x51; 0x49; 0x45; 0x43;   (* Z *)
    0x20; 0x55; 0x54; 0x55; 0x78;   (* a with dots *)
    0x38; 0x45; 0x44; 0x45; 0x38;   (* o with dots *)
    0x00; 0x60; 0x1C; 0x03; 0x00;   (* / *)
    0x3E; 0x51; 0x49; 0x45; 0x3E;   (* 0 *)
    0x00; 0x42; 0x7F; 0x40; 0x00;   (* 1 *)
    0x42; 0x61; 0x51; 0x49; 0x46;   (* 2 *)
    0x21; 0x41; 0x45; 0x4B; 0x31;   (* 3 *)
    0x18; 0x14; 0x12; 0x7F; 0x10;   (* 4 *)
    0x27; 0x45; 0x45; 0x45; 0x39;   (* 5 *)
    0x3C; 0x4A; 0x49; 0x49; 0x30;   (* 6 *)
    0x01; 0x71; 0x09; 0x05; 0x03;   (* 7 *)
    0x36; 0x49; 0x49; 0x49; 0x36;   (* 8 *)
    0x06; 0x49; 0x49; 0x29; 0x1E;   (* 9 *)
    0x00; 0x24; 0x00; 0x00; 0x00;   (* : *)
    0x00; 0x22; 0x14; 0x08; 0x00;   (* > *)
    0x00; 0x08; 0x14; 0x22; 0x00 ]. (* < *)

(** The chars in memory at a [char *], terminator included: a literal
    with its NUL, or the eight bytes of a char table. *)
Definition chars_at (tables : list (list ascii)) (p : char_ptr) : result (list ascii) :=
  match p with
  | UPDATABLE_DATA => Fault NullPointer
  | Literal s => Ok (chars s ++ [NUL])
  | Table j => load "updatableCharTables" tables j
  end.

(** The first loop of [LCD_UpdateScreen]: the fields' lower ends. *)
Fixpoint LCD_y_end (n : nat) (currentTextField : Z) (pTextFields : list T_TextField)
    (y_end : list Z) : result (list Z) :=
  match n with
  | O => Ok y_end
  | S n' =>
      do f <- load "pTextFields" pTextFields currentTextField ;
      do y_end' <- store "y_end" y_end currentTextField (uint8 (tf_y f + 8)) ;
      LCD_y_end n' (currentTextField + 1) pTextFields y_end'
  end.

Definition LCD_direction (y y_end currentRow : Z) : Z :=
  if (y >=? currentRow * 8) && (y <=? (currentRow + 1) * 8 - 1) then 1
  else if (y_end + 8 >=? currentRow * 8) && (y_end <=? (currentRow + 1) * 8 - 1) then 2
  else 0.

(** The shifts of the renderer work on [int], which has 16 bits on the
    MSP430, and C leaves [bits >> n] undefined for [n >= 16].  The code
    comes to such a shift: for a field whose [y_end] is 8 below the top
    of a page the count [8 - (y_end - currentRow * 8)] is 16.  The model
    leaves the value open: [undefined_shift bits n] is what the target
    makes of it. *)
Class IntModel : Type := {
  undefined_shift : Z -> Z -> Z
}.

Section Renderer.

Context {int16 : IntModel}.

(** The column byte [bits] moved to its place in the page: up the byte
    ([<<]) for a field that starts in this page, down ([>>]) for one that
    ends in it. *)
Definition LCD_shift (direction y y_end currentRow bits : Z) : Z :=
  if 1 =? direction then Z.shiftl bits (y - currentRow * 8)
  else
    let n := 8 - (y_end - currentRow * 8) in
    if n <? 16 then Z.shiftr bits n else undefined_shift bits n.

(** [msgBuffer[i] |= bits], the result kept in a [char]. *)
Definition LCD_or (msgBuffer : list Z) (i bits : Z) : result (list Z) :=
  do old <- load "msgBuffer" msgBuffer i ;
  store "msgBuffer" msgBuffer i (Z.lor old bits mod 256).

(** The loop over the five bytes of a glyph: [n] bytes are left. *)
Fixpoint LCD_glyph (n : nat) (byteOfChar : Z) (direction y y_end currentRow : Z)
    (charPosition bufferPosition : Z) (msgBuffer : list Z) : result (list Z) :=
  match n with
  | O => Ok msgBuffer
  | S n' =>
      do bits <- load "FONT_8P" FONT_8P (charPosition + byteOfChar) ;
      do msgBuffer' <- LCD_or msgBuffer (bufferPosition + byteOfChar)
                         (LCD_shift direction y y_end currentRow bits) ;
      LCD_glyph n' (byteOfChar + 1) direction y y_end currentRow
        charPosition bufferPosition msgBuffer'
  end.

(** The body of the loop over the chars of a text, for the char with
    code [c]: the page buffer and the write position after it. *)
Definition LCD_char (direction y y_end currentRow : Z) (c : Z)
    (msgBuffer : list Z) (bufferPosition : Z) : result (list Z * Z) :=
  do r <-
    (if (c >=? 65) && (c <=? 90) then Ok (uint8 ((c - 65) * 5), msgBuffer, bufferPosition)
     else if (c >=? 47) && (c <=? 58) then Ok (uint8 ((c - 19) * 5), msgBuffer, bufferPosition)
     else if 97 =? c then Ok (130, msgBuffer, bufferPosition)
     else if 111 =? c then Ok (135, msgBuffer, bufferPosition)
     else if 62 =? c then Ok (200, msgBuffer, bufferPosition)
     else if 60 =? c then Ok (205, msgBuffer, bufferPosition)
     else if (44 =? c) || (46 =? c) then
       do msgBuffer' <- LCD_or msgBuffer bufferPosition
                          (LCD_shift direction y y_end currentRow 0xC0) ;
       Ok (255, msgBuffer', uint8 (bufferPosition + 2))
     else if 32 =? c then Ok (255, msgBuffer, uint8 (bufferPosition + (CHARWIDTH + 1)))
     else Ok (255, msgBuffer, bufferPosition)) ;
  let '(charPosition, msgBuffer1, bufferPosition1) := r in
  if negb (charPosition =? 255) then
    do msgBuffer2 <- LCD_glyph (Z.to_nat CHARWIDTH) 0 direction y y_end currentRow
                       charPosition bufferPosition1 msgBuffer1 ;
    Ok (msgBuffer2, uint8 (bufferPosition1 + 6))
  else Ok (msgBuffer1, bufferPosition1).

(** The loop over the chars at [charInText], up to the terminator. *)
Fixpoint LCD_text (direction y y_end currentRow : Z) (charInText : list ascii)
    (msgBuffer : list Z) (bufferPosition : Z) : result (list Z * Z) :=
  match charInText with
  | [] => Fault Unterminated
  | c :: charInText' =>
      if code c =? 0 then Ok (msgBuffer, bufferPosition)
      else
        do r <- LCD_char direction y y_end currentRow (code c) msgBuffer bufferPosition ;
        LCD_text direction y y_end currentRow charInText' (fst r) (snd r)
  end.

(** The loop over the text fields for one row: [n] fields are left. *)
Fixpoint LCD_fields (n : nat) (currentTextField : Z) (tables : list (list ascii))
    (pTextFields : list T_TextField) (y_end : list Z) (currentRow : Z)
    (msgBuffer : list Z) : result (list Z) :=
  match n with
  | O => Ok msgBuffer
  | S n' =>
      do f <- load "pTextFields" pTextFields currentTextField ;
      do ye <- load "y_end" y_end currentTextField ;
      let direction := LCD_direction (tf_y f) ye currentRow in
      do msgBuffer' <-
        (if negb (direction =? 0) then
           do charInText <- chars_at tables (pText f) ;
           do r <- LCD_text direction (tf_y f) ye currentRow charInText
                     msgBuffer (tf_x f) ;
           Ok (fst r)
         else Ok msgBuffer) ;
      LCD_fields n' (currentTextField + 1) tables pTextFields y_end currentRow msgBuffer'
  end.

(** One pass of the loop over the rows: the 128 bytes handed to
    [LCD_SendData] for [currentRow]. *)
Definition LCD_row (tables : list (list ascii)) (pTextFields : list T_TextField)
    (textFieldCount : Z) (y_end : list Z) (currentRow : Z) : result (list Z) :=
  LCD_fields (Z.to_nat textFieldCount) 0 tables pTextFields y_end currentRow
    (replicate 128 0).

Fixpoint LCD_rows (n : nat) (currentRow : Z) (tables : list (list ascii))
    (pTextFields : list T_TextField) (textFieldCount : Z) (y_end : list Z)
  : result (list (list Z)) :=
  match n with
  | O => Ok []
  | S n' =>
      do page <- LCD_row tables pTextFields textFieldCount y_end currentRow ;
      do pages <- LCD_rows n' (currentRow + 1) tables pTextFields textFieldCount y_end ;
      Ok (page :: pages)
  end.

(** [LCD_UpdateScreen]: the eight pages sent to the display, top page
    first.  [tables] is the memory the fields' table pointers point into. *)
Definition LCD_UpdateScreen (tables : list (list ascii)) (pTextFields : list T_TextField)
    (textFieldCount : Z) : result (list (list Z)) :=
  do y_end <- LCD_y_end (Z.to_nat textFieldCount) 0 pTextFields (replicate 15 0) ;
  LCD_rows 8 0 tables pTextFields textFieldCount y_end.

End Renderer.

(** * Notions the properties are stated with *)

(** A char table holds a C string: eight bytes, the last one NUL. *)
Definition row_ok (t : list ascii) : Prop :=
  length t = 8%nat /\ t !! 7%nat = Some NUL.

Definition tables_ok (tables : list (list ascii)) : Prop :=
  length tables = 8%nat /\ Forall row_ok tables.

Definition menu_view (s : E_MenuStates) : bool :=
  match s with
  | MENU_VIEW_1 | MENU_VIEW_2 | MENU_VIEW_3 => true
  | _ => false
  end.

Definition calibration_view (s : E_MenuStates) : bool :=
  match s with
  | CALIBRATION_VIEW_1 | CALIBRATION_VIEW_2 => true
  | _ => false
  end.

(** The selection is within the range of the view shown. *)
Definition selection_in_range (pMenu : T_MenuSystem) : Prop :=
  0 <= currentSelection pMenu <= 3 /\
  (menu_view (menuState pMenu) = true -> currentSelection pMenu <= 3) /\
  (calibration_view (menuState pMenu) = true -> currentSelection pMenu <= 1).

Definition selection_ok (s : E_MenuStates) (selection : Z) : Prop :=
  match s with
  | MENU_VIEW_1 | MENU_VIEW_2 | MENU_VIEW_3 => 0 <= selection <= 3
  | CALIBRATION_VIEW_1 | CALIBRATION_VIEW_2 => 0 <= selection <= 1
  | PANEL_VIEW | BATTERY_VIEW | NO_MENU => selection = 0
  end.

(** The fields of a view with the null pointers replaced by the char
    tables, in order, as [Menu_ChangeView] does it. *)
Fixpoint bind_fields (fs : list T_TextField) (j : Z) : list T_TextField :=
  match fs with
  | [] => []
  | f :: fs' =>
      match pText f with
      | UPDATABLE_DATA => mkTextField (Table j) (tf_x f) (tf_y f) :: bind_fields fs' (j + 1)
      | _ => f :: bind_fields fs' j
      end
  end.

Definition view_of (s : E_MenuStates) : T_MenuView :=
  match MENU_VIEWS !! Z.to_nat (state_value s) with
  | Some view => view
  | None => mkMenuView [] 0
  end.

Definition fields_of (s : E_MenuStates) : list T_TextField :=
  bind_fields (take (Z.to_nat (textFieldCount (view_of s))) (textFields (view_of s))) 0.

(** The two char tables of the calibration views that stand close to the
    right edge of the display. *)
Definition calibration_rows (tables : list (list ascii)) : Prop :=
  (exists c, tables !! 1%nat = Some (c :: chars "      " ++ [NUL])) /\
  (tables !! 3%nat = Some (chars "1/2    " ++ [NUL]) \/
   tables !! 3%nat = Some (chars "2/2    " ++ [NUL])).

(** What holds of the menu system between two calls. *)
Record menu_pre (pMenu : T_MenuSystem) : Prop := {
  pre_views : views pMenu = MENU_VIEWS;
  pre_tables : tables_ok (updatableCharTables pMenu);
  pre_fields : length (currentTextFields pMenu) = 15%nat;
  pre_selection : selection_ok (menuState pMenu) (currentSelection pMenu);
  pre_previous : calibration_view (menuState pMenu) = true ->
                 previousMenu pMenu <> menuState pMenu;
  pre_bound : menuState pMenu <> NO_MENU ->
              take (length (fields_of (menuState pMenu))) (currentTextFields pMenu)
              = fields_of (menuState pMenu)
}.

Record menu_inv (pMenu : T_MenuSystem) : Prop := {
  inv_pre : menu_pre pMenu;
  inv_rows : calibration_view (menuState pMenu) = true ->
             calibration_rows (updatableCharTables pMenu)
}.

(** The transitions as a table: the view and the selection after a short
    click ... *)
Definition table_short_click (s : E_MenuStates) (selection : Z) : E_MenuStates * Z :=
  match s with
  | PANEL_VIEW => (BATTERY_VIEW, selection)
  | BATTERY_VIEW => (PANEL_VIEW, selection)
  | MENU_VIEW_1 => if selection <? 3 then (MENU_VIEW_1, selection + 1) else (MENU_VIEW_2, 0)
  | MENU_VIEW_2 => if selection <? 3 then (MENU_VIEW_2, selection + 1) else (MENU_VIEW_3, 0)
  | MENU_VIEW_3 => if selection <? 3 then (MENU_VIEW_3, selection + 1) else (MENU_VIEW_1, 0)
  | CALIBRATION_VIEW_1 => (CALIBRATION_VIEW_1, if selection <? 1 then selection + 1 else 0)
  | CALIBRATION_VIEW_2 => (CALIBRATION_VIEW_2, if selection <? 1 then selection + 1 else 0)
  | NO_MENU => (NO_MENU, selection)
  end.

(** ... and the view, the selection and the task after a long click. *)
Definition table_long_click (s : E_MenuStates) (selection : Z)
  : E_MenuStates * Z * Z :=
  match s with
  | PANEL_VIEW | BATTERY_VIEW => (MENU_VIEW_1, 0, MENU_NO_ACTION)
  | MENU_VIEW_1 | MENU_VIEW_2 | MENU_VIEW_3 =>
      let task := (state_value s - 2) * 4 + selection in
      (if task <? 10 then CALIBRATION_VIEW_1 else PANEL_VIEW, 0, task)
  | CALIBRATION_VIEW_1 =>
      match selection with
      | 0 => (MENU_VIEW_1, selection, MENU_NO_ACTION)
      | _ => (CALIBRATION_VIEW_2, selection, MENU_MEASURE_1)
      end
  | CALIBRATION_VIEW_2 =>
      match selection with
      | 0 => (CALIBRATION_VIEW_1, selection, MENU_NO_ACTION)
      | _ => (MENU_VIEW_1, selection, MENU_MEASURE_2)
      end
  | NO_MENU => (NO_MENU, selection, MENU_NO_ACTION)
  end.

(** The text update leaves [NO_MENU] for [PANEL_VIEW]. *)
Definition shown_view (s : E_MenuStates) : E_MenuStates :=
  match s with
  | NO_MENU => PANEL_VIEW
  | _ => s
  end.

(** The view, the selection and the task after a call of
    [Menu_UpdateView]: the button action, then the text update. *)
Definition table_update (s : E_MenuStates) (selection : Z) (buttonState : E_ButtonClicks)
  : E_MenuStates * Z * Z :=
  let '(s', selection', task) :=
    match buttonState with
    | NO_CLICK => (s, selection, MENU_NO_ACTION)
    | SHORT_CLICK => (table_short_click s selection, MENU_NO_ACTION)
    | LONG_CLICK => table_long_click s selection
    end in
  (shown_view s', selection', task).

Fixpoint table_updates (s : E_MenuStates) (selection : Z) (clicks : list E_ButtonClicks)
  : list (E_MenuStates * Z * Z) :=
  match clicks with
  | [] => []
  | c :: clicks' =>
      let r := table_update s selection c in
      r :: table_updates (fst (fst r)) (snd (fst r)) clicks'
  end.

(** The six characters [Menu_FloatToCharArray] writes for the converted
    value [n], first to last. *)
Definition lead (m : Z) : ascii := if m >? 0 then digit m else " "%char.

Definition float_text (n : Z) : list ascii :=
  [lead (n / 10000); lead (n / 1000); digit (n / 100); ","%char;
   digit (n / 10); digit n].

(** The text of a value below 100, said in words: the decimal digits of
    [n], the value in hundredths, around a comma; no leading zero but the
    one before the comma. *)
Definition decimal (d : Z) : ascii :=
  match d with
  | 0 => "0" | 1 => "1" | 2 => "2" | 3 => "3" | 4 => "4"
  | 5 => "5" | 6 => "6" | 7 => "7" | 8 => "8" | 9 => "9"
  | _ => "?"
  end%char.

Definition fixed_text (n : Z) : list ascii :=
  [ " "%char;
    if n / 100 <? 10 then " "%char else decimal (n / 100 / 10);
    decimal ((n / 100) mod 10);
    ","%char;
    decimal ((n / 10) mod 10);
    decimal (n mod 10) ].

Definition unit_letter (channel : Z) : ascii :=
  if Z.even channel then "V"%char else "A"%char.

(** The char table [row] shows the measurement [channel]: the panel view
    has the eight panel measurements, the battery view the two of the
    battery. *)
Definition measurement_row (s : E_MenuStates) (row channel : Z) : Prop :=
  match s with
  | PANEL_VIEW => 0 <= row < 8 /\ channel = row
  | BATTERY_VIEW => 0 <= row < 2 /\ channel = 8 + row
  | _ => False
  end.

(** A function on the rows that keeps them C strings of eight bytes. *)
Definition keeps_row (f : list ascii -> result (list ascii)) : Prop :=
  forall t t', row_ok t -> f t = Ok t' -> row_ok t'.

Definition total_row (f : list ascii -> result (list ascii)) : Prop :=
  forall t, row_ok t -> exists t', f t = Ok t'.

(** A value [Menu_FloatToCharArray] can write into a char table: its
    integer part has at most three digits. *)
Definition displayable (n : Z) : Prop := 0 <= n /\ n / 100 < 1000.

Section Reachable.

Context `{FloatModel}.

(** The states of the menu system: the initial one, and those a call of
    [Menu_UpdateView] returns with. *)
Inductive reachable : T_MenuSystem -> Prop :=
| reachable_initial : reachable initial_menu
| reachable_update (pMenu : T_MenuSystem) (buttonState : E_ButtonClicks)
    (pMeasResults : list float) (pCalibInfo : T_CalibrationInfo)
    (pMenu' : T_MenuSystem) (task : Z) :
    reachable pMenu ->
    Menu_UpdateView pMenu buttonState pMeasResults pCalibInfo
      = Ok (pMenu', task) ->
    reachable pMenu'.

(** The cycles of [main] as far as the menu goes: one call of
    [Menu_UpdateView] a click, here with the same measurements every time;
    the result is the menu system and the task after each call. *)
Fixpoint Menu_updates (pMenu : T_MenuSystem) (clicks : list E_ButtonClicks)
    (pMeasResults : list float) (pCalibInfo : T_CalibrationInfo)
  : result (list (T_MenuSystem * Z)) :=
  match clicks with
  | [] => Ok []
  | c :: clicks' =>
      do r <- Menu_UpdateView pMenu c pMeasResults pCalibInfo ;
      do rs <- Menu_updates (fst r) clicks' pMeasResults pCalibInfo ;
      Ok (r :: rs)
  end.

(** A char table refreshed with one value after the other. *)
Fixpoint Menu_FloatToCharArray_each (charArray : list ascii) (values : list float)
  : result (list ascii) :=
  match values with
  | [] => Ok charArray
  | v :: values' =>
      do charArray' <- Menu_FloatToCharArray charArray v ;
      Menu_FloatToCharArray_each charArray' values'
  end.

(** What a trace shows of the state machine: view, selection, task. *)
Definition shown (r : T_MenuSystem * Z) : E_MenuStates * Z * Z :=
  (menuState (fst r), currentSelection (fst r), snd r).

(** The calibration points can be displayed. *)
Definition points_ok : Prop :=
  forall row v, row ∈ CALIBRATION_POINTS -> v ∈ row -> displayable (hundredths v).

(** Inputs [main] can pass: ten measurements that can be displayed and
    the number of a measurement. *)
Definition inputs_ok (pMeasResults : list float) (pCalibInfo : T_CalibrationInfo)
  : Prop :=
  length pMeasResults = 10%nat
  /\ (forall v, v ∈ pMeasResults -> displayable (hundredths v))
  /\ 0 <= measToCalibrate pCalibInfo <= 9.

End Reachable.

(** ** The renderer *)

(** The characters the renderer knows: the letters A to Z, a, o, the
    slash, the digits, the colon, the two markers, comma, full stop and
    space. *)
Definition supported (c : ascii) : bool :=
  existsb (Ascii.eqb c) (chars "ABCDEFGHIJKLMNOPQRSTUVWXYZao/0123456789:><,. ").

(** Where the glyph of a character starts in the font, for those that
    have one. *)
Definition glyph_position (c : ascii) : option Z :=
  let z := code c in
  if (z >=? 65) && (z <=? 90) then Some ((z - 65) * 5)
  else if (z >=? 47) && (z <=? 58) then Some ((z - 19) * 5)
  else if 97 =? z then Some 130
  else if 111 =? z then Some 135
  else if 62 =? z then Some 200
  else if 60 =? z then Some 205
  else None.

Section Drawing.

Context {int16 : IntModel}.

(** What the field at row [y] gives the page [currentRow] of the column
    byte [bits] of one of its glyphs. *)
Definition contribution (y currentRow bits : Z) : Z :=
  let y_end := uint8 (y + 8) in
  let direction := LCD_direction y y_end currentRow in
  if direction =? 0 then 0
  else LCD_shift direction y y_end currentRow bits mod 256.

(** The number of character cells a text takes on the display: the
    chars before the NUL, not counting spaces at the end. *)
Fixpoint drawn (charInText : list ascii) : nat :=
  match charInText with
  | [] => 0
  | c :: charInText' =>
      if code c =? 0 then 0%nat
      else
        match drawn charInText' with
        | O => if code c =? 32 then 0%nat else 1%nat
        | S n => S (S n)
        end
  end.

Fixpoint terminated (charInText : list ascii) : bool :=
  match charInText with
  | [] => false
  | c :: charInText' => (code c =? 0) || terminated charInText'
  end.

(** A text that starts at column [x] and ends before the right edge of
    the display: a cell is six columns wide, the last column of a glyph is
    the fifth. *)
Definition fits (x : Z) (charInText : list ascii) : bool :=
  terminated charInText && (0 <=? x) && (x + 6 * Z.of_nat (drawn charInText) <=? 129).

Definition field_fits (tables : list (list ascii)) (f : T_TextField) : Prop :=
  exists charInText,
    chars_at tables (pText f) = Ok charInText /\ fits (tf_x f) charInText = true.

(** The call of [LCD_UpdateScreen] in [main]. *)
Definition main_LCD_UpdateScreen (menu : T_MenuSystem) : result (list (list Z)) :=
  do view <- load "views" (views menu) (state_value (menuState menu)) ;
  LCD_UpdateScreen (updatableCharTables menu) (currentTextFields menu)
    (textFieldCount view).

(** The two parts of a column byte, shifted back and put together. *)
Definition recombined (g k : Z) : Z :=
  Z.lor (Z.shiftr (Z.shiftl g k mod 256) k) (Z.shiftl (Z.shiftr g (8 - k)) (8 - k)).

(** Two text fields at the same place whose texts the renderer draws
    alike, whatever the page and the buffer. *)
Definition drawn_alike (tables tables' : list (list ascii)) (f f' : T_TextField) : Prop :=
  tf_x f = tf_x f' /\ tf_y f = tf_y f'
  /\ forall direction y y_end currentRow msgBuffer bufferPosition,
       (do charInText <- chars_at tables (pText f) ;
        LCD_text direction y y_end currentRow charInText msgBuffer bufferPosition)
       = (do charInText <- chars_at tables' (pText f') ;
          LCD_text direction y y_end currentRow charInText msgBuffer bufferPosition).

End Drawing.

(** A target on which a shift by the width of [int] or more moves all
    bits out. *)
Definition shift_out : IntModel := {| undefined_shift := fun _ _ => 0 |}.

(** ** Example inputs *)

(** Floats given by their hundredths. *)
Definition centi_floats : FloatModel :=
  {| float := Z; hundredths := fun z => z; float_of_Z := fun z => 100 * z |}.

Definition example_measurements : list Z :=
  [1234; 5; 99; 0; 100; 9999; 65535; 1000; 1380; 42].

Definition example_calibration : T_CalibrationInfo (H := centi_floats) :=
  mkCalibrationInfo (H := centi_floats) 3 [0; 0].

(** The clicks that lead to the second calibration view. *)
Definition example_clicks : list E_ButtonClicks :=
  [NO_CLICK; LONG_CLICK; SHORT_CLICK; SHORT_CLICK; SHORT_CLICK; LONG_CLICK;
   SHORT_CLICK; LONG_CLICK].

(** The menu system after the clicks, with the example inputs. *)
Fixpoint example_run (pMenu : T_MenuSystem) (clicks : list E_ButtonClicks)
  : T_MenuSystem :=
  match clicks with
  | [] => pMenu
  | c :: clicks' =>
      match Menu_UpdateView (H := centi_floats) pMenu c
              example_measurements example_calibration with
      | Ok r => example_run (fst r) clicks'
      | Fault _ => pMenu
      end
  end.

(** The menu system in a menu view, selection 2, and in the second
    calibration view, selection 1. *)
Definition example_menu_view : T_MenuSystem :=
  Eval vm_compute in example_run initial_menu (take 4 example_clicks).

Definition example_calibration_view_2 : T_MenuSystem :=
  Eval vm_compute in example_run initial_menu example_clicks.

(** * Further notions *)

(** The C string a char table holds: the chars before the first NUL. *)
Fixpoint c_string (t : list ascii) : list ascii :=
  match t with
  | [] => []
  | c :: t' => if code c =? 0 then [] else c :: c_string t'
  end.

(** The menu system after a long click in the menu view of the
    examples, selection 2: the first calibration view. *)
Definition example_calibration_view_1 : T_MenuSystem :=
  Eval vm_compute in example_run initial_menu (take 4 example_clicks ++ [LONG_CLICK]).

Section CalibrationPoints.

Context `{FloatModel}.

(** The calibration point a calibration view asks for: 2 V and 15 V for
    a voltage, the channels of even number, 1 A and 5 A for a current. *)
Definition calibration_point (measToCalibrate : Z) (s : E_MenuStates) : float :=
  float_of_Z
    match Z.even measToCalibrate, s with
    | true, CALIBRATION_VIEW_2 => 15
    | true, _ => 2
    | false, CALIBRATION_VIEW_2 => 5
    | false, _ => 1
    end.

End CalibrationPoints.

(** The short clicks that lead round a view: the measurement views
    alternate, the three menu views have twelve lines in all, a
    calibration view has two. *)
Definition round_length (s : E_MenuStates) : nat :=
  match s with
  | MENU_VIEW_1 | MENU_VIEW_2 | MENU_VIEW_3 => 12
  | _ => 2
  end.

(** The char table a text field shows, if it shows one. *)
Definition table_of (f : T_TextField) : option Z :=
  match pText f with
  | Table j => Some j
  | _ => None
  end.

(** A text field of the menu system stands where the field of the view
    stands, with the same text if the view gives one. *)
Definition bound_to (f' f : T_TextField) : Prop :=
  tf_x f' = tf_x f /\ tf_y f' = tf_y f
  /\ match pText f with
     | UPDATABLE_DATA => exists j, pText f' = Table j
     | p => pText f' = p
     end.

(** * Charger.c: the push button and the main loop *)

Definition SHORT_CLICK_THRESHOLD : Z := 20.

Definition BIT2 : Z := 4.

(** [pressedCounter] is a [uint16_t]. *)
Definition uint16 (z : Z) : Z := z mod 65536.

(** The static variables of [Charger_IsButtonClicked]. *)
Record T_Button : Type := mkButton {
  buttonPressed : Z;
  pressedCounter : Z
}.

(** [Charger_IsButtonClicked]: [P3IN] is the value read from the port,
    the button pulls bit 2 down. *)
Definition Charger_IsButtonClicked (statics : T_Button) (P3IN : Z)
  : T_Button * E_ButtonClicks :=
  let isClicked := NO_CLICK in
  if Z.land P3IN BIT2 =? 0 then
    if 0 =? buttonPressed statics then
      (mkButton (uint8 (buttonPressed statics + 1)) (pressedCounter statics), isClicked)
    else
      let isClicked1 :=
        if pressedCounter statics =? SHORT_CLICK_THRESHOLD then LONG_CLICK
        else isClicked in
      (mkButton (buttonPressed statics) (uint16 (pressedCounter statics + 1)), isClicked1)
  else if 1 =? buttonPressed statics then
    let isClicked1 :=
      if pressedCounter statics <? SHORT_CLICK_THRESHOLD then SHORT_CLICK
      else isClicked in
    (mkButton 0 0, isClicked1)
  else (statics, isClicked).

(** The calls of [Charger_IsButtonClicked] in successive cycles of the
    main loop, [P3IN] read anew in each: the statics after the last call
    and the clicks returned. *)
Fixpoint Charger_clicks (statics : T_Button) (pins : list Z)
  : T_Button * list E_ButtonClicks :=
  match pins with
  | [] => (statics, [])
  | P3IN :: pins' =>
      let '(statics1, isClicked) := Charger_IsButtonClicked statics P3IN in
      let '(statics2, clicks) := Charger_clicks statics1 pins' in
      (statics2, isClicked :: clicks)
  end.

(** The button is down when bit 2 of the port reads 0. *)
Definition button_down (P3IN : Z) : Prop := Z.land P3IN BIT2 = 0.

(** What is known of the statics after [k] cycles with the button down
    in a row. *)
Definition button_run (statics : T_Button) (k : Z) : Prop :=
  (buttonPressed statics = 0 /\ pressedCounter statics = 0 /\ k = 0)
  \/ (buttonPressed statics = 1 /\ pressedCounter statics = (k - 1) mod 65536 /\ 1 <= k).

(** The ADC channels of the ten measurements. *)
Definition MEAS_LOOKUP_TABLE : list Z := [14; 13; 12; 11; 10; 9; 8; 7; 2; 0].

Section Main.

Context `{FloatModel} {int16 : IntModel}.

(** What a pass of the main loop reads: the port of the button, and the
    raw values and results that [Charger_MeasureADC] has left in
    [measInfo]. *)
Record T_Inputs : Type := mkInputs {
  P3IN : Z;
  rawMeas : list Z;
  measResults : list float
}.

(** The variables of [main] that the button, the menu and the display
    work with. *)
Record T_Charger : Type := mkCharger {
  button : T_Button;
  menu : T_MenuSystem;
  calib : T_CalibrationInfo
}.

(** [T_MenuSystem menu = { NO_MENU, 0, NO_MENU, MENU_VIEWS, 0, 0 }],
    [T_CalibrationInfo calib = { 0, { 0, 0 } }], and the statics of the
    button. *)
Definition main_initial : T_Charger :=
  mkCharger (mkButton 0 0) initial_menu
    (mkCalibrationInfo 0 [float_of_Z 0; float_of_Z 0]).

(** The [switch (menuAction)] of the main loop, for [calib]; the calls
    of the Adjustment module in its branches work on [measInfo] and the
    flash memory only.  [float_of_Z] is the conversion of the raw
    [unsigned int] to [float]. *)
Definition main_switch (menuAction : Z) (inputs : T_Inputs)
    (calib : T_CalibrationInfo) : result T_CalibrationInfo :=
  if menuAction =? MENU_NO_ACTION then Ok calib
  else if menuAction =? MENU_MEASURE_1 then
    do channel <- load "MEAS_LOOKUP_TABLE" MEAS_LOOKUP_TABLE (measToCalibrate calib) ;
    do raw <- load "rawMeas" (rawMeas inputs) channel ;
    do results <- store "calibResults" (calibResults calib) 0 (float_of_Z raw) ;
    Ok (mkCalibrationInfo (measToCalibrate calib) results)
  else if menuAction =? MENU_MEASURE_2 then
    do channel <- load "MEAS_LOOKUP_TABLE" MEAS_LOOKUP_TABLE (measToCalibrate calib) ;
    do raw <- load "rawMeas" (rawMeas inputs) channel ;
    do results <- store "calibResults" (calibResults calib) 1 (float_of_Z raw) ;
    Ok (mkCalibrationInfo (measToCalibrate calib) results)
  else if menuAction =? MENU_SAVE then Ok calib
  else if menuAction =? MENU_CANCEL then Ok calib
  else Ok (mkCalibrationInfo (uint8 menuAction) (calibResults calib)).

(** The statements of the loop of [main] from the call of
    [Charger_IsButtonClicked] to the call of [LCD_UpdateScreen]: the
    click, the menu update, the switch and the display update.  The
    result is the variables after them and the pages sent to the
    display.  This is not a whole pass: the measurement and the PWM
    control before these statements are taken by their results in
    [inputs], and the statements behind them, the counter of
    [LCD_Initialize] and the delay loop (see [main_delay]), are not
    part of it. *)
Definition main_button_to_display (st : T_Charger) (inputs : T_Inputs)
  : result (T_Charger * list (list Z)) :=
  let '(button1, buttonClick) := Charger_IsButtonClicked (button st) (P3IN inputs) in
  do r <- Menu_UpdateView (menu st) buttonClick (measResults inputs) (calib st) ;
  do calib1 <- main_switch (snd r) inputs (calib st) ;
  do pages <- main_LCD_UpdateScreen (fst r) ;
  Ok (mkCharger button1 (fst r) calib1, pages).

(** Inputs with fifteen raw values and ten results that can be
    displayed. *)
Definition inputs_fine (inputs : T_Inputs) : Prop :=
  length (rawMeas inputs) = 15%nat
  /\ length (measResults inputs) = 10%nat
  /\ forall v, v ∈ measResults inputs -> displayable (hundredths v).

(** The variables as [main] creates them, or with a menu system that has
    a view. *)
Definition main_inv (st : T_Charger) : Prop :=
  0 <= measToCalibrate (calib st) <= 9
  /\ length (calibResults (calib st)) = 2%nat
  /\ ((menu st = initial_menu /\ button st = mkButton 0 0)
      \/ (menu_inv (menu st) /\ menuState (menu st) <> NO_MENU)).

End Main.

(** Example inputs: the button down, the example measurements. *)
Definition example_inputs : T_Inputs (H := centi_floats) :=
  mkInputs (H := centi_floats) 0 (replicate 15 512) example_measurements.

(** The delay at the end of a pass of the loop of [main],
    [for (cycleDelay = 0; cycleDelay < 50000; cycleDelay++);] with
    [uint8_t cycleDelay].  One round of the loop: the test of the
    condition and, where it holds, the increment; [None] when the loop is
    left. *)
Definition main_delay_round (cycleDelay : Z) : option Z :=
  if cycleDelay <? 50000 then Some (uint8 (cycleDelay + 1)) else None.

(** [n] rounds of the loop from the counter [cycleDelay] on: the counter
    after them, [None] when the loop has been left before. *)
Fixpoint main_delay_rounds (n : nat) (cycleDelay : Z) : option Z :=
  match n with
  | O => Some cycleDelay
  | S n' =>
      match main_delay_round cycleDelay with
      | Some cycleDelay' => main_delay_rounds n' cycleDelay'
      | None => None
      end
  end.

(** The loop from its start, [cycleDelay = 0]. *)
Definition main_delay (n : nat) : option Z := main_delay_rounds n 0.

(** * LCD.c: commands and the transfer to the display *)

(** [LCD_SetRowColumn]: the three command bytes [setArray] that the
    function hands to [LCD_SendCommands]; [row] and [column] are
    [uint8_t], the bytes are [char]. *)
Definition LCD_SetRowColumn (row column : Z) : list Z :=
  let setArray0 := (0xB0 + row) mod 256 in
  let setArray1 := 0x10 in
  let setArray1 :=
    if column >? 15 then Z.lor setArray1 (Z.shiftr column 4) mod 256 else setArray1 in
  let setArray2 := Z.land 0x0F column in
  [setArray0; setArray1; setArray2].

(** The variables of LCD.c behind a transfer, the two bits of the ports
    and the interrupt enable bit the code sets, and the bytes written to
    [UCB0TXBUF] so far. *)
Record T_Transfer : Type := mkTransfer {
  msgBuffer : list Z;
  msgLength : Z;
  msgIndex : Z;
  isTransferReady : Z;
  UCB0TXIE : bool;
  P4OUT_BIT0 : bool;
  P2OUT_BIT5 : bool;
  UCB0TXBUF : list Z
}.

(** [LCD_SendData] behind its wait: [None] where the function waits for
    the interrupt routine to end the transfer before. *)
Definition LCD_SendData (st : T_Transfer) (length : Z) : option T_Transfer :=
  if 0 =? isTransferReady st then None
  else
    Some (mkTransfer (msgBuffer st) (uint8 length) (msgIndex st) 0 true false
            (P2OUT_BIT5 st) (UCB0TXBUF st)).

(** [USCI0TX_ISR], the interrupt routine of the transmitter. *)
Definition USCI0TX_ISR (st : T_Transfer) : result T_Transfer :=
  do byte <- load "msgBuffer" (msgBuffer st) (msgIndex st) ;
  let UCB0TXBUF1 := UCB0TXBUF st ++ [byte] in
  let msgIndex1 := uint8 (msgIndex st + 1) in
  if msgIndex1 >=? msgLength st then
    Ok (mkTransfer (msgBuffer st) 0 0 1 false true true UCB0TXBUF1)
  else
    Ok (mkTransfer (msgBuffer st) (msgLength st) msgIndex1 (isTransferReady st)
          (UCB0TXIE st) (P4OUT_BIT0 st) (P2OUT_BIT5 st) UCB0TXBUF1).

(** The interrupt routine run [n] times. *)
Fixpoint USCI0TX_ISR_times (n : nat) (st : T_Transfer) : result T_Transfer :=
  match n with
  | O => Ok st
  | S n' =>
      do st1 <- USCI0TX_ISR st ;
      USCI0TX_ISR_times n' st1
  end.

(** * The renderer: pixels *)

(** Every pixel that is set in [page] is set in [page']. *)
Definition covers (page page' : list Z) : Prop :=
  length page' = length page
  /\ forall (i : nat) (b b' : Z),
       page !! i = Some b -> page' !! i = Some b' -> Z.land b b' = b.

(** A page buffer holds bytes. *)
Definition bytes (page : list Z) : Prop := Forall (fun b => 0 <= b < 256) page.

(** * Adjustment.c: the adjustment data and the flash memory *)

Module Adjustment.

(** A [float] is taken by its four bytes, as the module reads and
    writes it through [char] pointers; an array of floats is a list of
    such quadruples, and so is a [char [10][4]].  A byte is a value from
    0 to 255: plain [char] has no sign with the compilers of the
    MSP430, and the test [*pFlash != 0xFF] compares with 255.  The
    flash memory is the list of the bytes from address [0x1000] on; a
    write to it is taken as the store the C statement says, the
    registers of the flash controller are left out. *)
Definition CONVERSION_COEFFICIENT_ADDRESS : Z := 0x1000.
Definition CONVERSION_OFFSET_ADDRESS : Z := 0x1040.

Definition PANEL_VOLTAGE_COEFF : list Z := [0x3F; 0xE9; 0x13; 0x3D].
Definition PANEL_VOLTAGE_OFFSET : list Z := [0x00; 0xEF; 0x6E; 0xBD].
Definition BATTERY_VOLTAGE_COEFF : list Z := [0x3F; 0xE9; 0xB2; 0x3C].
Definition ZERO : list Z := [0x00; 0x00; 0x00; 0x00].

(** The factory tables; the four panels have the same values. *)
Definition ADJUSTMENT_COEFFICIENTS : list (list Z) :=
  [ PANEL_VOLTAGE_COEFF; ZERO; PANEL_VOLTAGE_COEFF; ZERO;
    PANEL_VOLTAGE_COEFF; ZERO; PANEL_VOLTAGE_COEFF; ZERO;
    BATTERY_VOLTAGE_COEFF; ZERO ].

Definition ADJUSTMENT_OFFSETS : list (list Z) :=
  [ PANEL_VOLTAGE_OFFSET; ZERO; PANEL_VOLTAGE_OFFSET; ZERO;
    PANEL_VOLTAGE_OFFSET; ZERO; PANEL_VOLTAGE_OFFSET; ZERO;
    ZERO; ZERO ].

Record T_MeasureInformation : Type := mkMeasureInformation {
  rawMeas : list Z;
  measResults : list (list Z);
  adjustmentCoeff : list (list Z);
  adjustmentOffset : list (list Z)
}.

(** The flash memory is the list of its bytes from the address
    [0x1000] on; [flash_index] is the place of an address in it. *)
Definition flash_index (address : Z) : Z := address - 0x1000.

(** The byte [k] of an array of floats, read and written through a
    [char] pointer to its start. *)
Definition byte_load (array : string) (a : list (list Z)) (k : Z) : result Z :=
  do f <- load array a (k / 4) ;
  load array f (k mod 4).

Definition byte_store (array : string) (a : list (list Z)) (k : Z) (b : Z)
  : result (list (list Z)) :=
  do f <- load array a (k / 4) ;
  do f' <- store array f (k mod 4) b ;
  store array a (k / 4) f'.

(** The loop of [Adjustment_WriteToFlash]: [n] bytes are left, [i] have
    been written. *)
Fixpoint Adjustment_WriteToFlash_loop (n : nat) (i : Z) (pCharFloats : list (list Z))
    (flash : list Z) (pFlash : Z) : result (list Z) :=
  match n with
  | O => Ok flash
  | S n' =>
      do b <- byte_load "pCharFloats" pCharFloats i ;
      do flash' <- store "pFlash" flash (flash_index (pFlash + i)) b ;
      Adjustment_WriteToFlash_loop n' (i + 1) pCharFloats flash' pFlash
  end.

(** [Adjustment_WriteToFlash]: the floats and the flash memory after it.
    The writes to the flash memory are taken as the stores C has them
    for; the registers of the flash controller are left out. *)
Definition Adjustment_WriteToFlash (pFloats : list (list Z)) (flash : list Z)
    (pFlash : Z) (floatCount : Z) : result (list (list Z) * list Z) :=
  do pFloats1 <- byte_store "pCharFloats" pFloats 0 0x00 ;
  do flash' <- Adjustment_WriteToFlash_loop (Z.to_nat (floatCount * 4)) 0
                 pFloats1 flash pFlash ;
  Ok (pFloats1, flash').

(** The inner loop of [Adjustment_ReadFloatsFromFlash]:
    [pResult[j] = *pFlash++]. *)
Fixpoint Adjustment_ReadFloatsFromFlash_bytes (n : nat) (j : Z) (flash : list Z)
    (pFlash : Z) (pResult : list Z) : result (list Z * Z) :=
  match n with
  | O => Ok (pResult, pFlash)
  | S n' =>
      do b <- load "pFlash" flash (flash_index pFlash) ;
      do pResult' <- store "pResult" pResult j b ;
      Adjustment_ReadFloatsFromFlash_bytes n' (j + 1) flash (pFlash + 1) pResult'
  end.

(** The outer loop: [n] floats are left, [i] is the loop's counter,
    [result_] holds the bytes of the variable [result]. *)
Fixpoint Adjustment_ReadFloatsFromFlash_loop (n : nat) (i : Z) (pFloats : list (list Z))
    (flash : list Z) (pFlash : Z) (result_ : list Z) : result (list (list Z)) :=
  match n with
  | O => Ok pFloats
  | S n' =>
      do first <- load "pFlash" flash (flash_index pFlash) ;
      if negb (first =? 0xFF) then
        do r <- Adjustment_ReadFloatsFromFlash_bytes 4 0 flash pFlash result_ ;
        do pFloats' <- store "pFloats" pFloats i (fst r) ;
        Adjustment_ReadFloatsFromFlash_loop n' (i + 1) pFloats' flash (snd r) (fst r)
      else
        Adjustment_ReadFloatsFromFlash_loop n' (i + 1) pFloats flash (pFlash + 4) result_
  end.

Definition Adjustment_ReadFloatsFromFlash (pFloats : list (list Z)) (flash : list Z)
    (pFlash : Z) (floatCount : Z) : result (list (list Z)) :=
  Adjustment_ReadFloatsFromFlash_loop (Z.to_nat floatCount) 0 pFloats flash pFlash
    [0; 0; 0; 0].

Definition Adjustment_ReadAdjustmentFromFlash (pMeasInfo : T_MeasureInformation)
    (flash : list Z) : result T_MeasureInformation :=
  do coeff <- Adjustment_ReadFloatsFromFlash (adjustmentCoeff pMeasInfo) flash
                CONVERSION_COEFFICIENT_ADDRESS 10 ;
  do offset <- Adjustment_ReadFloatsFromFlash (adjustmentOffset pMeasInfo) flash
                 CONVERSION_OFFSET_ADDRESS 10 ;
  Ok (mkMeasureInformation (rawMeas pMeasInfo) (measResults pMeasInfo) coeff offset).

(** [Adjustment_SaveAdjustmentToFlash]: [measInfo] and the flash memory
    after it. *)
Definition Adjustment_SaveAdjustmentToFlash (pMeasInfo : T_MeasureInformation)
    (flash : list Z) : result (T_MeasureInformation * list Z) :=
  do r1 <- Adjustment_WriteToFlash (adjustmentCoeff pMeasInfo) flash
             CONVERSION_COEFFICIENT_ADDRESS 10 ;
  do r2 <- Adjustment_WriteToFlash (adjustmentOffset pMeasInfo) (snd r1)
             CONVERSION_OFFSET_ADDRESS 10 ;
  Ok (mkMeasureInformation (rawMeas pMeasInfo) (measResults pMeasInfo) (fst r1) (fst r2),
      snd r2).

(** The two loops of [Adjustment_GetCurrentAdjustment] that copy forty
    bytes. *)
Fixpoint Adjustment_GetCurrentAdjustment_loop (n : nat) (i : Z)
    (readByte currentByte : list (list Z)) : result (list (list Z)) :=
  match n with
  | O => Ok currentByte
  | S n' =>
      do b <- byte_load "readByte" readByte i ;
      do currentByte' <- byte_store "currentByte" currentByte i b ;
      Adjustment_GetCurrentAdjustment_loop n' (i + 1) readByte currentByte'
  end.

Definition Adjustment_GetCurrentAdjustment (pMeasInfo : T_MeasureInformation)
    (flash : list Z) : result T_MeasureInformation :=
  do coeff <- Adjustment_GetCurrentAdjustment_loop 40 0 ADJUSTMENT_COEFFICIENTS
                (adjustmentCoeff pMeasInfo) ;
  do offset <- Adjustment_GetCurrentAdjustment_loop 40 0 ADJUSTMENT_OFFSETS
                 (adjustmentOffset pMeasInfo) ;
  Adjustment_ReadAdjustmentFromFlash
    (mkMeasureInformation (rawMeas pMeasInfo) (measResults pMeasInfo) coeff offset)
    flash.

(** Ten floats of four bytes. *)
Definition floats_ok (a : list (list Z)) : Prop :=
  length a = 10%nat /\ Forall (fun f => length f = 4%nat) a.

(** The ten floats a region of the flash memory holds, from the address
    [pFlash] on. *)
Definition flash_float (flash : list Z) (pFlash : Z) (i : nat) : list Z :=
  take 4 (drop (Z.to_nat (flash_index pFlash) + 4 * i) flash).

(** What [Adjustment_ReadFloatsFromFlash] makes of the float [i]: the
    four bytes of the flash memory, unless the first of them is [0xFF]. *)
Definition read_float (flash : list Z) (pFlash : Z) (i : nat) (old : list Z) : list Z :=
  match flash_float flash pFlash i with
  | first :: _ => if first =? 0xFF then old else flash_float flash pFlash i
  | [] => old
  end.

(** The floats with the first byte of the first of them cleared. *)
Definition first_byte_cleared (a : list (list Z)) : list (list Z) :=
  match a with
  | (_ :: f) :: a' => (0 :: f) :: a'
  | _ => a
  end.

(** Example adjustment data: the factory tables, with [0xFF] as the first
    byte of the second coefficient. *)
Definition example_measInfo : T_MeasureInformation :=
  mkMeasureInformation (replicate 15 512) (replicate 10 ZERO)
    (<[1%nat := [0xFF; 0x01; 0x02; 0x03]]> ADJUSTMENT_COEFFICIENTS) ADJUSTMENT_OFFSETS.

End Adjustment.

(** * Reading a number text *)

Definition digit_value (c : ascii) : option Z :=
  if (48 <=? code c) && (code c <=? 57) then Some (code c - 48) else None.

(** The number the decimal digits of a text denote, the other
    characters passed over. *)
Definition text_value (t : list ascii) : Z :=
  fold_left (fun n c => match digit_value c with
                        | Some d => 10 * n + d
                        | None => n
                        end) t 0.

(** The characters before the first digit of a text. *)
Fixpoint before_digits (t : list ascii) : list ascii :=
  match t with
  | [] => []
  | c :: t' =>
      match digit_value c with
      | Some _ => []
      | None => c :: before_digits t'
      end
  end.
(** * Properties *)

(** ** The error monad and array accesses *)

Lemma bind_Ok {A B : Type} (m : result A) (k : A -> result B) (b : B) :
  bind m k = Ok b <-> exists a, m = Ok a /\ k a = Ok b.
Proof.
  destruct m as [a | f]; simpl; split.
  - intros H. exists a. split; [reflexivity | exact H].
  - intros (a' & Ha & Hk). injection Ha as ->. exact Hk.
  - discriminate.
  - intros (a' & Ha & _). discriminate.
Qed.

Lemma load_Ok {A : Type} (array : string) (l : list A) (i : Z) (a : A) :
  load array l i = Ok a <-> 0 <= i /\ l !! Z.to_nat i = Some a.
Proof.
  unfold load. destruct (Z.leb_spec 0 i) as [Hi | Hi].
  - destruct (l !! Z.to_nat i) as [a' |]; split.
    + intros [= ->]. split; [exact Hi | reflexivity].
    + intros [_ [= ->]]. reflexivity.
    + discriminate.
    + intros [_ H]. discriminate.
  - split; [discriminate | intros [H _]; lia].
Qed.

Lemma store_Ok {A : Type} (array : string) (l : list A) (i : Z) (a : A) (l' : list A) :
  store array l i a = Ok l' <->
  0 <= i < Z.of_nat (length l) /\ l' = <[Z.to_nat i := a]> l.
Proof.
  unfold store.
  destruct (Z.leb_spec 0 i) as [Hi | Hi]; destruct (Z.ltb_spec i (Z.of_nat (length l))) as [Hl | Hl];
    simpl; split; try discriminate; try (intros [? _]; lia).
  - intros [= <-]. split; [lia | reflexivity].
  - intros [_ ->]. reflexivity.
Qed.

Lemma store_in_range {A : Type} (array : string) (l : list A) (i : Z) (a : A) :
  0 <= i < Z.of_nat (length l) -> store array l i a = Ok (<[Z.to_nat i := a]> l).
Proof. intros H. apply store_Ok. split; [exact H | reflexivity]. Qed.

(** One store into a list whose length is known, then the continuation. *)
Ltac stored :=
  rewrite store_in_range by (rewrite ?length_insert; simpl length; lia);
  cbn [bind fst snd].

Lemma with_table_Ok (tables : list (list ascii)) (j : Z)
    (f : list ascii -> result (list ascii)) (tables' : list (list ascii)) :
  with_table tables j f = Ok tables' <->
  exists t t', 0 <= j /\ tables !! Z.to_nat j = Some t /\ f t = Ok t'
               /\ tables' = <[Z.to_nat j := t']> tables.
Proof.
  unfold with_table. rewrite bind_Ok. split.
  - intros (t & Ht & H). apply load_Ok in Ht as [Hj Ht].
    apply bind_Ok in H as (t' & Hf & H). apply store_Ok in H as [_ ->].
    exists t, t'. auto.
  - intros (t & t' & Hj & Ht & Hf & ->). exists t. split.
    + apply load_Ok. auto.
    + apply bind_Ok. exists t'. split; [exact Hf |].
      apply store_in_range. apply lookup_lt_Some in Ht. lia.
Qed.

(** ** [Menu_FloatToCharArray] *)

Lemma digits_frame (k : nat) : forall (a : list ascii) (v : Z) (a' : list ascii) (k' : nat),
  Menu_FloatToCharArray_digits k a v = Ok (a', k') ->
  length a' = length a /\ (k' <= k)%nat /\
  forall i : nat, (k <= i)%nat -> a' !! i = a !! i.
Proof.
  induction k as [| k IH]; intros a v a' k' H; simpl in H.
  - destruct (v >? 0); [discriminate |]. injection H as <- <-. auto.
  - destruct (v >? 0).
    + apply bind_Ok in H as (a1 & Hs & H). apply store_Ok in Hs as [Hr ->].
      apply IH in H as (Hl & Hk & Hf). rewrite length_insert in Hl.
      split; [exact Hl |]. split; [lia |].
      intros i Hi. rewrite Hf by lia.
      apply list_lookup_insert_ne. lia.
    + injection H as <- <-. auto.
Qed.

Lemma blanks_frame (k : nat) : forall (a a' : list ascii),
  Menu_FloatToCharArray_blanks k a = Ok a' ->
  length a' = length a /\ forall i : nat, (k <= i)%nat -> a' !! i = a !! i.
Proof.
  induction k as [| k IH]; intros a a' H; simpl in H.
  - injection H as <-. auto.
  - apply bind_Ok in H as (a1 & Hs & H). apply store_Ok in Hs as [Hr ->].
    apply IH in H as (Hl & Hf). rewrite length_insert in Hl.
    split; [exact Hl |]. intros i Hi. rewrite Hf by lia.
    apply list_lookup_insert_ne. lia.
Qed.

(** Whatever the value, a call that returns has written below index 6
    only. *)
Lemma Menu_FloatToCharArray_uint_frame (a : list ascii) (n : Z) (a' : list ascii) :
  Menu_FloatToCharArray_uint a n = Ok a' ->
  length a' = length a /\ forall i : nat, (6 <= i)%nat -> a' !! i = a !! i.
Proof.
  unfold Menu_FloatToCharArray_uint. intros H.
  apply bind_Ok in H as (a5 & H5 & H). apply store_Ok in H5 as [_ ->].
  apply bind_Ok in H as (a4 & H4 & H). apply store_Ok in H4 as [_ ->].
  apply bind_Ok in H as (a3 & H3 & H). apply store_Ok in H3 as [_ ->].
  apply bind_Ok in H as ([a2 k] & H2 & H). simpl in H.
  apply blanks_frame in H as (Hl & Hf).
  assert (length a2 = length a /\ (k <= 3)%nat /\
          forall i : nat, (6 <= i)%nat -> a2 !! i = a !! i) as (Hl2 & Hk & Hf2).
  { destruct (0 =? n / 10 / 10).
    - apply bind_Ok in H2 as (a2' & Hs & H2). apply store_Ok in Hs as [_ ->].
      injection H2 as <- <-. rewrite !length_insert.
      split; [reflexivity |]. split; [lia |]. intros i Hi.
      rewrite !list_lookup_insert_ne by (change (Z.to_nat 2) with 2%nat;
        change (Z.to_nat 3) with 3%nat; change (Z.to_nat 4) with 4%nat;
        change (Z.to_nat 5) with 5%nat; lia).
      reflexivity.
    - apply digits_frame in H2 as (Hl2 & Hk & Hf2). rewrite !length_insert in Hl2.
      split; [exact Hl2 |]. split; [exact Hk |]. intros i Hi.
      rewrite Hf2 by lia.
      rewrite !list_lookup_insert_ne by (change (Z.to_nat 3) with 3%nat;
        change (Z.to_nat 4) with 4%nat; change (Z.to_nat 5) with 5%nat; lia).
      reflexivity. }
  split; [congruence |]. intros i Hi. rewrite Hf by lia. apply Hf2. exact Hi.
Qed.

Lemma digits_stop (k : nat) (a : list ascii) (v : Z) :
  v <= 0 -> Menu_FloatToCharArray_digits k a v = Ok (a, k).
Proof.
  intros Hv. destruct k; simpl; destruct (Z.gtb_spec v 0); (lia || reflexivity).
Qed.

Lemma digits_step (k : nat) (a : list ascii) (v : Z) :
  0 < v ->
  Menu_FloatToCharArray_digits (S k) a v =
  do a' <- store "charArray" a (Z.of_nat k) (digit v) ;
  Menu_FloatToCharArray_digits k a' (v / 10).
Proof.
  intros Hv. simpl. destruct (Z.gtb_spec v 0); [reflexivity | lia].
Qed.

Lemma Menu_FloatToCharArray_uint_exact (a : list ascii) (n : Z) :
  length a = 8%nat -> 0 <= n -> n / 100 < 1000 ->
  Menu_FloatToCharArray_uint a n = Ok (float_text n ++ drop 6 a).
Proof.
  intros Hl Hn Hint.
  do 9 (destruct a as [| ? a]; try discriminate Hl). clear Hl.
  assert (E2 : n / 10 / 10 = n / 100) by (Z.div_mod_to_equations; lia).
  assert (E3 : n / 100 / 10 = n / 1000) by (Z.div_mod_to_equations; lia).
  assert (E4 : n / 1000 / 10 = n / 10000) by (Z.div_mod_to_equations; lia).
  assert (E5 : n / 10000 / 10 <= 0) by (Z.div_mod_to_equations; lia).
  assert (H2 : 0 <= n / 100) by (Z.div_mod_to_equations; lia).
  assert (H3 : 0 <= n / 1000) by (Z.div_mod_to_equations; lia).
  assert (H4 : 0 <= n / 10000) by (Z.div_mod_to_equations; lia).
  unfold Menu_FloatToCharArray_uint, float_text, lead.
  do 3 stored. rewrite E2.
  destruct (Z.eqb_spec 0 (n / 100)) as [Z2 | Z2].
  - stored.
    assert (Z3 : n / 1000 = 0) by (rewrite <- E3, <- Z2; reflexivity).
    assert (Z4 : n / 10000 = 0) by (rewrite <- E4, Z3; reflexivity).
    rewrite Z3, Z4, <- Z2. reflexivity.
  - rewrite digits_step by lia. stored. rewrite E3.
    destruct (Z.gtb_spec (n / 1000) 0).
    + rewrite digits_step by lia. stored. rewrite E4.
      destruct (Z.gtb_spec (n / 10000) 0).
      * rewrite digits_step by lia. stored.
        rewrite digits_stop by lia. reflexivity.
      * rewrite digits_stop by lia. reflexivity.
    + rewrite digits_stop by lia.
      assert (Z4 : n / 10000 = 0) by (Z.div_mod_to_equations; lia).
      rewrite Z4. reflexivity.
Qed.

(** ** [Menu_ChangeView] *)

Lemma Menu_ChangeView_exact (pMenu : T_MenuSystem) :
  views pMenu = MENU_VIEWS ->
  length (currentTextFields pMenu) = 15%nat ->
  menuState pMenu <> NO_MENU ->
  Menu_ChangeView pMenu =
  Ok (set_currentTextFields pMenu
        (fields_of (menuState pMenu)
         ++ drop (length (fields_of (menuState pMenu))) (currentTextFields pMenu))).
Proof.
  destruct pMenu as [s sel prev vs ts cur]. simpl. intros -> Hl Hs.
  do 16 (destruct cur as [| ? cur]; try discriminate Hl). clear Hl.
  unfold Menu_ChangeView. simpl.
  destruct s; try contradiction; reflexivity.
Qed.

Lemma length_fields_of (s : E_MenuStates) : (length (fields_of s) <= 15)%nat.
Proof. destruct s; vm_compute; lia. Qed.

(** A view change re-establishes the state's well-formedness. *)
Lemma Menu_ChangeView_pre (s : E_MenuStates) (sel : Z) (prev : E_MenuStates)
    (ts : list (list ascii)) (cur : list T_TextField) :
  tables_ok ts -> length cur = 15%nat -> s <> NO_MENU ->
  selection_ok s sel -> (calibration_view s = true -> prev <> s) ->
  exists cur',
    Menu_ChangeView (mkMenuSystem s sel prev MENU_VIEWS ts cur)
      = Ok (mkMenuSystem s sel prev MENU_VIEWS ts cur')
    /\ menu_pre (mkMenuSystem s sel prev MENU_VIEWS ts cur').
Proof.
  intros Hts Hl Hs Hsel Hprev.
  exists (fields_of s ++ drop (length (fields_of s)) cur). split.
  - rewrite Menu_ChangeView_exact; [reflexivity | reflexivity | exact Hl | exact Hs].
  - constructor; simpl; try assumption; try reflexivity.
    + rewrite length_app, length_drop. pose proof (length_fields_of s). lia.
    + intros _. apply take_app_length.
Qed.

Lemma uint8_small (z : Z) : 0 <= z < 256 -> uint8 z = z.
Proof. intros H. unfold uint8. apply Z.mod_small. exact H. Qed.

(** ** The button actions *)

(** The view change of a button action, and what is left to show of the
    state after it. *)
Ltac view_changed s' sel' prev' ts cur :=
  let cur' := fresh "cur'" in
  let E := fresh "E" in
  let Hp := fresh "Hp" in
  destruct (Menu_ChangeView_pre s' sel' prev' ts cur) as (cur' & E & Hp);
    try assumption; try discriminate; try (simpl; lia);
  unfold set_currentSelection, set_menuState, set_previousMenu; simpl;
  rewrite E; simpl;
  eexists; split; [reflexivity |]; split; [exact Hp |]; split; [reflexivity |].

Ltac view_kept :=
  simpl; eexists; split; [reflexivity |]; split;
    [constructor; simpl; try assumption; try reflexivity; lia |];
  split; [reflexivity |].

Lemma Menu_PrimaryAction_table (pMenu : T_MenuSystem) :
  menu_pre pMenu ->
  exists pMenu',
    Menu_PrimaryAction pMenu = Ok (pMenu', MENU_NO_ACTION)
    /\ menu_pre pMenu'
    /\ updatableCharTables pMenu' = updatableCharTables pMenu
    /\ (menuState pMenu', currentSelection pMenu')
        = table_short_click (menuState pMenu) (currentSelection pMenu)
    /\ previousMenu pMenu' = previousMenu pMenu.
Proof.
  intros Hpre. pose proof Hpre as [Hv Ht Hf Hsel Hprev Hb].
  destruct pMenu as [s sel prev vs ts cur]. simpl in *. subst vs.
  unfold Menu_PrimaryAction, table_short_click. simpl.
  destruct s; simpl in Hsel; simpl.
  - view_changed BATTERY_VIEW sel prev ts cur. split; reflexivity.
  - view_changed PANEL_VIEW sel prev ts cur. split; reflexivity.
  - rewrite uint8_small by lia.
    destruct (Z.gtb_spec (sel + 1) 3); destruct (Z.ltb_spec sel 3); try lia.
    + view_changed MENU_VIEW_2 0 prev ts cur. split; reflexivity.
    + view_kept. split; reflexivity.
  - rewrite uint8_small by lia.
    destruct (Z.gtb_spec (sel + 1) 3); destruct (Z.ltb_spec sel 3); try lia.
    + view_changed MENU_VIEW_3 0 prev ts cur. split; reflexivity.
    + view_kept. split; reflexivity.
  - rewrite uint8_small by lia.
    destruct (Z.gtb_spec (sel + 1) 3); destruct (Z.ltb_spec sel 3); try lia.
    + view_changed MENU_VIEW_1 0 prev ts cur. split; reflexivity.
    + view_kept. split; reflexivity.
  - rewrite uint8_small by lia.
    destruct (Z.gtb_spec (sel + 1) 1); destruct (Z.ltb_spec sel 1); try lia;
      view_kept; split; reflexivity.
  - rewrite uint8_small by lia.
    destruct (Z.gtb_spec (sel + 1) 1); destruct (Z.ltb_spec sel 1); try lia;
      view_kept; split; reflexivity.
  - eexists. split; [reflexivity |]. split; [exact Hpre |]. repeat split.
Qed.

Lemma Menu_SecondaryAction_NO_MENU (pMenu : T_MenuSystem) :
  views pMenu = MENU_VIEWS -> menuState pMenu = NO_MENU ->
  Menu_SecondaryAction pMenu = Fault (OutOfBounds "views" 7).
Proof.
  destruct pMenu as [s sel prev vs ts cur]. simpl. intros -> ->. reflexivity.
Qed.

Lemma Menu_SecondaryAction_table (pMenu : T_MenuSystem) :
  menu_pre pMenu -> menuState pMenu <> NO_MENU ->
  exists pMenu',
    Menu_SecondaryAction pMenu
      = Ok (pMenu', snd (table_long_click (menuState pMenu) (currentSelection pMenu)))
    /\ menu_pre pMenu'
    /\ updatableCharTables pMenu' = updatableCharTables pMenu
    /\ (menuState pMenu', currentSelection pMenu')
        = fst (table_long_click (menuState pMenu) (currentSelection pMenu))
    /\ previousMenu pMenu' = menuState pMenu.
Proof.
  intros Hpre Hs. pose proof Hpre as [Hv Ht Hf Hsel Hprev Hb].
  destruct pMenu as [s sel prev vs ts cur]. simpl in *. subst vs.
  unfold Menu_SecondaryAction, table_long_click. simpl.
  destruct s; simpl in Hsel; simpl; try contradiction.
  - view_changed MENU_VIEW_1 0 PANEL_VIEW ts cur. split; reflexivity.
  - view_changed MENU_VIEW_1 0 BATTERY_VIEW ts cur. split; reflexivity.
  - rewrite uint8_small by lia.
    destruct (Z.eqb_spec ((2 - 2) * 4 + sel) 10); [lia |].
    destruct (Z.eqb_spec ((2 - 2) * 4 + sel) 11); [lia |].
    destruct (Z.ltb_spec ((2 - 2) * 4 + sel) 10); [| lia]. simpl.
    view_changed CALIBRATION_VIEW_1 0 MENU_VIEW_1 ts cur. split; reflexivity.
  - rewrite uint8_small by lia.
    destruct (Z.eqb_spec ((3 - 2) * 4 + sel) 10); [lia |].
    destruct (Z.eqb_spec ((3 - 2) * 4 + sel) 11); [lia |].
    destruct (Z.ltb_spec ((3 - 2) * 4 + sel) 10); [| lia]. simpl.
    view_changed CALIBRATION_VIEW_1 0 MENU_VIEW_2 ts cur. split; reflexivity.
  - rewrite uint8_small by lia.
    destruct (Z.eqb_spec ((4 - 2) * 4 + sel) 10);
      destruct (Z.eqb_spec ((4 - 2) * 4 + sel) 11);
      destruct (Z.ltb_spec ((4 - 2) * 4 + sel) 10); try lia; simpl.
    + view_changed PANEL_VIEW 0 MENU_VIEW_3 ts cur. split; reflexivity.
    + view_changed PANEL_VIEW 0 MENU_VIEW_3 ts cur. split; reflexivity.
    + view_changed CALIBRATION_VIEW_1 0 MENU_VIEW_3 ts cur. split; reflexivity.
  - destruct sel as [| p | p]; [| | lia]; simpl.
    + view_changed MENU_VIEW_1 0 CALIBRATION_VIEW_1 ts cur. split; reflexivity.
    + view_changed CALIBRATION_VIEW_2 (Z.pos p) CALIBRATION_VIEW_1 ts cur.
      split; reflexivity.
  - destruct sel as [| p | p]; [| | lia]; simpl.
    + view_changed CALIBRATION_VIEW_1 0 CALIBRATION_VIEW_2 ts cur. split; reflexivity.
    + view_changed MENU_VIEW_1 (Z.pos p) CALIBRATION_VIEW_2 ts cur. split; reflexivity.
Qed.

(** ** The char tables *)

Lemma Menu_CharArrayToTable_loop_exact (array : list ascii) :
  forall (table : list ascii) (i : nat),
  (i + length array < length table)%nat -> (length table <= 256)%nat ->
  Menu_CharArrayToTable_loop array table (Z.of_nat i) =
  Ok (take i table ++ array ++ NUL :: drop (S (i + length array)) table).
Proof.
  induction array as [| c array IH]; intros table i Hi Hmax; simpl in *.
  - rewrite store_in_range by lia. rewrite Nat2Z.id, Nat.add_0_r.
    f_equal. apply insert_take_drop. lia.
  - rewrite store_in_range by lia. cbn [bind]. rewrite Nat2Z.id.
    rewrite uint8_small by lia.
    replace (Z.of_nat i + 1) with (Z.of_nat (S i)) by lia.
    rewrite IH by (rewrite length_insert; lia).
    f_equal. rewrite drop_insert_lt by lia.
    rewrite take_insert_lt by lia.
    rewrite insert_take_drop by (rewrite length_take; lia).
    rewrite take_take.
    rewrite (drop_ge (take (S i) table)) by (rewrite length_take; lia).
    replace (i `min` S i)%nat with i by lia.
    rewrite <- app_assoc. simpl.
    replace (S (i + S (length array))) with (S (S i + length array)) by lia.
    reflexivity.
Qed.

Lemma Menu_CharArrayToTable_exact (s : string) (t : list ascii) :
  (length (chars s) < length t)%nat -> (length t <= 256)%nat ->
  Menu_CharArrayToTable s t = Ok (chars s ++ NUL :: drop (S (length (chars s))) t).
Proof.
  intros H Hmax. unfold Menu_CharArrayToTable.
  apply (Menu_CharArrayToTable_loop_exact (chars s) t 0); assumption.
Qed.

Lemma row_ok_text (text t : list ascii) :
  row_ok t -> (length text <= 7)%nat ->
  row_ok (text ++ NUL :: drop (S (length text)) t).
Proof.
  intros [Hl H7] Hs. split.
  - rewrite length_app. simpl. rewrite length_drop. lia.
  - destruct (decide (length text = 7%nat)) as [E | E].
    + rewrite lookup_app_r by lia. rewrite E. reflexivity.
    + rewrite lookup_app_r by lia.
      replace (7 - length text)%nat with (S (6 - length text)) by lia.
      simpl. rewrite lookup_drop.
      replace (S (length text) + (6 - length text))%nat with 7%nat by lia.
      exact H7.
Qed.

Lemma row_ok_insert (t : list ascii) (i : nat) (c : ascii) :
  row_ok t -> i <> 7%nat -> row_ok (<[i := c]> t).
Proof.
  intros [Hl H7] Hi. split.
  - rewrite length_insert. exact Hl.
  - rewrite list_lookup_insert_ne by exact Hi. exact H7.
Qed.

Lemma row_ok_float (t : list ascii) (n : Z) (t' : list ascii) :
  row_ok t -> Menu_FloatToCharArray_uint t n = Ok t' -> row_ok t'.
Proof.
  intros [Hl H7] H. apply Menu_FloatToCharArray_uint_frame in H as [Hl' Hf].
  split; [congruence |]. rewrite Hf by lia. exact H7.
Qed.

Lemma tables_ok_lookup (ts : list (list ascii)) (j : nat) (t : list ascii) :
  tables_ok ts -> ts !! j = Some t -> row_ok t.
Proof.
  intros [_ H] Hj. rewrite Forall_lookup in H. exact (H j t Hj).
Qed.

Lemma tables_ok_insert (ts : list (list ascii)) (j : nat) (t : list ascii) :
  tables_ok ts -> row_ok t -> tables_ok (<[j := t]> ts).
Proof.
  intros [Hl H] Ht. split.
  - rewrite length_insert. exact Hl.
  - apply Forall_insert; assumption.
Qed.

Lemma tables_ok_row (ts : list (list ascii)) (j : Z) :
  tables_ok ts -> 0 <= j < 8 -> exists t, ts !! Z.to_nat j = Some t /\ row_ok t.
Proof.
  intros Hts Hj. destruct (ts !! Z.to_nat j) as [t |] eqn:E.
  - exists t. split; [reflexivity |]. exact (tables_ok_lookup ts _ t Hts E).
  - apply lookup_ge_None in E. destruct Hts as [Hl _]. lia.
Qed.

Lemma with_table_keeps (f : list ascii -> result (list ascii))
    (ts : list (list ascii)) (j : Z) (ts' : list (list ascii)) :
  keeps_row f -> tables_ok ts -> with_table ts j f = Ok ts' -> tables_ok ts'.
Proof.
  intros Hf Hts H. apply with_table_Ok in H as (t & t' & Hj & Ht & Hft & ->).
  apply tables_ok_insert; [exact Hts |].
  apply (Hf t t'); [| exact Hft]. exact (tables_ok_lookup ts _ t Hts Ht).
Qed.

Lemma with_table_total (f : list ascii -> result (list ascii))
    (ts : list (list ascii)) (j : Z) :
  total_row f -> tables_ok ts -> 0 <= j < 8 -> exists ts', with_table ts j f = Ok ts'.
Proof.
  intros Hf Hts Hj. destruct (tables_ok_row ts j Hts Hj) as (t & Ht & Hrow).
  destruct (Hf t Hrow) as (t' & Hft).
  exists (<[Z.to_nat j := t']> ts). apply with_table_Ok.
  exists t, t'. split; [lia |]. auto.
Qed.

Lemma with_table_other (f : list ascii -> result (list ascii))
    (ts : list (list ascii)) (j : Z) (ts' : list (list ascii)) (i : nat) :
  with_table ts j f = Ok ts' -> i <> Z.to_nat j -> ts' !! i = ts !! i.
Proof.
  intros H Hi. apply with_table_Ok in H as (t & t' & Hj & Ht & Hft & ->).
  apply list_lookup_insert_ne. congruence.
Qed.

Lemma with_table_same (f : list ascii -> result (list ascii))
    (ts : list (list ascii)) (j : Z) (ts' : list (list ascii)) :
  with_table ts j f = Ok ts' ->
  exists t t', ts !! Z.to_nat j = Some t /\ f t = Ok t' /\ ts' !! Z.to_nat j = Some t'.
Proof.
  intros H. apply with_table_Ok in H as (t & t' & Hj & Ht & Hft & ->).
  exists t, t'. split; [exact Ht |]. split; [exact Hft |].
  apply list_lookup_insert_eq. apply lookup_lt_Some in Ht. exact Ht.
Qed.

Lemma keeps_row_text (s : string) :
  (length (chars s) <= 7)%nat -> keeps_row (Menu_CharArrayToTable s).
Proof.
  intros Hs t t' Ht H. pose proof Ht as [Hl _].
  rewrite Menu_CharArrayToTable_exact in H by lia. injection H as <-.
  apply row_ok_text; assumption.
Qed.

Lemma total_row_text (s : string) :
  (length (chars s) <= 7)%nat -> total_row (Menu_CharArrayToTable s).
Proof.
  intros Hs t [Hl _]. rewrite Menu_CharArrayToTable_exact by lia. eauto.
Qed.

Lemma keeps_row_store (i : Z) (c : ascii) :
  i <> 7 -> keeps_row (fun t => store "table" t i c).
Proof.
  intros Hi t t' Ht H. apply store_Ok in H as [Hr ->].
  apply row_ok_insert; [exact Ht | lia].
Qed.

Lemma total_row_store (i : Z) (c : ascii) :
  0 <= i < 8 -> total_row (fun t => store "table" t i c).
Proof.
  intros Hi t [Hl _]. rewrite store_in_range by lia. eauto.
Qed.

Lemma with_table_run (f : list ascii -> result (list ascii))
    (ts : list (list ascii)) (j : Z) :
  keeps_row f -> total_row f -> tables_ok ts -> 0 <= j < 8 ->
  exists ts', with_table ts j f = Ok ts' /\ tables_ok ts'.
Proof.
  intros Hk Ht Hts Hj. destruct (with_table_total f ts j Ht Hts Hj) as (ts' & H).
  exists ts'. split; [exact H |]. exact (with_table_keeps f ts j ts' Hk Hts H).
Qed.

Lemma Menu_CharArrayToTable_seven (s : string) (t : list ascii) :
  row_ok t -> length (chars s) = 7%nat ->
  Menu_CharArrayToTable s t = Ok (chars s ++ [NUL]).
Proof.
  intros [Hl _] Hs. rewrite Menu_CharArrayToTable_exact by lia.
  rewrite Hs. rewrite drop_ge by lia. reflexivity.
Qed.

Lemma menu_pre_tables (pMenu : T_MenuSystem) (ts : list (list ascii)) :
  menu_pre pMenu -> tables_ok ts -> menu_pre (set_updatableCharTables pMenu ts).
Proof.
  intros [Hv Ht Hf Hsel Hprev Hb] Hts. constructor; simpl; assumption.
Qed.

Section MenuText.

Context `{FloatModel}.

Lemma keeps_row_float (v : float) : keeps_row (fun t => Menu_FloatToCharArray t v).
Proof. intros t t' Ht Hf. exact (row_ok_float t _ t' Ht Hf). Qed.

Lemma total_row_float (v : float) :
  displayable (hundredths v) -> total_row (fun t => Menu_FloatToCharArray t v).
Proof.
  intros [H0 H1] t [Hl _]. unfold Menu_FloatToCharArray.
  rewrite Menu_FloatToCharArray_uint_exact by assumption. eauto.
Qed.

Ltac nat_index :=
  change (Z.to_nat 0) with 0%nat in *; change (Z.to_nat 1) with 1%nat in *;
  change (Z.to_nat 2) with 2%nat in *; change (Z.to_nat 3) with 3%nat in *;
  change (Z.to_nat 4) with 4%nat in *; change (Z.to_nat 5) with 5%nat in *;
  change (Z.to_nat 6) with 6%nat in *; change (Z.to_nat 7) with 7%nat in *.

Ltac bind_inv H :=
  let x := fresh "x" in
  let Hx := fresh "H" x in
  apply bind_Ok in H as (x & Hx & H).

Lemma Menu_SetCalibrationView_tables (pMenu : T_MenuSystem)
    (pCalibInfo : T_CalibrationInfo) (pMenu' : T_MenuSystem) :
  tables_ok (updatableCharTables pMenu) ->
  Menu_SetCalibrationView pMenu pCalibInfo = Ok pMenu' ->
  exists ts', pMenu' = set_updatableCharTables pMenu ts'
              /\ tables_ok ts' /\ calibration_rows ts'.
Proof.
  intros Hts Hrun. unfold Menu_SetCalibrationView in Hrun.
  set (m := measToCalibrate pCalibInfo) in *.
  apply bind_Ok in Hrun as (ts1 & H1 & Hrun).
  apply bind_Ok in Hrun as (ts2 & H2 & Hrun).
  assert (Hstate : exists cs state,
    (match menuState pMenu with
     | CALIBRATION_VIEW_2 => (1, "2/2    "%string)
     | _ => (0, "1/2    "%string)
     end) = (cs, state)
    /\ (state = "1/2    "%string \/ state = "2/2    "%string)).
  { destruct (menuState pMenu); eexists _, _; (split; [reflexivity |]); auto. }
  destruct Hstate as (cs & state & Es & Hstate). rewrite Es in Hrun. clear Es.
  assert (Hq : exists quantity unit cu,
    (if 0 =? m mod 2 then ("JaNNITE"%string, "V"%char, 0)
     else ("VIRTA"%string, "A"%char, 1)) = (quantity, unit, cu)
    /\ (length (chars quantity) <= 7)%nat).
  { destruct (0 =? m mod 2); eexists _, _, _; (split; [reflexivity |]);
      vm_compute; lia. }
  destruct Hq as (quantity & unit & cu & Eq & Hq). rewrite Eq in Hrun. clear Eq.
  apply bind_Ok in Hrun as (ts3 & H3 & Hrun).
  apply bind_Ok in Hrun as (ts4 & H4 & Hrun).
  apply bind_Ok in Hrun as (points & Hpoints & Hrun).
  apply bind_Ok in Hrun as (point & Hpoint & Hrun).
  apply bind_Ok in Hrun as (ts5 & H5 & Hrun).
  apply bind_Ok in Hrun as (ts6 & H6 & Hrun).
  apply bind_Ok in Hrun as (ts7 & H7 & Hrun).
  injection Hrun as <-.
  assert (Hts1 : tables_ok ts1).
  { apply (with_table_keeps _ _ _ _ (keeps_row_text "       " ltac:(vm_compute; lia)) Hts H1). }
  assert (Hrow1 : ts1 !! 1%nat = Some (chars "       " ++ [NUL])).
  { apply with_table_same in H1 as (t & t' & Ht & Hf & Ht'). nat_index.
    rewrite Menu_CharArrayToTable_seven in Hf
      by (first [exact (tables_ok_lookup _ _ _ Hts Ht) | reflexivity]).
    injection Hf as <-. exact Ht'. }
  assert (Hts2 : tables_ok ts2 /\ exists c, ts2 !! 1%nat = Some (c :: chars "      " ++ [NUL])).
  { destruct (m >? 7).
    - split.
      + apply (with_table_keeps _ _ _ _ (keeps_row_text "  AKKU " ltac:(vm_compute; lia)) Hts1 H2).
      + exists " "%char. rewrite (with_table_other _ _ _ _ 1%nat H2) by (vm_compute; lia).
        exact Hrow1.
    - apply bind_Ok in H2 as (ts & Ha & H2).
      assert (Hts' : tables_ok ts).
      { apply (with_table_keeps _ _ _ _ (keeps_row_text "PANEELI" ltac:(vm_compute; lia)) Hts1 Ha). }
      split.
      + apply (with_table_keeps _ _ _ _ (keeps_row_store 0 _ ltac:(lia)) Hts' H2).
      + apply with_table_same in H2 as (t & t' & Ht & Hf & Ht'). nat_index.
        rewrite (with_table_other _ _ _ _ 1%nat Ha) in Ht by (vm_compute; lia).
        rewrite Hrow1 in Ht. injection Ht as <-.
        apply store_Ok in Hf as [_ ->]. eexists. exact Ht'. }
  destruct Hts2 as (Hts2 & c & Hrow1').
  assert (Hts3 : tables_ok ts3) by
    apply (with_table_keeps _ _ _ _ (keeps_row_text quantity Hq) Hts2 H3).
  assert (Hts4 : tables_ok ts4).
  { apply (with_table_keeps _ _ _ _ (keeps_row_text state
             ltac:(destruct Hstate as [-> | ->]; vm_compute; lia)) Hts3 H4). }
  assert (Hts5 : tables_ok ts5) by
    apply (with_table_keeps _ _ _ _ (keeps_row_float point) Hts4 H5).
  assert (Hts6 : tables_ok ts6) by
    apply (with_table_keeps _ _ _ _ (keeps_row_store 6 unit ltac:(lia)) Hts5 H6).
  assert (Hts7 : tables_ok ts7) by
    apply (with_table_keeps _ _ _ _ (keeps_row_store 6 unit ltac:(lia)) Hts6 H7).
  exists ts7. split; [reflexivity |]. split; [exact Hts7 |]. split.
  - exists c.
    rewrite (with_table_other _ _ _ _ 1%nat H7) by (vm_compute; lia).
    rewrite (with_table_other _ _ _ _ 1%nat H6) by (vm_compute; lia).
    rewrite (with_table_other _ _ _ _ 1%nat H5) by (vm_compute; lia).
    rewrite (with_table_other _ _ _ _ 1%nat H4) by (vm_compute; lia).
    rewrite (with_table_other _ _ _ _ 1%nat H3) by (vm_compute; lia).
    exact Hrow1'.
  - rewrite (with_table_other _ _ _ _ 3%nat H7) by (vm_compute; lia).
    rewrite (with_table_other _ _ _ _ 3%nat H6) by (vm_compute; lia).
    rewrite (with_table_other _ _ _ _ 3%nat H5) by (vm_compute; lia).
    apply with_table_same in H4 as (t & t' & Ht & Hf & Ht'). nat_index.
    rewrite Menu_CharArrayToTable_seven in Hf
      by (first [exact (tables_ok_lookup _ _ _ Hts3 Ht)
                | destruct Hstate as [-> | ->]; reflexivity]).
    injection Hf as <-.
    destruct Hstate as [-> | ->]; [left | right]; exact Ht'.
Qed.

Lemma CALIBRATION_POINTS_load (cu cs : Z) :
  cu = 0 \/ cu = 1 -> cs = 0 \/ cs = 1 ->
  exists points point,
    load "CALIBRATION_POINTS" CALIBRATION_POINTS cu = Ok points
    /\ load "CALIBRATION_POINTS" points cs = Ok point
    /\ points ∈ CALIBRATION_POINTS /\ point ∈ points.
Proof.
  intros [-> | ->] [-> | ->]; eexists _, _;
    (split; [reflexivity |]); (split; [reflexivity |]);
    unfold CALIBRATION_POINTS; split; repeat constructor.
Qed.

Lemma Menu_SetCalibrationView_total (pMenu : T_MenuSystem)
    (pCalibInfo : T_CalibrationInfo) :
  tables_ok (updatableCharTables pMenu) -> points_ok ->
  exists pMenu', Menu_SetCalibrationView pMenu pCalibInfo = Ok pMenu'.
Proof.
  intros Hts Hpoints. unfold Menu_SetCalibrationView.
  set (m := measToCalibrate pCalibInfo).
  destruct (with_table_run (Menu_CharArrayToTable "       ")
              (updatableCharTables pMenu) 1) as (ts1 & -> & Hts1);
    [apply keeps_row_text | apply total_row_text | exact Hts | lia |];
    try (vm_compute; lia).
  cbn [bind].
  assert (H2 : exists ts2,
    (if m >? 7 then with_table ts1 0 (Menu_CharArrayToTable "  AKKU ")
     else
       do ts <- with_table ts1 0 (Menu_CharArrayToTable "PANEELI") ;
       with_table ts 1 (fun t => store "table" t 0 (char ((m + 2) / 2 + code "0"))))
    = Ok ts2 /\ tables_ok ts2).
  { destruct (m >? 7).
    - apply with_table_run; try assumption; try lia;
        [apply keeps_row_text | apply total_row_text]; vm_compute; lia.
    - destruct (with_table_run (Menu_CharArrayToTable "PANEELI") ts1 0)
        as (ts & -> & Hts'); try assumption; try lia;
        [apply keeps_row_text | apply total_row_text |]; try (vm_compute; lia).
      cbn [bind]. apply with_table_run; try assumption; try lia;
        [apply keeps_row_store | apply total_row_store]; lia. }
  destruct H2 as (ts2 & -> & Hts2). cbn [bind].
  assert (Hstate : exists cs state,
    (match menuState pMenu with
     | CALIBRATION_VIEW_2 => (1, "2/2    "%string)
     | _ => (0, "1/2    "%string)
     end) = (cs, state)
    /\ (cs = 0 \/ cs = 1) /\ (length (chars state) <= 7)%nat).
  { destruct (menuState pMenu); eexists _, _; (split; [reflexivity |]);
      (split; [auto | vm_compute; lia]). }
  destruct Hstate as (cs & state & -> & Hcs & Hstate).
  assert (Hq : exists quantity unit cu,
    (if 0 =? m mod 2 then ("JaNNITE"%string, "V"%char, 0)
     else ("VIRTA"%string, "A"%char, 1)) = (quantity, unit, cu)
    /\ (cu = 0 \/ cu = 1) /\ (length (chars quantity) <= 7)%nat).
  { destruct (0 =? m mod 2); eexists _, _, _; (split; [reflexivity |]);
      (split; [auto | vm_compute; lia]). }
  destruct Hq as (quantity & unit & cu & -> & Hcu & Hq).
  destruct (with_table_run (Menu_CharArrayToTable quantity) ts2 2)
    as (ts3 & -> & Hts3); try assumption; try lia;
    [apply keeps_row_text | apply total_row_text |]; try assumption.
  cbn [bind].
  destruct (with_table_run (Menu_CharArrayToTable state) ts3 3)
    as (ts4 & -> & Hts4); try assumption; try lia;
    [apply keeps_row_text | apply total_row_text |]; try assumption.
  cbn [bind].
  destruct (CALIBRATION_POINTS_load cu cs Hcu Hcs) as (points & point & -> & Hp & Hin1 & Hin2).
  cbn [bind]. rewrite Hp. cbn [bind].
  destruct (with_table_run (fun t => Menu_FloatToCharArray t point) ts4 4)
    as (ts5 & -> & Hts5); try assumption; try lia;
    [apply keeps_row_float | apply total_row_float; exact (Hpoints _ _ Hin1 Hin2) |].
  cbn [bind].
  destruct (with_table_run (fun t => store "table" t 6 unit) ts5 5)
    as (ts6 & -> & Hts6); try assumption; try lia;
    [apply keeps_row_store | apply total_row_store |]; try lia.
  cbn [bind].
  destruct (with_table_run (fun t => store "table" t 6 unit) ts6 7)
    as (ts7 & -> & Hts7); try assumption; try lia;
    [apply keeps_row_store | apply total_row_store |]; try lia.
  cbn [bind]. eauto.
Qed.

Lemma Menu_UpdateTextFields_panel_keeps (pMeasResults : list float) (n : nat) :
  forall (i : Z) (ts ts' : list (list ascii)),
  tables_ok ts -> Menu_UpdateTextFields_panel n i pMeasResults ts = Ok ts' ->
  tables_ok ts'.
Proof.
  induction n as [| n IH]; intros i ts ts' Hts Hrun; simpl in Hrun.
  - injection Hrun as <-. exact Hts.
  - apply bind_Ok in Hrun as (v & Hv & Hrun).
    apply bind_Ok in Hrun as (ts1 & H1 & Hrun).
    apply bind_Ok in Hrun as (ts2 & H2 & Hrun).
    apply (IH (i + 1) ts2 ts'); [| exact Hrun].
    apply (with_table_keeps _ _ _ _ (keeps_row_store 6 _ ltac:(lia))
             (with_table_keeps _ _ _ _ (keeps_row_float v) Hts H1) H2).
Qed.

Lemma Menu_UpdateTextFields_menu_keeps (n : nat) :
  forall (i : Z) (ts ts' : list (list ascii)),
  tables_ok ts -> Menu_UpdateTextFields_menu n i ts = Ok ts' -> tables_ok ts'.
Proof.
  induction n as [| n IH]; intros i ts ts' Hts Hrun; simpl in Hrun.
  - injection Hrun as <-. exact Hts.
  - apply bind_Ok in Hrun as (ts1 & H1 & Hrun).
    apply (IH (i + 1) ts1 ts'); [| exact Hrun].
    apply (with_table_keeps _ _ _ _ (keeps_row_text "       " ltac:(vm_compute; lia)) Hts H1).
Qed.

Lemma state_value_inj (s s' : E_MenuStates) : state_value s = state_value s' -> s = s'.
Proof. destruct s, s'; simpl; intros E; (reflexivity || discriminate E). Qed.

(** The [switch] keeps the tables well-formed and, in the calibration
    views, the tables 1 and 3 as they are. *)
Lemma Menu_UpdateTextFields_switch_keeps (pMenu : T_MenuSystem)
    (pMeasResults : list float) (pCalibInfo : T_CalibrationInfo)
    (ts' : list (list ascii)) :
  tables_ok (updatableCharTables pMenu) ->
  Menu_UpdateTextFields_switch pMenu pMeasResults pCalibInfo = Ok ts' ->
  tables_ok ts'
  /\ (calibration_view (menuState pMenu) = true ->
      ts' !! 1%nat = updatableCharTables pMenu !! 1%nat
      /\ ts' !! 3%nat = updatableCharTables pMenu !! 3%nat).
Proof.
  intros Hts H3. unfold Menu_UpdateTextFields_switch in H3.
  set (ts2 := updatableCharTables pMenu) in *.
  assert (Hmenu : forall sel,
    (do ts <- Menu_UpdateTextFields_menu 4 0 ts2 ;
     with_table ts sel (fun t => store "table" t 0 ">"%char)) = Ok ts' ->
    tables_ok ts').
  { intros sel Hm. apply bind_Ok in Hm as (t1 & Ht1 & Hm).
    apply (with_table_keeps _ _ _ _ (keeps_row_store 0 _ ltac:(lia))
             (Menu_UpdateTextFields_menu_keeps _ _ _ _ Hts Ht1) Hm). }
  assert (Hcal : forall sel,
    (do ts2 <-
       (if 0 =? sel then
          do ts1 <- with_table ts2 5 (Menu_CharArrayToTable ">      ") ;
          with_table ts1 6 (Menu_CharArrayToTable "<      ")
        else
          do ts1 <- with_table ts2 5 (Menu_CharArrayToTable "       ") ;
          with_table ts1 6 (Menu_CharArrayToTable "   >  <")) ;
     do v <- load "pMeasResults" pMeasResults (measToCalibrate pCalibInfo) ;
     with_table ts2 7 (fun t => Menu_FloatToCharArray t v)) = Ok ts' ->
    tables_ok ts' /\ ts' !! 1%nat = ts2 !! 1%nat /\ ts' !! 3%nat = ts2 !! 3%nat).
  { intros sel Hc. apply bind_Ok in Hc as (t2 & Ht2 & Hc).
    apply bind_Ok in Hc as (v & Hv & Hc).
    assert (tables_ok t2 /\ t2 !! 1%nat = ts2 !! 1%nat /\ t2 !! 3%nat = ts2 !! 3%nat)
      as (Hok2 & E1 & E3).
    { destruct (0 =? sel);
        apply bind_Ok in Ht2 as (t1 & Ht1 & Ht2);
        (split; [| split]).
      all: try (rewrite (with_table_other _ _ _ _ _ Ht2) by (vm_compute; lia);
                rewrite (with_table_other _ _ _ _ _ Ht1) by (vm_compute; lia);
                reflexivity).
      all: (eapply with_table_keeps; [| | exact Ht2];
            [apply keeps_row_text; vm_compute; lia |]);
           (eapply with_table_keeps; [| exact Hts | exact Ht1]);
           apply keeps_row_text; vm_compute; lia. }
    split; [exact (with_table_keeps _ _ _ _ (keeps_row_float v) Hok2 Hc) |].
    rewrite !(with_table_other _ _ _ _ _ Hc) by (vm_compute; lia). auto. }
  destruct (menuState pMenu) eqn:Es; simpl.
  - split; [| discriminate].
    exact (Menu_UpdateTextFields_panel_keeps _ _ _ _ _ Hts H3).
  - split; [| discriminate].
    apply bind_Ok in H3 as (v & Hv & H3).
    apply bind_Ok in H3 as (t1 & Ht1 & H3).
    apply bind_Ok in H3 as (a & Ha & H3).
    apply bind_Ok in H3 as (t2 & Ht2 & H3).
    apply bind_Ok in H3 as (t3 & Ht3 & H3).
    apply (with_table_keeps _ _ _ _ (keeps_row_store 6 _ ltac:(lia))
            (with_table_keeps _ _ _ _ (keeps_row_store 6 _ ltac:(lia))
              (with_table_keeps _ _ _ _ (keeps_row_float a)
                (with_table_keeps _ _ _ _ (keeps_row_float v) Hts Ht1) Ht2) Ht3) H3).
  - split; [exact (Hmenu _ H3) | discriminate].
  - split; [exact (Hmenu _ H3) | discriminate].
  - split; [exact (Hmenu _ H3) | discriminate].
  - destruct (Hcal _ H3) as (Hok & E1 & E3). auto.
  - destruct (Hcal _ H3) as (Hok & E1 & E3). auto.
  - injection H3 as <-. split; [exact Hts | discriminate].
Qed.

(** The first two steps of [Menu_UpdateTextFields]: [NO_MENU] is left,
    the calibration texts are set. *)
Lemma Menu_UpdateTextFields_steps (pMenu : T_MenuSystem) (pMeasResults : list float)
    (pCalibInfo : T_CalibrationInfo) (pMenu' : T_MenuSystem) :
  menu_pre pMenu ->
  Menu_UpdateTextFields pMenu pMeasResults pCalibInfo = Ok pMenu' ->
  exists p1 ts2 ts',
    menu_pre p1
    /\ menuState p1 = shown_view (menuState pMenu)
    /\ currentSelection p1 = currentSelection pMenu
    /\ previousMenu p1 = previousMenu pMenu
    /\ tables_ok ts2
    /\ (calibration_view (menuState p1) = true -> calibration_rows ts2)
    /\ (calibration_view (menuState p1) = false -> ts2 = updatableCharTables p1)
    /\ Menu_UpdateTextFields_switch (set_updatableCharTables p1 ts2)
         pMeasResults pCalibInfo = Ok ts'
    /\ pMenu' = set_updatableCharTables p1 ts'.
Proof.
  intros Hpre Hrun. unfold Menu_UpdateTextFields in Hrun.
  apply bind_Ok in Hrun as (p1 & H1 & Hrun).
  apply bind_Ok in Hrun as (p2 & H2 & Hrun).
  apply bind_Ok in Hrun as (ts' & H3 & Hrun).
  injection Hrun as <-.
  assert (Hp1 : menu_pre p1
    /\ menuState p1 = shown_view (menuState pMenu)
    /\ currentSelection p1 = currentSelection pMenu
    /\ previousMenu p1 = previousMenu pMenu).
  { pose proof Hpre as [Hv Ht Hf Hsel Hprev Hb].
    destruct pMenu as [s sel prev vs ts cur]. simpl in *. subst vs.
    destruct s; try (injection H1 as <-; auto).
    destruct (Menu_ChangeView_pre PANEL_VIEW sel prev ts cur) as (cur' & E & Hp);
      try assumption; try discriminate.
    unfold set_menuState in H1. simpl in H1. rewrite E in H1. injection H1 as <-.
    auto. }
  destruct Hp1 as (Hpre1 & Hs1 & Hsel1 & Hprev1). clear H1.
  assert (Hp2 : exists ts2, p2 = set_updatableCharTables p1 ts2 /\ tables_ok ts2
    /\ (calibration_view (menuState p1) = true -> calibration_rows ts2)
    /\ (calibration_view (menuState p1) = false -> ts2 = updatableCharTables p1)).
  { destruct (((5 =? state_value (menuState p1)) || (6 =? state_value (menuState p1)))
              && negb (state_value (menuState p1) =? state_value (previousMenu p1)))
      eqn:Ec.
    - apply Menu_SetCalibrationView_tables in H2 as (ts2 & -> & Hts2 & Hrows);
        [| apply Hpre1].
      exists ts2. split; [reflexivity |]. split; [exact Hts2 |]. split; [auto |].
      intros Hc. apply andb_true_iff in Ec as [Ec _].
      destruct (menuState p1); discriminate.
    - injection H2 as <-. exists (updatableCharTables p1).
      split; [destruct p1; reflexivity |]. split; [apply Hpre1 |].
      split; [| reflexivity].
      intros Hc. exfalso.
      pose proof (pre_previous p1 Hpre1 Hc) as Hne.
      apply andb_false_iff in Ec as [Ec | Ec].
      + destruct (menuState p1); discriminate.
      + apply negb_false_iff, Z.eqb_eq, state_value_inj in Ec. congruence. }
  destruct Hp2 as (ts2 & -> & Hts2 & Hrows2 & Hsame2). clear H2.
  exists p1, ts2, ts'. repeat (split; [assumption |]). reflexivity.
Qed.

(** The text update keeps the control part of the state, except that it
    leaves [NO_MENU] for [PANEL_VIEW], and establishes the invariant. *)
Lemma Menu_UpdateTextFields_inv (pMenu : T_MenuSystem) (pMeasResults : list float)
    (pCalibInfo : T_CalibrationInfo) (pMenu' : T_MenuSystem) :
  menu_pre pMenu ->
  Menu_UpdateTextFields pMenu pMeasResults pCalibInfo = Ok pMenu' ->
  menu_inv pMenu'
  /\ menuState pMenu' = shown_view (menuState pMenu)
  /\ currentSelection pMenu' = currentSelection pMenu
  /\ previousMenu pMenu' = previousMenu pMenu.
Proof.
  intros Hpre Hrun.
  destruct (Menu_UpdateTextFields_steps _ _ _ _ Hpre Hrun)
    as (p1 & ts2 & ts' & Hpre1 & Hs1 & Hsel1 & Hprev1 & Hts2 & Hrows2 & _ & H3 & ->).
  destruct (Menu_UpdateTextFields_switch_keeps (set_updatableCharTables p1 ts2)
              _ _ _ Hts2 H3) as (Hts' & Hsame).
  split; [| simpl; auto].
  constructor.
  - apply menu_pre_tables; assumption.
  - simpl. intros Hc. destruct (Hsame Hc) as (E1 & E3).
    destruct (Hrows2 Hc) as ((c & Hr1) & Hr3). simpl in E1, E3. split.
    + exists c. rewrite E1. exact Hr1.
    + rewrite E3. exact Hr3.
Qed.

Lemma pMeasResults_load (pMeasResults : list float) (i : Z) :
  length pMeasResults = 10%nat -> 0 <= i < 10 ->
  exists v, load "pMeasResults" pMeasResults i = Ok v /\ v ∈ pMeasResults.
Proof.
  intros Hl Hi. destruct (pMeasResults !! Z.to_nat i) as [v |] eqn:E.
  - exists v. split; [apply load_Ok; split; [lia | exact E] |].
    apply list_elem_of_lookup. eauto.
  - apply lookup_ge_None in E. lia.
Qed.

Lemma Menu_UpdateTextFields_panel_total (pMeasResults : list float) (n : nat) :
  length pMeasResults = 10%nat ->
  (forall v, v ∈ pMeasResults -> displayable (hundredths v)) ->
  forall (i : Z) (ts : list (list ascii)),
  tables_ok ts -> 0 <= i -> i + Z.of_nat n <= 8 ->
  exists ts', Menu_UpdateTextFields_panel n i pMeasResults ts = Ok ts'.
Proof.
  intros Hl Hd. induction n as [| n IH]; intros i ts Hts Hi Hn;
    cbn [Menu_UpdateTextFields_panel].
  - eauto.
  - destruct (pMeasResults_load pMeasResults i Hl) as (v & -> & Hv); [lia |].
    cbn [bind].
    destruct (with_table_run (fun t => Menu_FloatToCharArray t v) ts i)
      as (ts1 & -> & Hts1); try assumption; try lia;
      [apply keeps_row_float | apply total_row_float; auto |].
    cbn [bind].
    destruct (with_table_run
                (fun t => store "table" t 6 (if 0 =? i mod 2 then "V"%char else "A"%char))
                ts1 i)
      as (ts2 & -> & Hts2); try assumption; try lia;
      [apply keeps_row_store | apply total_row_store |]; try lia.
    cbn [bind]. apply IH; [exact Hts2 | lia | lia].
Qed.

Lemma Menu_UpdateTextFields_menu_total (n : nat) :
  forall (i : Z) (ts : list (list ascii)),
  tables_ok ts -> 0 <= i -> i + Z.of_nat n <= 8 ->
  exists ts', Menu_UpdateTextFields_menu n i ts = Ok ts' /\ tables_ok ts'.
Proof.
  induction n as [| n IH]; intros i ts Hts Hi Hn; cbn [Menu_UpdateTextFields_menu].
  - eauto.
  - destruct (with_table_run (Menu_CharArrayToTable "       ") ts i)
      as (ts1 & -> & Hts1); try assumption; try lia;
      [apply keeps_row_text | apply total_row_text |]; try (vm_compute; lia).
    cbn [bind]. apply IH; [exact Hts1 | lia | lia].
Qed.

Lemma Menu_UpdateTextFields_switch_total (pMenu : T_MenuSystem)
    (pMeasResults : list float) (pCalibInfo : T_CalibrationInfo) :
  tables_ok (updatableCharTables pMenu) ->
  selection_ok (menuState pMenu) (currentSelection pMenu) ->
  inputs_ok pMeasResults pCalibInfo ->
  exists ts', Menu_UpdateTextFields_switch pMenu pMeasResults pCalibInfo = Ok ts'.
Proof.
  intros Hts2 Hsel (Hl & Hd & Hm). unfold Menu_UpdateTextFields_switch.
  set (ts2 := updatableCharTables pMenu) in *.
  assert (Hmenu : forall sel, 0 <= sel <= 3 -> exists ts',
    (do ts <- Menu_UpdateTextFields_menu 4 0 ts2 ;
     with_table ts sel (fun t => store "table" t 0 ">"%char)) = Ok ts').
  { intros sel Hs.
    destruct (Menu_UpdateTextFields_menu_total 4 0 ts2) as (ts & -> & Hts);
      try assumption; try lia.
    cbn [bind]. apply with_table_total; [apply total_row_store; lia | exact Hts | lia]. }
  assert (Hcal : forall sel, exists ts',
    (do ts2 <-
       (if 0 =? sel then
          do ts1 <- with_table ts2 5 (Menu_CharArrayToTable ">      ") ;
          with_table ts1 6 (Menu_CharArrayToTable "<      ")
        else
          do ts1 <- with_table ts2 5 (Menu_CharArrayToTable "       ") ;
          with_table ts1 6 (Menu_CharArrayToTable "   >  <")) ;
     do v <- load "pMeasResults" pMeasResults (measToCalibrate pCalibInfo) ;
     with_table ts2 7 (fun t => Menu_FloatToCharArray t v)) = Ok ts').
  { intros sel.
    assert (Ht : exists t2,
      (if 0 =? sel then
         do ts1 <- with_table ts2 5 (Menu_CharArrayToTable ">      ") ;
         with_table ts1 6 (Menu_CharArrayToTable "<      ")
       else
         do ts1 <- with_table ts2 5 (Menu_CharArrayToTable "       ") ;
         with_table ts1 6 (Menu_CharArrayToTable "   >  <")) = Ok t2 /\ tables_ok t2).
    { destruct (0 =? sel).
      - destruct (with_table_run (Menu_CharArrayToTable ">      ") ts2 5)
          as (t1 & -> & Ht1); try assumption; try lia;
          [apply keeps_row_text | apply total_row_text |]; try (vm_compute; lia).
        cbn [bind]. apply with_table_run; try assumption; try lia;
          [apply keeps_row_text | apply total_row_text]; vm_compute; lia.
      - destruct (with_table_run (Menu_CharArrayToTable "       ") ts2 5)
          as (t1 & -> & Ht1); try assumption; try lia;
          [apply keeps_row_text | apply total_row_text |]; try (vm_compute; lia).
        cbn [bind]. apply with_table_run; try assumption; try lia;
          [apply keeps_row_text | apply total_row_text]; vm_compute; lia. }
    destruct Ht as (t2 & -> & Ht2). cbn [bind].
    destruct (pMeasResults_load pMeasResults (measToCalibrate pCalibInfo) Hl)
      as (v & -> & Hv); [lia |].
    cbn [bind]. apply with_table_total;
      [apply total_row_float; auto | exact Ht2 | lia]. }
  destruct (menuState pMenu); simpl in Hsel.
  - apply Menu_UpdateTextFields_panel_total; try assumption; simpl; lia.
  - destruct (pMeasResults_load pMeasResults BATTERY_VOLTAGE Hl) as (v & -> & Hv);
      [unfold BATTERY_VOLTAGE; lia |].
    cbn [bind].
    destruct (with_table_run (fun t => Menu_FloatToCharArray t v) ts2 0)
      as (t1 & -> & Ht1); try assumption; try lia;
      [apply keeps_row_float | apply total_row_float; auto |].
    cbn [bind].
    destruct (pMeasResults_load pMeasResults BATTERY_CURRENT Hl) as (a & -> & Ha);
      [unfold BATTERY_CURRENT; lia |].
    cbn [bind].
    destruct (with_table_run (fun t => Menu_FloatToCharArray t a) t1 1)
      as (t2 & -> & Ht2); try assumption; try lia;
      [apply keeps_row_float | apply total_row_float; auto |].
    cbn [bind].
    destruct (with_table_run (fun t => store "table" t 6 "V"%char) t2 0)
      as (t3 & -> & Ht3); try assumption; try lia;
      [apply keeps_row_store | apply total_row_store |]; try lia.
    cbn [bind]. apply with_table_total;
      [apply total_row_store; lia | exact Ht3 | lia].
  - apply Hmenu. exact Hsel.
  - apply Hmenu. exact Hsel.
  - apply Hmenu. exact Hsel.
  - apply Hcal.
  - apply Hcal.
  - eauto.
Qed.

Lemma Menu_UpdateTextFields_total (pMenu : T_MenuSystem) (pMeasResults : list float)
    (pCalibInfo : T_CalibrationInfo) :
  menu_pre pMenu -> inputs_ok pMeasResults pCalibInfo ->
  (calibration_view (menuState pMenu) = true -> points_ok) ->
  exists pMenu', Menu_UpdateTextFields pMenu pMeasResults pCalibInfo = Ok pMenu'.
Proof.
  intros Hpre Hin Hpoints. unfold Menu_UpdateTextFields.
  assert (Hp1 : exists p1,
    (match menuState pMenu with
     | NO_MENU => Menu_ChangeView (set_menuState pMenu PANEL_VIEW)
     | _ => Ok pMenu
     end) = Ok p1 /\ menu_pre p1 /\ menuState p1 = shown_view (menuState pMenu)).
  { pose proof Hpre as [Hv Ht Hf Hsel Hprev Hb].
    destruct pMenu as [s sel prev vs ts cur]. simpl in *. subst vs.
    destruct s; try (eexists; split; [reflexivity |]; split; [exact Hpre | reflexivity]).
    destruct (Menu_ChangeView_pre PANEL_VIEW sel prev ts cur) as (cur' & E & Hp);
      try assumption; try discriminate.
    unfold set_menuState. simpl. rewrite E. eexists. split; [reflexivity |].
    split; [exact Hp | reflexivity]. }
  destruct Hp1 as (p1 & -> & Hpre1 & Hs1). cbn [bind].
  assert (Hp2 : exists ts2,
    (if ((5 =? state_value (menuState p1)) || (6 =? state_value (menuState p1)))
        && negb (state_value (menuState p1) =? state_value (previousMenu p1))
     then Menu_SetCalibrationView p1 pCalibInfo
     else Ok p1) = Ok (set_updatableCharTables p1 ts2) /\ tables_ok ts2).
  { destruct (((5 =? state_value (menuState p1)) || (6 =? state_value (menuState p1)))
              && negb (state_value (menuState p1) =? state_value (previousMenu p1)))
      eqn:Ec.
    - destruct (Menu_SetCalibrationView_total p1 pCalibInfo) as (p2 & E);
        [apply Hpre1 | |].
      { apply Hpoints. apply andb_true_iff in Ec as [Ec _]. rewrite Hs1 in Ec.
        destruct (menuState pMenu); try discriminate; reflexivity. }
      destruct (Menu_SetCalibrationView_tables p1 pCalibInfo p2) as (ts2 & -> & Hts2 & _);
        [apply Hpre1 | exact E |].
      exists ts2. auto.
    - exists (updatableCharTables p1). split; [destruct p1; reflexivity | apply Hpre1]. }
  destruct Hp2 as (ts2 & -> & Hts2). cbn [bind].
  destruct (Menu_UpdateTextFields_switch_total (set_updatableCharTables p1 ts2)
              pMeasResults pCalibInfo) as (ts' & ->);
    [exact Hts2 | exact (pre_selection p1 Hpre1) | exact Hin |].
  cbn [bind]. eauto.
Qed.

(** ** [Menu_UpdateView] and the reachable states *)

Lemma Menu_HandleButtonState_table (pMenu : T_MenuSystem) (buttonState : E_ButtonClicks) :
  menu_pre pMenu ->
  (menuState pMenu = NO_MENU -> buttonState <> LONG_CLICK) ->
  exists p1 task,
    Menu_HandleButtonState pMenu buttonState = Ok (p1, task)
    /\ menu_pre p1
    /\ (shown_view (menuState p1), currentSelection p1, task)
       = table_update (menuState pMenu) (currentSelection pMenu) buttonState.
Proof.
  intros Hpre Hno. unfold table_update. destruct buttonState; simpl.
  - exists pMenu, MENU_NO_ACTION. auto.
  - destruct (Menu_PrimaryAction_table pMenu Hpre) as (p1 & E & Hp1 & _ & Ec & _).
    exists p1, MENU_NO_ACTION. rewrite <- Ec. auto.
  - destruct (Menu_SecondaryAction_table pMenu Hpre) as (p1 & E & Hp1 & _ & Ec & _).
    { intros Hs. exact (Hno Hs eq_refl). }
    eexists p1, _. split; [exact E |]. split; [exact Hp1 |].
    destruct (table_long_click (menuState pMenu) (currentSelection pMenu)) as [[s' sel'] task].
    simpl in *. injection Ec as -> ->. reflexivity.
Qed.

Lemma Menu_HandleButtonState_NO_MENU (pMenu : T_MenuSystem) :
  views pMenu = MENU_VIEWS -> menuState pMenu = NO_MENU ->
  Menu_HandleButtonState pMenu LONG_CLICK = Fault (OutOfBounds "views" 7).
Proof. intros Hv Hs. simpl. exact (Menu_SecondaryAction_NO_MENU pMenu Hv Hs). Qed.

(** A call that returns has done what the table says and leaves the
    invariant behind. *)
Lemma Menu_UpdateView_inv (pMenu : T_MenuSystem) (buttonState : E_ButtonClicks)
    (pMeasResults : list float) (pCalibInfo : T_CalibrationInfo)
    (pMenu' : T_MenuSystem) (task : Z) :
  menu_pre pMenu ->
  Menu_UpdateView pMenu buttonState pMeasResults pCalibInfo = Ok (pMenu', task) ->
  menu_inv pMenu' /\ menuState pMenu' <> NO_MENU
  /\ shown (pMenu', task)
     = table_update (menuState pMenu) (currentSelection pMenu) buttonState.
Proof.
  intros Hpre Hrun. unfold Menu_UpdateView in Hrun.
  apply bind_Ok in Hrun as ([p1 task1] & H1 & Hrun).
  apply bind_Ok in Hrun as (p2 & H2 & Hrun). simpl in H2, Hrun.
  injection Hrun as <- <-.
  assert (Hno : menuState pMenu = NO_MENU -> buttonState <> LONG_CLICK).
  { intros Hs ->. rewrite Menu_HandleButtonState_NO_MENU in H1;
      [discriminate | apply Hpre | exact Hs]. }
  destruct (Menu_HandleButtonState_table pMenu buttonState Hpre Hno)
    as (p1' & task' & E & Hp1 & Ec).
  rewrite E in H1. injection H1 as -> ->.
  destruct (Menu_UpdateTextFields_inv p1 _ _ p2 Hp1 H2) as (Hinv & Es & Esel & _).
  split; [exact Hinv |]. split.
  - rewrite Es. destruct (menuState p1); discriminate.
  - unfold shown. simpl. rewrite Es, Esel. exact Ec.
Qed.

Lemma Menu_UpdateView_total (pMenu : T_MenuSystem) (buttonState : E_ButtonClicks)
    (pMeasResults : list float) (pCalibInfo : T_CalibrationInfo) :
  menu_pre pMenu -> inputs_ok pMeasResults pCalibInfo -> points_ok ->
  (menuState pMenu = NO_MENU -> buttonState <> LONG_CLICK) ->
  exists pMenu' task,
    Menu_UpdateView pMenu buttonState pMeasResults pCalibInfo = Ok (pMenu', task).
Proof.
  intros Hpre Hin Hpoints Hno. unfold Menu_UpdateView.
  destruct (Menu_HandleButtonState_table pMenu buttonState Hpre Hno)
    as (p1 & task & -> & Hp1 & _).
  cbn [bind fst snd].
  destruct (Menu_UpdateTextFields_total p1 pMeasResults pCalibInfo Hp1 Hin
              (fun _ => Hpoints)) as (p2 & ->).
  cbn [bind]. eauto.
Qed.

Lemma initial_menu_pre : menu_pre initial_menu.
Proof.
  constructor; simpl; try reflexivity; try discriminate; try contradiction.
  split; [reflexivity |]. repeat constructor.
Qed.

Lemma reachable_pre (pMenu : T_MenuSystem) : reachable pMenu -> menu_pre pMenu.
Proof.
  induction 1 as [| p c meas calib p' task _ IH Hrun].
  - exact initial_menu_pre.
  - apply (Menu_UpdateView_inv p c meas calib p' task IH Hrun).
Qed.

Lemma reachable_inv (pMenu : T_MenuSystem) :
  reachable pMenu ->
  pMenu = initial_menu \/ (menu_inv pMenu /\ menuState pMenu <> NO_MENU).
Proof.
  destruct 1 as [| p c meas calib p' task Hp Hrun].
  - left. reflexivity.
  - right. pose proof (reachable_pre p Hp) as Hpre.
    destruct (Menu_UpdateView_inv p c meas calib p' task Hpre Hrun) as (Hinv & Hno & _).
    auto.
Qed.

Lemma Menu_updates_reachable (clicks : list E_ButtonClicks) (pMeasResults : list float)
    (pCalibInfo : T_CalibrationInfo) :
  forall (pMenu : T_MenuSystem) (trace : list (T_MenuSystem * Z)),
  reachable pMenu ->
  Menu_updates pMenu clicks pMeasResults pCalibInfo = Ok trace ->
  Forall (fun r => reachable (fst r)) trace.
Proof.
  induction clicks as [| c clicks IH]; intros p trace Hp Hrun; simpl in Hrun.
  - injection Hrun as <-. constructor.
  - apply bind_Ok in Hrun as ([p1 task] & H1 & Hrun).
    apply bind_Ok in Hrun as (rs & Hrs & Hrun). injection Hrun as <-.
    assert (Hp1 : reachable p1) by exact (reachable_update p c _ _ p1 task Hp H1).
    constructor; [exact Hp1 |]. exact (IH p1 rs Hp1 Hrs).
Qed.

(** The code follows the transition table, for every sequence of clicks
    that does not start with a long click in [NO_MENU]. *)
Lemma Menu_updates_table (pMeasResults : list float) (pCalibInfo : T_CalibrationInfo)
    (clicks : list E_ButtonClicks) :
  inputs_ok pMeasResults pCalibInfo -> points_ok ->
  forall pMenu : T_MenuSystem,
  menu_pre pMenu ->
  (menuState pMenu = NO_MENU -> head clicks <> Some LONG_CLICK) ->
  exists trace,
    Menu_updates pMenu clicks pMeasResults pCalibInfo = Ok trace
    /\ map shown trace
       = table_updates (menuState pMenu) (currentSelection pMenu) clicks.
Proof.
  intros Hin Hpoints. induction clicks as [| c clicks IH]; intros p Hpre Hno; simpl.
  - exists []. auto.
  - destruct (Menu_UpdateView_total p c pMeasResults pCalibInfo Hpre Hin Hpoints)
      as (p1 & task & E).
    { intros Hs ->. exact (Hno Hs eq_refl). }
    rewrite E. cbn [bind fst snd].
    destruct (Menu_UpdateView_inv p c _ _ p1 task Hpre E) as (Hinv & Hs1 & Ec).
    destruct (IH p1 (inv_pre p1 Hinv)) as (rs & -> & Ers).
    { intros Hs. contradiction. }
    cbn [bind]. eexists. split; [reflexivity |].
    simpl. rewrite Ec. f_equal.
    rewrite Ers. unfold shown in Ec. simpl in Ec. rewrite <- Ec. reflexivity.
Qed.

End MenuText.

(** ** Example inputs *)

Lemma example_inputs_ok :
  inputs_ok (H := centi_floats) example_measurements example_calibration.
Proof.
  split; [reflexivity |]. split; [| simpl; lia].
  apply Forall_forall. repeat constructor; vm_compute; congruence.
Qed.

Lemma example_points_ok : points_ok (H := centi_floats).
Proof.
  unfold points_ok. intros row v Hrow Hv.
  assert (Hall : Forall (Forall (fun v => displayable (hundredths (FloatModel := centi_floats) v)))
                   (CALIBRATION_POINTS (H := centi_floats))).
  { repeat constructor; vm_compute; congruence. }
  rewrite Forall_forall in Hall. specialize (Hall row Hrow).
  rewrite Forall_forall in Hall. exact (Hall v Hv).
Qed.

Lemma example_run_reachable (clicks : list E_ButtonClicks) :
  forall pMenu : T_MenuSystem,
  reachable (H := centi_floats) pMenu ->
  reachable (H := centi_floats) (example_run pMenu clicks).
Proof.
  induction clicks as [| c clicks IH]; intros p Hp; simpl.
  - exact Hp.
  - destruct (Menu_UpdateView (H := centi_floats) p c example_measurements
                example_calibration) as [[p' task] | f] eqn:E.
    + apply IH. exact (reachable_update p c _ _ p' task Hp E).
    + exact Hp.
Qed.

Lemma example_menu_view_reachable : reachable (H := centi_floats) example_menu_view.
Proof.
  exact (example_run_reachable (take 4 example_clicks) initial_menu
           (reachable_initial (H := centi_floats))).
Qed.

Lemma example_calibration_view_2_reachable :
  reachable (H := centi_floats) example_calibration_view_2.
Proof.
  exact (example_run_reachable example_clicks initial_menu
           (reachable_initial (H := centi_floats))).
Qed.

(** ** The state machine *)

Section StateMachine.

Context `{FloatModel}.

(** C1.  From the initial state, with any measurements and calibration
    info [main] can pass, the calls with no click, a long click, three
    short clicks, a long click, a short click and a long click return, and
    show in turn: the panel view; the first menu view with selection 0;
    selections 1, 2 and 3; task 3 and the first calibration view; then,
    after the short click, task [MENU_MEASURE_1] (13) and the second
    calibration view. *)
Theorem calibration_scenario (pMeasResults : list float)
    (pCalibInfo : T_CalibrationInfo) :
  inputs_ok pMeasResults pCalibInfo -> points_ok ->
  exists trace,
    Menu_updates initial_menu
      [NO_CLICK; LONG_CLICK; SHORT_CLICK; SHORT_CLICK; SHORT_CLICK; LONG_CLICK;
       SHORT_CLICK; LONG_CLICK] pMeasResults pCalibInfo = Ok trace
    /\ map shown trace =
       [ (PANEL_VIEW, 0, MENU_NO_ACTION);
         (MENU_VIEW_1, 0, MENU_NO_ACTION);
         (MENU_VIEW_1, 1, MENU_NO_ACTION);
         (MENU_VIEW_1, 2, MENU_NO_ACTION);
         (MENU_VIEW_1, 3, MENU_NO_ACTION);
         (CALIBRATION_VIEW_1, 0, 3);
         (CALIBRATION_VIEW_1, 1, MENU_NO_ACTION);
         (CALIBRATION_VIEW_2, 1, MENU_MEASURE_1) ].
Proof.
  intros Hin Hpoints.
  destruct (Menu_updates_table pMeasResults pCalibInfo
              [NO_CLICK; LONG_CLICK; SHORT_CLICK; SHORT_CLICK; SHORT_CLICK; LONG_CLICK;
               SHORT_CLICK; LONG_CLICK] Hin Hpoints initial_menu initial_menu_pre)
    as (trace & Hrun & Hshown).
  - intros _. discriminate.
  - exists trace. split; [exact Hrun |]. rewrite Hshown. reflexivity.
Qed.

(** C2, as the code has it.  In the second calibration view a long click
    with selection 0 leads back to the first calibration view and returns
    [MENU_NO_ACTION]; with another selection it leads to the first menu
    view and returns [MENU_MEASURE_2] (14).  This holds in every reachable
    state that shows the second calibration view: the button action
    returns so, and so does every call of [Menu_UpdateView] that
    returns. *)
Theorem calibration_2_long_click (pMenu : T_MenuSystem) :
  reachable pMenu -> menuState pMenu = CALIBRATION_VIEW_2 ->
  let next := if currentSelection pMenu =? 0 then CALIBRATION_VIEW_1 else MENU_VIEW_1 in
  let task := if currentSelection pMenu =? 0 then MENU_NO_ACTION else MENU_MEASURE_2 in
  (exists p1, Menu_SecondaryAction pMenu = Ok (p1, task) /\ menuState p1 = next)
  /\ forall pMeasResults pCalibInfo pMenu' task',
       Menu_UpdateView pMenu LONG_CLICK pMeasResults pCalibInfo = Ok (pMenu', task') ->
       menuState pMenu' = next /\ task' = task.
Proof.
  intros Hreach Hs next task. pose proof (reachable_pre pMenu Hreach) as Hpre.
  pose proof (pre_selection pMenu Hpre) as Hsel. rewrite Hs in Hsel. simpl in Hsel.
  assert (Et : table_long_click CALIBRATION_VIEW_2 (currentSelection pMenu)
               = (next, currentSelection pMenu, task)).
  { unfold next, task. destruct (currentSelection pMenu) as [| p | p]; try lia; reflexivity. }
  split.
  - destruct (Menu_SecondaryAction_table pMenu Hpre) as (p1 & E & _ & _ & Ec & _).
    { rewrite Hs. discriminate. }
    rewrite Hs, Et in E, Ec. simpl in E, Ec. injection Ec as Ec _.
    exists p1. auto.
  - intros meas calib p' task' Hrun.
    destruct (Menu_UpdateView_inv pMenu LONG_CLICK meas calib p' task' Hpre Hrun)
      as (_ & _ & Ec).
    unfold shown, table_update in Ec. rewrite Hs, Et in Ec. simpl in Ec.
    injection Ec as E1 _ E3. split; [| exact E3].
    rewrite E1. unfold next. destruct (currentSelection pMenu =? 0); reflexivity.
Qed.

(** C3.  In a menu view a long click computes
    [task = (view - MENU_VIEW_1) * 4 + selection], a value from 0 to 11,
    returns it and sets the selection to 0; the tasks 0 to 9 lead to the
    first calibration view, 10 (save) and 11 (cancel) to the panel
    view. *)
Theorem menu_long_click (pMenu : T_MenuSystem) :
  reachable pMenu -> menu_view (menuState pMenu) = true ->
  let task := (state_value (menuState pMenu) - state_value MENU_VIEW_1) * 4
              + currentSelection pMenu in
  0 <= currentSelection pMenu <= 3 /\ 0 <= task <= 11
  /\ exists p1,
       Menu_SecondaryAction pMenu = Ok (p1, task)
       /\ currentSelection p1 = 0
       /\ (0 <= task <= 9 -> menuState p1 = CALIBRATION_VIEW_1)
       /\ (task = MENU_SAVE \/ task = MENU_CANCEL -> menuState p1 = PANEL_VIEW).
Proof.
  intros Hreach Hs task. pose proof (reachable_pre pMenu Hreach) as Hpre.
  pose proof (pre_selection pMenu Hpre) as Hsel.
  destruct (Menu_SecondaryAction_table pMenu Hpre) as (p1 & E & _ & _ & Ec & _).
  { intros E. rewrite E in Hs. discriminate. }
  assert (Ht : 0 <= currentSelection pMenu <= 3 /\ 0 <= task <= 11
               /\ table_long_click (menuState pMenu) (currentSelection pMenu)
                  = (if task <? 10 then CALIBRATION_VIEW_1 else PANEL_VIEW, 0, task)).
  { unfold task. destruct (menuState pMenu); try discriminate; simpl in *;
      (split; [lia |]); (split; [lia | reflexivity]). }
  destruct Ht as (Hr & Ht & Et). rewrite Et in E, Ec. simpl in E, Ec.
  injection Ec as E1 E2.
  split; [exact Hr |]. split; [exact Ht |]. exists p1.
  split; [exact E |]. split; [exact E2 |]. unfold MENU_SAVE, MENU_CANCEL. split.
  - intros Hlow. rewrite E1. destruct (Z.ltb_spec task 10); [reflexivity | lia].
  - intros Hhigh. rewrite E1. destruct (Z.ltb_spec task 10); [lia | reflexivity].
Qed.

(** C4.  In every reachable state, so after each call of
    [Menu_UpdateView] whatever the clicks were, the selection is in the
    range of the view shown: 0 to 3, at most 3 in the menu views, at most 1
    in the calibration views. *)
Theorem selection_stays_in_range (pMenu : T_MenuSystem) :
  reachable pMenu -> selection_in_range pMenu.
Proof.
  intros Hreach. pose proof (reachable_pre pMenu Hreach) as Hpre.
  pose proof (pre_selection pMenu Hpre) as Hsel.
  unfold selection_in_range.
  destruct (menuState pMenu); simpl in *; (split; [lia |]); split;
    first [discriminate | intros _; lia].
Qed.

(** C9, what the code does on a long click in the first call: the button
    action reads [views[NO_MENU]], one entry behind the seven views, before
    the text update gets to replace [NO_MENU]. *)
Theorem first_call_long_click (pMeasResults : list float)
    (pCalibInfo : T_CalibrationInfo) :
  Menu_UpdateView initial_menu LONG_CLICK pMeasResults pCalibInfo
  = Fault (OutOfBounds "views" 7).
Proof. reflexivity. Qed.

(** With no click or a short click the first call shows the panel view,
    and no call returns with [NO_MENU]. *)
Lemma first_call_other_clicks (buttonState : E_ButtonClicks)
    (pMeasResults : list float) (pCalibInfo : T_CalibrationInfo) :
  inputs_ok pMeasResults pCalibInfo -> points_ok -> buttonState <> LONG_CLICK ->
  exists pMenu' task,
    Menu_UpdateView initial_menu buttonState pMeasResults pCalibInfo = Ok (pMenu', task)
    /\ menuState pMenu' = PANEL_VIEW.
Proof.
  intros Hin Hpoints Hb.
  destruct (Menu_UpdateView_total initial_menu buttonState pMeasResults pCalibInfo
              initial_menu_pre Hin Hpoints (fun _ => Hb)) as (p' & task & E).
  exists p', task. split; [exact E |].
  destruct (Menu_UpdateView_inv _ _ _ _ _ _ initial_menu_pre E) as (_ & _ & Ec).
  unfold shown in Ec. simpl in Ec.
  destruct buttonState; try contradiction; injection Ec as E1 _ _; exact E1.
Qed.

Lemma never_NO_MENU (pMenu : T_MenuSystem) (buttonState : E_ButtonClicks)
    (pMeasResults : list float) (pCalibInfo : T_CalibrationInfo)
    (pMenu' : T_MenuSystem) (task : Z) :
  reachable pMenu ->
  Menu_UpdateView pMenu buttonState pMeasResults pCalibInfo = Ok (pMenu', task) ->
  menuState pMenu' <> NO_MENU.
Proof.
  intros Hreach Hrun.
  apply (Menu_UpdateView_inv _ _ _ _ _ _ (reachable_pre pMenu Hreach) Hrun).
Qed.

End StateMachine.

Lemma calibration_scenario_witness :
  exists trace,
    Menu_updates (H := centi_floats) initial_menu
      [NO_CLICK; LONG_CLICK; SHORT_CLICK; SHORT_CLICK; SHORT_CLICK; LONG_CLICK;
       SHORT_CLICK; LONG_CLICK] example_measurements example_calibration = Ok trace
    /\ map shown trace =
       [ (PANEL_VIEW, 0, MENU_NO_ACTION);
         (MENU_VIEW_1, 0, MENU_NO_ACTION);
         (MENU_VIEW_1, 1, MENU_NO_ACTION);
         (MENU_VIEW_1, 2, MENU_NO_ACTION);
         (MENU_VIEW_1, 3, MENU_NO_ACTION);
         (CALIBRATION_VIEW_1, 0, 3);
         (CALIBRATION_VIEW_1, 1, MENU_NO_ACTION);
         (CALIBRATION_VIEW_2, 1, MENU_MEASURE_1) ].
Proof.
  apply (calibration_scenario (H := centi_floats) example_measurements example_calibration).
  - split; [reflexivity |]. split; [| simpl; lia].
    apply Forall_forall. repeat constructor; vm_compute; congruence.
  - exact example_points_ok.
Defined.

(** C2 as the specification has it fails: in the second calibration view
    with selection 1 the long click leads to the first menu view, not to
    the panel view. *)
Lemma calibration_2_long_click_not_panel :
  reachable (H := centi_floats) example_calibration_view_2
  /\ menuState example_calibration_view_2 = CALIBRATION_VIEW_2
  /\ currentSelection example_calibration_view_2 = 1
  /\ exists pMenu',
       Menu_UpdateView (H := centi_floats) example_calibration_view_2 LONG_CLICK
         example_measurements example_calibration = Ok (pMenu', MENU_MEASURE_2)
       /\ menuState pMenu' = MENU_VIEW_1
       /\ menuState pMenu' <> PANEL_VIEW.
Proof.
  split; [exact example_calibration_view_2_reachable |].
  split; [reflexivity |]. split; [reflexivity |].
  eexists. split; [vm_compute; reflexivity |]. split; [reflexivity | discriminate].
Qed.

Lemma calibration_2_long_click_witness :
  (exists p1, Menu_SecondaryAction example_calibration_view_2 = Ok (p1, MENU_MEASURE_2)
              /\ menuState p1 = MENU_VIEW_1)
  /\ forall pMeasResults pCalibInfo pMenu' task',
       Menu_UpdateView (H := centi_floats) example_calibration_view_2 LONG_CLICK
         pMeasResults pCalibInfo = Ok (pMenu', task') ->
       menuState pMenu' = MENU_VIEW_1 /\ task' = MENU_MEASURE_2.
Proof.
  apply (calibration_2_long_click (H := centi_floats) example_calibration_view_2).
  - exact example_calibration_view_2_reachable.
  - reflexivity.
Defined.

Lemma menu_long_click_witness :
  0 <= 2 <= 3 /\ 0 <= 2 <= 11
  /\ exists p1,
       Menu_SecondaryAction example_menu_view = Ok (p1, 2)
       /\ currentSelection p1 = 0
       /\ (0 <= 2 <= 9 -> menuState p1 = CALIBRATION_VIEW_1)
       /\ (2 = MENU_SAVE \/ 2 = MENU_CANCEL -> menuState p1 = PANEL_VIEW).
Proof.
  apply (menu_long_click (H := centi_floats) example_menu_view).
  - exact example_menu_view_reachable.
  - reflexivity.
Defined.

Lemma selection_stays_in_range_witness : selection_in_range example_calibration_view_2.
Proof.
  apply (selection_stays_in_range (H := centi_floats) example_calibration_view_2).
  exact example_calibration_view_2_reachable.
Defined.

(** ** The text of a measurement *)

Lemma digit_decimal (m : Z) : digit m = decimal (m mod 10).
Proof.
  unfold digit. pose proof (Z.mod_pos_bound m 10 ltac:(lia)) as Hm.
  assert (Hc : m mod 10 = 0 \/ m mod 10 = 1 \/ m mod 10 = 2 \/ m mod 10 = 3
               \/ m mod 10 = 4 \/ m mod 10 = 5 \/ m mod 10 = 6 \/ m mod 10 = 7
               \/ m mod 10 = 8 \/ m mod 10 = 9) by lia.
  repeat (destruct Hc as [-> | Hc]; [reflexivity |]). rewrite Hc. reflexivity.
Qed.

Lemma float_text_fixed (n : Z) : 0 <= n < 10000 -> float_text n = fixed_text n.
Proof.
  intros Hn. unfold float_text, fixed_text, lead.
  assert (E4 : n / 10000 = 0) by (apply Z.div_small; lia).
  assert (E3 : n / 1000 = n / 100 / 10) by (Z.div_mod_to_equations; lia).
  assert (H3 : 0 <= n / 1000 < 10) by (Z.div_mod_to_equations; lia).
  rewrite E4, !digit_decimal. simpl (0 >? 0).
  f_equal. f_equal.
  destruct (Z.gtb_spec (n / 1000) 0); destruct (Z.ltb_spec (n / 100) 10);
    try (exfalso; Z.div_mod_to_equations; lia); [| reflexivity].
  rewrite Z.mod_small by lia. rewrite E3. reflexivity.
Qed.

Lemma row_ok_drop (t : list ascii) : row_ok t -> exists c, drop 6 t = [c; NUL].
Proof.
  intros [Hl H7]. do 9 (destruct t as [| ? t]; try discriminate Hl).
  simpl in H7. injection H7 as ->. eauto.
Qed.

Section MeasurementText.

Context `{FloatModel}.

(** One measurement written into a table and its unit letter after it. *)
Lemma measurement_written (ts ts1 ts2 : list (list ascii)) (i : Z) (v : float) (u : ascii) :
  tables_ok ts -> displayable (hundredths v) ->
  with_table ts i (fun t => Menu_FloatToCharArray t v) = Ok ts1 ->
  with_table ts1 i (fun t => store "table" t 6 u) = Ok ts2 ->
  ts2 !! Z.to_nat i = Some (float_text (hundredths v) ++ [u; NUL]).
Proof.
  intros Hts [Hv0 Hv1] H1 H2.
  apply with_table_same in H1 as (t & t1 & Ht & Hf & Ht1).
  apply with_table_same in H2 as (t1' & t2 & Ht1' & Hs & Ht2).
  rewrite Ht1 in Ht1'. injection Ht1' as <-.
  pose proof (tables_ok_lookup ts _ t Hts Ht) as Hrow.
  unfold Menu_FloatToCharArray in Hf.
  rewrite Menu_FloatToCharArray_uint_exact in Hf by (first [apply Hrow | assumption]).
  injection Hf as <-. destruct (row_ok_drop t Hrow) as (c & Ec). rewrite Ec in Hs.
  apply store_Ok in Hs as [_ ->]. exact Ht2.
Qed.

Lemma Menu_UpdateTextFields_panel_rows (pMeasResults : list float) (n : nat) :
  forall (i : Z) (ts ts' : list (list ascii)),
  0 <= i -> tables_ok ts ->
  Menu_UpdateTextFields_panel n i pMeasResults ts = Ok ts' ->
  (forall k : nat, (k < Z.to_nat i)%nat -> ts' !! k = ts !! k)
  /\ (forall (k : Z) (v : float),
        i <= k < i + Z.of_nat n -> pMeasResults !! Z.to_nat k = Some v ->
        displayable (hundredths v) ->
        ts' !! Z.to_nat k = Some (float_text (hundredths v) ++ [unit_letter k; NUL])).
Proof.
  induction n as [| n IH]; intros i ts ts' Hi Hts Hrun;
    cbn [Menu_UpdateTextFields_panel] in Hrun.
  - injection Hrun as <-. split; [reflexivity | intros k v Hk; lia].
  - apply bind_Ok in Hrun as (v0 & Hv0 & Hrun).
    apply bind_Ok in Hrun as (ts1 & H1 & Hrun).
    apply bind_Ok in Hrun as (ts2 & H2 & Hrun).
    assert (Hts2 : tables_ok ts2).
    { apply (with_table_keeps _ _ _ _ (keeps_row_store 6 _ ltac:(lia))
               (with_table_keeps _ _ _ _ (keeps_row_float v0) Hts H1) H2). }
    destruct (IH (i + 1) ts2 ts' ltac:(lia) Hts2 Hrun) as (Hlow & Hhigh).
    split.
    + intros k Hk. rewrite Hlow by lia.
      rewrite (with_table_other _ _ _ _ k H2) by lia.
      apply (with_table_other _ _ _ _ k H1). lia.
    + intros k v Hk Hv Hd.
      destruct (decide (k = i)) as [-> | Hne]; [| apply Hhigh; [lia | exact Hv | exact Hd]].
      rewrite Hlow by lia.
      apply load_Ok in Hv0 as [_ Hv0]. rewrite Hv in Hv0. injection Hv0 as <-.
      rewrite (measurement_written ts ts1 ts2 i v _ Hts Hd H1 H2).
      unfold unit_letter. rewrite Zmod_even. destruct (Z.even i); reflexivity.
Qed.

Lemma Menu_UpdateTextFields_switch_rows (pMenu : T_MenuSystem)
    (pMeasResults : list float) (pCalibInfo : T_CalibrationInfo)
    (ts' : list (list ascii)) :
  tables_ok (updatableCharTables pMenu) ->
  Menu_UpdateTextFields_switch pMenu pMeasResults pCalibInfo = Ok ts' ->
  forall (row channel : Z) (v : float),
  measurement_row (menuState pMenu) row channel ->
  pMeasResults !! Z.to_nat channel = Some v -> displayable (hundredths v) ->
  ts' !! Z.to_nat row = Some (float_text (hundredths v) ++ [unit_letter channel; NUL]).
Proof.
  intros Hts Hrun row channel v Hrow Hv Hd.
  unfold Menu_UpdateTextFields_switch in Hrun.
  destruct (menuState pMenu); simpl in Hrow; try contradiction.
  - destruct Hrow as [Hr ->].
    destruct (Menu_UpdateTextFields_panel_rows pMeasResults 8 0 _ _ ltac:(lia) Hts Hrun)
      as (_ & Hhigh).
    apply Hhigh; [simpl; lia | exact Hv | exact Hd].
  - destruct Hrow as [Hr ->].
    apply bind_Ok in Hrun as (v8 & Hv8 & Hrun).
    apply bind_Ok in Hrun as (t1 & H1 & Hrun).
    apply bind_Ok in Hrun as (v9 & Hv9 & Hrun).
    apply bind_Ok in Hrun as (t2 & H2 & Hrun).
    apply bind_Ok in Hrun as (t3 & H3 & Hrun).
    apply load_Ok in Hv8 as [_ Hv8]. apply load_Ok in Hv9 as [_ Hv9].
    pose proof (with_table_keeps _ _ _ _ (keeps_row_float v8) Hts H1) as Hok1.
    pose proof (with_table_keeps _ _ _ _ (keeps_row_float v9) Hok1 H2) as Hok2.
    pose proof (with_table_keeps _ _ _ _ (keeps_row_store 6 _ ltac:(lia)) Hok2 H3) as Hok3.
    assert (Hc : row = 0 \/ row = 1) by lia. destruct Hc as [-> | ->].
    + (* the voltage: written to table 0, then table 1 is touched *)
      change (Z.to_nat (8 + 0)) with (Z.to_nat BATTERY_VOLTAGE) in Hv.
      rewrite Hv in Hv8. injection Hv8 as <-.
      rewrite (with_table_other _ _ _ _ _ Hrun) by (vm_compute; lia).
      apply with_table_same in H1 as (t & t' & Ht & Hf & Ht').
      pose proof (tables_ok_lookup _ _ t Hts Ht) as Hrw.
      unfold Menu_FloatToCharArray in Hf.
      rewrite Menu_FloatToCharArray_uint_exact in Hf by (first [apply Hrw | apply Hd]).
      injection Hf as <-. destruct (row_ok_drop t Hrw) as (c & Ec). rewrite Ec in Ht'.
      apply with_table_same in H3 as (t0 & t0' & Ht0 & Hs & Ht0').
      rewrite (with_table_other _ _ _ _ _ H2) in Ht0 by (vm_compute; lia).
      rewrite Ht' in Ht0. injection Ht0 as <-.
      apply store_Ok in Hs as [_ ->]. exact Ht0'.
    + (* the current: table 1 *)
      change (Z.to_nat (8 + 1)) with (Z.to_nat BATTERY_CURRENT) in Hv.
      rewrite Hv in Hv9. injection Hv9 as <-.
      apply with_table_same in H2 as (t & t' & Ht & Hf & Ht').
      pose proof (tables_ok_lookup _ _ t Hok1 Ht) as Hrw.
      unfold Menu_FloatToCharArray in Hf.
      rewrite Menu_FloatToCharArray_uint_exact in Hf by (first [apply Hrw | apply Hd]).
      injection Hf as <-. destruct (row_ok_drop t Hrw) as (c & Ec). rewrite Ec in Ht'.
      apply with_table_same in Hrun as (t0 & t0' & Ht0 & Hs & Ht0').
      rewrite (with_table_other _ _ _ _ _ H3) in Ht0 by (vm_compute; lia).
      rewrite Ht' in Ht0. injection Ht0 as <-.
      apply store_Ok in Hs as [_ ->]. exact Ht0'.
Qed.

(** C8.  A call of [Menu_UpdateView] on a well-formed menu system, with
    inputs [main] can pass, returns; the view, the selection and the task
    are those of the transition table, and every char table that shows a
    measurement [v] below 100 in that view (the eight tables of the panel
    view, the first two of the battery view) then holds the six
    characters of [n = hundredths v]: the two decimals at positions 4 and
    5, the comma at position 3, the digits of [n / 100] ending at
    position 2 (a single 0 there when [n / 100 = 0]), spaces before them,
    and the unit at position 6: V for an even channel, A for an odd
    one. *)
Theorem measurement_text (pMenu : T_MenuSystem) (buttonState : E_ButtonClicks)
    (pMeasResults : list float) (pCalibInfo : T_CalibrationInfo) :
  menu_pre pMenu -> inputs_ok pMeasResults pCalibInfo -> points_ok ->
  (menuState pMenu = NO_MENU -> buttonState <> LONG_CLICK) ->
  exists pMenu' task,
    Menu_UpdateView pMenu buttonState pMeasResults pCalibInfo = Ok (pMenu', task)
    /\ shown (pMenu', task)
       = table_update (menuState pMenu) (currentSelection pMenu) buttonState
    /\ forall (row channel : Z) (v : float),
         measurement_row (menuState pMenu') row channel ->
         pMeasResults !! Z.to_nat channel = Some v ->
         0 <= hundredths v < 10000 ->
         updatableCharTables pMenu' !! Z.to_nat row
         = Some (fixed_text (hundredths v) ++ [unit_letter channel; NUL]).
Proof.
  intros Hpre Hin Hpoints Hno.
  destruct (Menu_UpdateView_total pMenu buttonState pMeasResults pCalibInfo
              Hpre Hin Hpoints Hno) as (p' & task & Hrun).
  exists p', task. split; [exact Hrun |].
  split; [exact (proj2 (proj2 (Menu_UpdateView_inv _ _ _ _ _ _ Hpre Hrun))) |].
  intros row channel v Hrow Hv Hn.
  unfold Menu_UpdateView in Hrun.
  apply bind_Ok in Hrun as ([p1 task1] & H1 & Hrun).
  apply bind_Ok in Hrun as (p2 & H2 & Hrun). simpl in H2, Hrun.
  injection Hrun as -> ->.
  destruct (Menu_HandleButtonState_table pMenu buttonState Hpre Hno)
    as (p1' & task' & E & Hp1 & _).
  rewrite E in H1. injection H1 as -> ->.
  destruct (Menu_UpdateTextFields_steps _ _ _ _ Hp1 H2)
    as (p0 & ts2 & ts' & Hpre0 & Hs0 & _ & _ & Hts2 & _ & Hsame & H3 & ->).
  unfold set_updatableCharTables in Hrow |- *.
  cbn [updatableCharTables menuState] in Hrow |- *.
  rewrite <- float_text_fixed by exact Hn.
  apply (Menu_UpdateTextFields_switch_rows (set_updatableCharTables p0 ts2)
           pMeasResults pCalibInfo ts' Hts2 H3 row channel v Hrow Hv).
  split; [lia |]. Z.div_mod_to_equations; lia.
Qed.

(** C10.  For a value whose integer part is below 1000,
    [Menu_FloatToCharArray] returns, having written the indices 0 to 5 of
    the eight bytes and left 6 and 7 as they were; so a unit letter at
    index 6 is still there after any number of refreshes of the table. *)
Theorem float_text_frame (charArray : list ascii) (v : float) (values : list float) :
  length charArray = 8%nat ->
  0 <= hundredths v -> hundredths v / 100 < 1000 ->
  Forall (fun w => 0 <= hundredths w /\ hundredths w / 100 < 1000) values ->
  (exists charArray',
     Menu_FloatToCharArray charArray v = Ok charArray'
     /\ length charArray' = 8%nat
     /\ take 6 charArray' = float_text (hundredths v)
     /\ charArray' !! 6%nat = charArray !! 6%nat
     /\ charArray' !! 7%nat = charArray !! 7%nat)
  /\ (exists charArray',
       Menu_FloatToCharArray_each charArray values = Ok charArray'
       /\ length charArray' = 8%nat
       /\ charArray' !! 6%nat = charArray !! 6%nat
       /\ charArray' !! 7%nat = charArray !! 7%nat).
Proof.
  intros Hl Hv0 Hv1 Hvalues. split.
  - unfold Menu_FloatToCharArray.
    rewrite Menu_FloatToCharArray_uint_exact by assumption.
    eexists. split; [reflexivity |].
    do 9 (destruct charArray as [| ? charArray]; try discriminate Hl).
    repeat split.
  - clear v Hv0 Hv1. revert charArray Hl.
    induction Hvalues as [| w values [Hw0 Hw1] _ IH]; intros charArray Hl; simpl.
    + exists charArray. auto.
    + unfold Menu_FloatToCharArray at 1.
      rewrite Menu_FloatToCharArray_uint_exact by assumption. cbn [bind].
      do 9 (destruct charArray as [| ? charArray]; try discriminate Hl).
      destruct (IH (float_text (hundredths w) ++ drop 6 [a; a0; a1; a2; a3; a4; a5; a6]))
        as (r & Hr & Hlr & H6 & H7); [reflexivity |].
      exists r. split; [exact Hr |]. split; [exact Hlr |]. split; assumption.
Qed.

End MeasurementText.

Lemma measurement_text_witness :
  exists pMenu' task,
    Menu_UpdateView (H := centi_floats) initial_menu NO_CLICK
      example_measurements example_calibration = Ok (pMenu', task)
    /\ shown (pMenu', task) = (PANEL_VIEW, 0, MENU_NO_ACTION)
    /\ updatableCharTables pMenu' !! 0%nat = Some (chars " 12,34V" ++ [NUL])
    /\ updatableCharTables pMenu' !! 1%nat = Some (chars "  0,05A" ++ [NUL])
    /\ updatableCharTables pMenu' !! 4%nat = Some (chars "  1,00V" ++ [NUL]).
Proof.
  destruct (measurement_text (H := centi_floats) initial_menu NO_CLICK
              example_measurements example_calibration)
    as (pMenu' & task & Hrun & Hshown & Htext).
  - exact initial_menu_pre.
  - exact example_inputs_ok.
  - exact example_points_ok.
  - discriminate.
  - exists pMenu', task. split; [exact Hrun |]. split; [exact Hshown |].
    assert (Hview : menuState pMenu' = PANEL_VIEW).
    { injection Hshown as Hview _ _. exact Hview. }
    rewrite Hview in Htext.
    split; [| split].
    + apply (Htext 0 0 1234); [simpl; lia | reflexivity | simpl; lia].
    + apply (Htext 1 1 5); [simpl; lia | reflexivity | simpl; lia].
    + apply (Htext 4 4 100); [simpl; lia | reflexivity | simpl; lia].
Defined.

Lemma float_text_frame_witness :
  (exists charArray',
     Menu_FloatToCharArray (H := centi_floats) (chars "      V" ++ [NUL]) 1234 = Ok charArray'
     /\ length charArray' = 8%nat
     /\ take 6 charArray' = float_text 1234
     /\ charArray' !! 6%nat = Some "V"%char
     /\ charArray' !! 7%nat = Some NUL)
  /\ (exists charArray',
       Menu_FloatToCharArray_each (H := centi_floats) (chars "      V" ++ [NUL])
         [5; 99999; 0] = Ok charArray'
       /\ length charArray' = 8%nat
       /\ charArray' !! 6%nat = Some "V"%char
       /\ charArray' !! 7%nat = Some NUL).
Proof.
  apply (float_text_frame (H := centi_floats) (chars "      V" ++ [NUL]) 1234 [5; 99999; 0]).
  - reflexivity.
  - simpl. lia.
  - vm_compute. reflexivity.
  - repeat constructor; vm_compute; congruence.
Defined.

(** ** The renderer: unsupported characters *)

Section Unsupported.

Context {int16 : IntModel}.

Lemma code_range (c : ascii) : 0 <= code c < 256.
Proof.
  unfold code. pose proof (N_ascii_bounded c) as Hb. lia.
Qed.

Lemma supported_code (c : ascii) :
  supported c =
  let z := code c in
  ((z >=? 65) && (z <=? 90)) || ((z >=? 47) && (z <=? 58)) || (97 =? z) || (111 =? z)
  || (62 =? z) || (60 =? z) || ((44 =? z) || (46 =? z)) || (32 =? z).
Proof.
  destruct c as [[] [] [] [] [] [] [] []]; vm_compute; reflexivity.
Qed.

Lemma LCD_char_unsupported (direction y y_end currentRow : Z) (c : ascii)
    (msgBuffer : list Z) (bufferPosition : Z) :
  supported c = false ->
  LCD_char direction y y_end currentRow (code c) msgBuffer bufferPosition
  = Ok (msgBuffer, bufferPosition).
Proof.
  rewrite supported_code. cbv zeta. intros Hs.
  repeat (apply orb_false_elim in Hs as [Hs ?]).
  unfold LCD_char.
  repeat match goal with
         | E : ?b = false |- context [if ?b then _ else _] => rewrite E
         end.
  reflexivity.
Qed.

Lemma LCD_text_unsupported (direction y y_end currentRow : Z) (c : ascii)
    (s1 s2 : list ascii) :
  supported c = false -> c <> NUL ->
  forall (msgBuffer : list Z) (bufferPosition : Z),
  LCD_text direction y y_end currentRow (s1 ++ c :: s2) msgBuffer bufferPosition
  = LCD_text direction y y_end currentRow (s1 ++ s2) msgBuffer bufferPosition.
Proof.
  intros Hs Hc. induction s1 as [| a s1 IH]; intros buf pos; simpl.
  - assert (Hz : (code c =? 0) = false).
    { apply Z.eqb_neq. intros E. apply Hc.
      destruct c as [[] [] [] [] [] [] [] []]; vm_compute in E; try discriminate E.
      reflexivity. }
    rewrite Hz, LCD_char_unsupported by exact Hs. reflexivity.
  - destruct (code a =? 0); [reflexivity |].
    destruct (LCD_char direction y y_end currentRow (code a) buf pos) as [[buf' pos'] | f];
      simpl; [apply IH | reflexivity].
Qed.

Lemma drawn_alike_refl (tables : list (list ascii)) (f : T_TextField) :
  drawn_alike tables tables f f.
Proof. repeat split. Qed.

Lemma Forall2_load {A B : Type} (R : A -> B -> Prop) (array : string)
    (l : list A) (l' : list B) (i : Z) :
  Forall2 R l l' ->
  match load array l i, load array l' i with
  | Ok a, Ok b => R a b
  | Fault f, Fault f' => f = f'
  | _, _ => False
  end.
Proof.
  intros HR. unfold load. destruct (0 <=? i); [| reflexivity].
  pose proof (Forall2_lookup_l R l l' (Z.to_nat i)) as Hl.
  destruct (l !! Z.to_nat i) as [a |] eqn:Ea.
  - destruct (Hl a HR eq_refl) as (b & -> & Hab). exact Hab.
  - destruct (l' !! Z.to_nat i) as [b |] eqn:Eb; [| reflexivity].
    destruct (Forall2_lookup_r R l l' (Z.to_nat i) b HR Eb) as (a & Ha & _).
    congruence.
Qed.

Lemma LCD_y_end_alike (tables tables' : list (list ascii))
    (fields fields' : list T_TextField) (n : nat) :
  Forall2 (drawn_alike tables tables') fields fields' ->
  forall (k : Z) (y_end : list Z),
  LCD_y_end n k fields y_end = LCD_y_end n k fields' y_end.
Proof.
  intros HR. induction n as [| n IH]; intros k y_end; simpl; [reflexivity |].
  pose proof (Forall2_load _ "pTextFields" fields fields' k HR) as Hl.
  destruct (load "pTextFields" fields k) as [f |]; destruct (load "pTextFields" fields' k) as [f' |];
    try contradiction; simpl.
  - destruct Hl as (_ & -> & _).
    destruct (store "y_end" y_end k (uint8 (tf_y f' + 8))); simpl; [apply IH | reflexivity].
  - congruence.
Qed.

Lemma bind_assoc {A B C : Type} (m : result A) (k : A -> result B) (k' : B -> result C) :
  (do b <- (do a <- m ; k a) ; k' b) = (do a <- m ; do b <- k a ; k' b).
Proof. destruct m; reflexivity. Qed.

Lemma LCD_fields_alike (tables tables' : list (list ascii))
    (fields fields' : list T_TextField) (y_end : list Z) (currentRow : Z) (n : nat) :
  Forall2 (drawn_alike tables tables') fields fields' ->
  forall (k : Z) (msgBuffer : list Z),
  LCD_fields n k tables fields y_end currentRow msgBuffer
  = LCD_fields n k tables' fields' y_end currentRow msgBuffer.
Proof.
  intros HR. induction n as [| n IH]; intros k buf; simpl; [reflexivity |].
  pose proof (Forall2_load _ "pTextFields" fields fields' k HR) as Hl.
  destruct (load "pTextFields" fields k) as [f |]; destruct (load "pTextFields" fields' k) as [f' |];
    try contradiction; simpl; [| congruence].
  destruct Hl as (Ex & Ey & Ht).
  destruct (load "y_end" y_end k) as [ye |]; simpl; [| reflexivity].
  rewrite <- Ey, <- Ex.
  destruct (negb (LCD_direction (tf_y f) ye currentRow =? 0)).
  - rewrite <- !bind_assoc. rewrite Ht.
    destruct (do charInText <- chars_at tables' (pText f');
              LCD_text (LCD_direction (tf_y f) ye currentRow) (tf_y f) ye currentRow
                charInText buf (tf_x f)) as [r |]; simpl; [apply IH | reflexivity].
  - simpl. apply IH.
Qed.

Lemma LCD_rows_alike (tables tables' : list (list ascii))
    (fields fields' : list T_TextField) (textFieldCount : Z) (y_end : list Z) (n : nat) :
  Forall2 (drawn_alike tables tables') fields fields' ->
  forall currentRow : Z,
  LCD_rows n currentRow tables fields textFieldCount y_end
  = LCD_rows n currentRow tables' fields' textFieldCount y_end.
Proof.
  intros HR. induction n as [| n IH]; intros row; simpl; [reflexivity |].
  unfold LCD_row. rewrite (LCD_fields_alike tables tables' fields fields' _ _ _ HR).
  rewrite IH. reflexivity.
Qed.

Lemma LCD_UpdateScreen_alike (tables tables' : list (list ascii))
    (fields fields' : list T_TextField) (textFieldCount : Z) :
  Forall2 (drawn_alike tables tables') fields fields' ->
  LCD_UpdateScreen tables fields textFieldCount
  = LCD_UpdateScreen tables' fields' textFieldCount.
Proof.
  intros HR. unfold LCD_UpdateScreen.
  rewrite (LCD_y_end_alike tables tables' fields fields' _ HR).
  destruct (LCD_y_end (Z.to_nat textFieldCount) 0 fields' (replicate 15 0)) as [y_end |];
    simpl; [| reflexivity].
  apply (LCD_rows_alike tables tables' fields fields' textFieldCount y_end 8 HR).
Qed.

(** C7.  A text with a character the renderer does not know is drawn as
    the text without it: whatever the other fields, the pages of
    [LCD_UpdateScreen] are the same bytes, as nothing is drawn for the
    character and the write position stays. *)
Theorem unsupported_char_skipped (tables tables' : list (list ascii))
    (fs1 fs2 : list T_TextField) (f f' : T_TextField) (s1 s2 : list ascii) (c : ascii)
    (textFieldCount : Z) :
  supported c = false -> c <> NUL ->
  tf_x f = tf_x f' -> tf_y f = tf_y f' ->
  chars_at tables (pText f) = Ok (s1 ++ c :: s2) ->
  chars_at tables' (pText f') = Ok (s1 ++ s2) ->
  Forall (fun g => chars_at tables (pText g) = chars_at tables' (pText g)) (fs1 ++ fs2) ->
  LCD_UpdateScreen tables (fs1 ++ f :: fs2) textFieldCount
  = LCD_UpdateScreen tables' (fs1 ++ f' :: fs2) textFieldCount.
Proof.
  intros Hs Hc Ex Ey Ht Ht' Hothers. apply LCD_UpdateScreen_alike.
  apply Forall_app in Hothers as [H1 H2].
  assert (Hsame : forall fs,
    Forall (fun g => chars_at tables (pText g) = chars_at tables' (pText g)) fs ->
    Forall2 (drawn_alike tables tables') fs fs).
  { intros fs Hfs. induction Hfs as [| g fs Hg _ IH]; constructor; [| exact IH].
    repeat split. intros. rewrite Hg. reflexivity. }
  apply Forall2_app; [exact (Hsame fs1 H1) |].
  constructor; [| exact (Hsame fs2 H2)].
  split; [exact Ex |]. split; [exact Ey |].
  intros. rewrite Ht, Ht'. simpl. apply LCD_text_unsupported; assumption.
Qed.

End Unsupported.

Lemma unsupported_char_skipped_witness :
  LCD_UpdateScreen (int16 := shift_out) []
    [field "AKKU" 53 2; field "1#2" 20 15; field "OK" 84 41] 3
  = LCD_UpdateScreen (int16 := shift_out) []
      [field "AKKU" 53 2; field "12" 20 15; field "OK" 84 41] 3.
Proof.
  apply (unsupported_char_skipped (int16 := shift_out) [] [] [field "AKKU" 53 2] [field "OK" 84 41]
           (field "1#2" 20 15) (field "12" 20 15)
           (chars "1") (chars "2" ++ [NUL]) "#"%char 3).
  - reflexivity.
  - discriminate.
  - reflexivity.
  - reflexivity.
  - reflexivity.
  - reflexivity.
  - repeat constructor.
Defined.

(** ** The renderer: a glyph across two pages *)

Section Glyph.

Context {int16 : IntModel}.

Lemma LCD_or_lookup (msgBuffer : list Z) (i bits old : Z) :
  0 <= i -> msgBuffer !! Z.to_nat i = Some old ->
  LCD_or msgBuffer i bits = Ok (<[Z.to_nat i := Z.lor old bits mod 256]> msgBuffer).
Proof.
  intros Hi Hold. unfold LCD_or.
  assert (E : load "msgBuffer" msgBuffer i = Ok old) by (apply load_Ok; auto).
  rewrite E. cbn [bind]. apply store_in_range.
  apply lookup_lt_Some in Hold. lia.
Qed.

(** The five column bytes of a glyph, or-ed into the buffer. *)
Lemma LCD_glyph_lookup (direction y y_end currentRow pos x : Z) (n : nat) :
  forall (col : Z) (msgBuffer : list Z),
  0 <= col -> 0 <= pos -> pos + col + Z.of_nat n <= 210 ->
  0 <= x -> x + col + Z.of_nat n <= Z.of_nat (length msgBuffer) ->
  exists msgBuffer',
    LCD_glyph n col direction y y_end currentRow pos x msgBuffer = Ok msgBuffer'
    /\ length msgBuffer' = length msgBuffer
    /\ (forall i : Z, 0 <= i -> ~ (x + col <= i < x + col + Z.of_nat n) ->
        msgBuffer' !! Z.to_nat i = msgBuffer !! Z.to_nat i)
    /\ (forall c g old : Z, col <= c < col + Z.of_nat n ->
        FONT_8P !! Z.to_nat (pos + c) = Some g ->
        msgBuffer !! Z.to_nat (x + c) = Some old ->
        msgBuffer' !! Z.to_nat (x + c)
        = Some (Z.lor old (LCD_shift direction y y_end currentRow g) mod 256)).
Proof.
  induction n as [| n IH]; intros col buf Hcol Hpos Hfont Hx Hbuf; cbn [LCD_glyph].
  - exists buf. split; [reflexivity |]. split; [reflexivity |].
    split; [reflexivity | intros c g old Hc; lia].
  - destruct (lookup_lt_is_Some_2 FONT_8P (Z.to_nat (pos + col))) as (g0 & Hg0).
    { change (length FONT_8P) with 210%nat. lia. }
    destruct (lookup_lt_is_Some_2 buf (Z.to_nat (x + col))) as (old0 & Hold0); [lia |].
    assert (E : load "FONT_8P" FONT_8P (pos + col) = Ok g0) by (apply load_Ok; split; [lia | exact Hg0]).
    rewrite E. cbn [bind].
    rewrite (LCD_or_lookup buf (x + col) _ old0) by (first [lia | exact Hold0]).
    cbn [bind].
    set (buf1 := <[Z.to_nat (x + col) :=
                   Z.lor old0 (LCD_shift direction y y_end currentRow g0) mod 256]> buf).
    destruct (IH (col + 1) buf1) as (buf' & Hrun & Hlen & Hout & Hin);
      try lia; [unfold buf1; rewrite length_insert; lia |].
    exists buf'. split; [exact Hrun |]. split.
    { rewrite Hlen. unfold buf1. apply length_insert. }
    split.
    + intros i Hi Hni. rewrite Hout by lia.
      unfold buf1. apply list_lookup_insert_ne. lia.
    + intros c g old Hc Hg Hold.
      destruct (decide (c = col)) as [-> | Hne].
      * rewrite Hout by lia. rewrite Hg in Hg0. rewrite Hold in Hold0.
        injection Hg0 as <-. injection Hold0 as <-.
        unfold buf1. apply list_lookup_insert_eq. apply lookup_lt_Some in Hold. exact Hold.
      * apply Hin; [lia | exact Hg |].
        unfold buf1. rewrite list_lookup_insert_ne by lia. exact Hold.
Qed.

Lemma glyph_position_range (c : ascii) (pos : Z) :
  glyph_position c = Some pos -> 0 <= pos /\ pos + 5 <= 210 /\ code c <> 0.
Proof.
  unfold glyph_position. cbv zeta. intros Hpos.
  destruct ((code c >=? 65) && (code c <=? 90)) eqn:E1.
  { apply andb_true_iff in E1 as [Ea Eb]. apply Z.geb_le in Ea. apply Z.leb_le in Eb.
    injection Hpos as <-. lia. }
  destruct ((code c >=? 47) && (code c <=? 58)) eqn:E2.
  { apply andb_true_iff in E2 as [Ea Eb]. apply Z.geb_le in Ea. apply Z.leb_le in Eb.
    injection Hpos as <-. lia. }
  destruct (Z.eqb_spec 97 (code c)); [injection Hpos as <-; lia |].
  destruct (Z.eqb_spec 111 (code c)); [injection Hpos as <-; lia |].
  destruct (Z.eqb_spec 62 (code c)); [injection Hpos as <-; lia |].
  destruct (Z.eqb_spec 60 (code c)); [injection Hpos as <-; lia |].
  discriminate.
Qed.

(** A character with a glyph: the glyph is drawn and the position moves
    on by six columns. *)
Lemma LCD_char_glyph (direction y y_end currentRow : Z) (c : ascii) (pos : Z)
    (msgBuffer : list Z) (bufferPosition : Z) :
  glyph_position c = Some pos ->
  LCD_char direction y y_end currentRow (code c) msgBuffer bufferPosition
  = (do msgBuffer' <- LCD_glyph 5 0 direction y y_end currentRow pos bufferPosition
                        msgBuffer ;
     Ok (msgBuffer', uint8 (bufferPosition + 6))).
Proof.
  intros Hpos. pose proof (glyph_position_range c pos Hpos) as (Hp0 & Hp1 & _).
  unfold glyph_position in Hpos. cbv zeta in Hpos. unfold LCD_char.
  assert (Hne : (pos =? 255) = false) by (apply Z.eqb_neq; lia).
  destruct ((code c >=? 65) && (code c <=? 90)).
  { injection Hpos as Hpos. rewrite Hpos, uint8_small by lia. cbn [bind].
    rewrite Hne. reflexivity. }
  destruct ((code c >=? 47) && (code c <=? 58)).
  { injection Hpos as Hpos. rewrite Hpos, uint8_small by lia. cbn [bind].
    rewrite Hne. reflexivity. }
  destruct (97 =? code c); [injection Hpos as <-; reflexivity |].
  destruct (111 =? code c); [injection Hpos as <-; reflexivity |].
  destruct (62 =? code c); [injection Hpos as <-; reflexivity |].
  destruct (60 =? code c); [injection Hpos as <-; reflexivity |].
  discriminate.
Qed.

(** What a page gets of a column byte: the byte moved up in the page the
    field starts in, moved down in the next one, nothing elsewhere. *)
Lemma contribution_top (y g : Z) :
  0 <= y <= 247 -> contribution y (y / 8) g = Z.shiftl g (y mod 8) mod 256.
Proof.
  intros Hy. unfold contribution, LCD_direction, LCD_shift. cbv zeta.
  assert (H1 : (y >=? y / 8 * 8) = true) by (apply Z.geb_le; Z.div_mod_to_equations; lia).
  assert (H2 : (y <=? (y / 8 + 1) * 8 - 1) = true)
    by (apply Z.leb_le; Z.div_mod_to_equations; lia).
  rewrite H1, H2. simpl. f_equal. f_equal. Z.div_mod_to_equations; lia.
Qed.

Lemma shiftr_byte (g n : Z) : 0 <= g < 256 -> 0 <= n -> 0 <= Z.shiftr g n < 256.
Proof.
  intros Hg Hn. rewrite Z.shiftr_div_pow2 by exact Hn.
  assert (Hp : 0 < 2 ^ n) by (apply Z.pow_pos_nonneg; lia).
  split; [apply Z.div_pos; lia |].
  apply Z.div_lt_upper_bound; [exact Hp |]. nia.
Qed.

Lemma contribution_bottom (y g : Z) :
  0 <= y <= 247 -> 1 <= y mod 8 -> 0 <= g < 256 ->
  contribution y (y / 8 + 1) g = Z.shiftr g (8 - y mod 8).
Proof.
  intros Hy Hk Hg. unfold contribution, LCD_direction, LCD_shift. cbv zeta.
  rewrite uint8_small by lia.
  assert (H1 : (y >=? (y / 8 + 1) * 8) = false).
  { destruct (Z.geb_spec y ((y / 8 + 1) * 8)); [| reflexivity].
    exfalso. Z.div_mod_to_equations; lia. }
  assert (H2 : (y + 8 + 8 >=? (y / 8 + 1) * 8) = true)
    by (apply Z.geb_le; Z.div_mod_to_equations; lia).
  assert (H3 : (y + 8 <=? (y / 8 + 1 + 1) * 8 - 1) = true)
    by (apply Z.leb_le; Z.div_mod_to_equations; lia).
  rewrite H1, H2, H3. simpl.
  replace (8 - (y + 8 - (y / 8 + 1) * 8)) with (8 - y mod 8)
    by (Z.div_mod_to_equations; lia).
  destruct (Z.ltb_spec (8 - y mod 8) 16) as [_ | Hwide]; [| lia].
  apply Z.mod_small. apply shiftr_byte; [exact Hg |].
  pose proof (Z.mod_pos_bound y 8 ltac:(lia)). lia.
Qed.

Lemma contribution_elsewhere (y currentRow g : Z) :
  0 <= y <= 247 -> 1 <= y mod 8 -> 0 <= g < 256 -> 0 <= currentRow ->
  currentRow <> y / 8 -> currentRow <> y / 8 + 1 ->
  contribution y currentRow g = 0.
Proof.
  intros Hy Hk Hg Hq Hne0 Hne1. unfold contribution, LCD_direction, LCD_shift. cbv zeta.
  rewrite uint8_small by lia.
  destruct (Z.geb_spec y (currentRow * 8)); destruct (Z.leb_spec y ((currentRow + 1) * 8 - 1));
    simpl; try (exfalso; Z.div_mod_to_equations; lia);
    destruct (Z.geb_spec (y + 8 + 8) (currentRow * 8));
    destruct (Z.leb_spec (y + 8) ((currentRow + 1) * 8 - 1)); simpl; try reflexivity.
  all: assert (Eq : currentRow = y / 8 + 2) by (Z.div_mod_to_equations; lia).
  all: destruct (Z.ltb_spec (8 - (y + 8 - currentRow * 8)) 16) as [_ | Hwide];
    [| exfalso; Z.div_mod_to_equations; lia].
  all: rewrite Z.shiftr_div_pow2 by lia.
  all: rewrite (Z.div_small g); [reflexivity |].
  all: split; [lia |].
  all: assert (Hp : 2 ^ 9 <= 2 ^ (8 - (y + 8 - currentRow * 8)))
         by (apply Z.pow_le_mono_r; Z.div_mod_to_equations; lia).
  all: change (2 ^ 9) with 512 in Hp; lia.
Qed.

Lemma recombined_all :
  forallb (fun g => forallb (fun k => recombined (Z.of_nat g) (Z.of_nat k) =? Z.of_nat g)
                      (seq 1 7)) (seq 0 256) = true.
Proof. vm_compute. reflexivity. Qed.

Lemma recombined_byte (g k : Z) : 0 <= g < 256 -> 1 <= k <= 7 -> recombined g k = g.
Proof.
  intros Hg Hk. pose proof recombined_all as Hall.
  rewrite forallb_forall in Hall. specialize (Hall (Z.to_nat g)).
  rewrite forallb_forall in Hall.
  specialize (Hall ltac:(apply in_seq; lia) (Z.to_nat k) ltac:(apply in_seq; lia)).
  rewrite !Z2Nat.id in Hall by lia. apply Z.eqb_eq. exact Hall.
Qed.

Lemma FONT_8P_bytes (g : Z) : g ∈ FONT_8P -> 0 <= g < 256.
Proof.
  intros Hg. apply list_elem_of_In in Hg.
  assert (Hall : forallb (fun g => (0 <=? g) && (g <? 256)) FONT_8P = true)
    by (vm_compute; reflexivity).
  rewrite forallb_forall in Hall. specialize (Hall g Hg).
  apply andb_true_iff in Hall as [H0 H1]. lia.
Qed.

(** One page of a field with a single glyph: the glyph's five columns
    hold what the field gives the page, the other columns are zero. *)
Lemma LCD_row_glyph (tables : list (list ascii)) (ptr : char_ptr) (x y : Z)
    (c : ascii) (pos : Z) (rest : list ascii) (currentRow : Z) :
  chars_at tables ptr = Ok (c :: NUL :: rest) -> glyph_position c = Some pos ->
  0 <= x -> x + 5 <= 128 ->
  exists page,
    LCD_row tables [mkTextField ptr x y] 1
      (<[0%nat := uint8 (y + 8)]> (replicate 15 0)) currentRow = Ok page
    /\ length page = 128%nat
    /\ (forall col g : Z, 0 <= col < 5 -> FONT_8P !! Z.to_nat (pos + col) = Some g ->
        page !! Z.to_nat (x + col) = Some (contribution y currentRow g))
    /\ (forall i : Z, 0 <= i < 128 -> ~ (x <= i < x + 5) -> page !! Z.to_nat i = Some 0).
Proof.
  intros Htext Hpos Hx0 Hx1.
  pose proof (glyph_position_range c pos Hpos) as (Hp0 & Hp1 & Hc).
  unfold LCD_row. change (Z.to_nat 1) with 1%nat. cbn [LCD_fields].
  change (load "pTextFields" [mkTextField ptr x y] 0) with (Ok (mkTextField ptr x y)).
  cbn [bind tf_x tf_y pText].
  change (load "y_end" (<[0%nat := uint8 (y + 8)]> (replicate 15 0)) 0)
    with (Ok (uint8 (y + 8))).
  cbn [bind]. unfold contribution. cbv zeta.
  set (d := LCD_direction y (uint8 (y + 8)) currentRow).
  assert (Hzero : forall i : Z, 0 <= i < 128 -> replicate 128 0 !! Z.to_nat i = Some 0).
  { intros i Hi. apply lookup_replicate_2. lia. }
  destruct (d =? 0) eqn:Ed; cbn [negb bind].
  - exists (replicate 128 0). split; [reflexivity |].
    split; [apply length_replicate |]. split.
    + intros col g Hcol _. apply Hzero. lia.
    + intros i Hi _. apply Hzero. exact Hi.
  - rewrite Htext. cbn [bind LCD_text].
    assert (Hcz : (code c =? 0) = false) by (apply Z.eqb_neq; exact Hc).
    rewrite Hcz, (LCD_char_glyph _ _ _ _ c pos) by exact Hpos.
    destruct (LCD_glyph_lookup d y (uint8 (y + 8)) currentRow pos x 5 0 (replicate 128 0))
      as (page & -> & Hlen & Hout & Hin);
      try lia; [rewrite length_replicate; lia |].
    cbn [bind fst snd]. change (code NUL =? 0) with true. cbn [bind fst].
    exists page. split; [reflexivity |].
    split; [rewrite Hlen; apply length_replicate |]. split.
    + intros col g Hcol Hg.
      rewrite (Hin col g 0) by (first [lia | exact Hg | apply Hzero; lia]).
      rewrite Z.lor_0_l. reflexivity.
    + intros i Hi Hni. rewrite Hout by lia. apply Hzero. exact Hi.
Qed.

Lemma LCD_rows_glyph (tables : list (list ascii)) (ptr : char_ptr) (x y : Z)
    (c : ascii) (pos : Z) (rest : list ascii) (n : nat) :
  chars_at tables ptr = Ok (c :: NUL :: rest) -> glyph_position c = Some pos ->
  0 <= x -> x + 5 <= 128 ->
  forall currentRow : Z,
  exists pages,
    LCD_rows n currentRow tables [mkTextField ptr x y] 1
      (<[0%nat := uint8 (y + 8)]> (replicate 15 0)) = Ok pages
    /\ length pages = n
    /\ forall (j : nat) (page : list Z), pages !! j = Some page ->
         length page = 128%nat
         /\ (forall col g : Z, 0 <= col < 5 -> FONT_8P !! Z.to_nat (pos + col) = Some g ->
             page !! Z.to_nat (x + col) = Some (contribution y (currentRow + Z.of_nat j) g))
         /\ (forall i : Z, 0 <= i < 128 -> ~ (x <= i < x + 5) ->
             page !! Z.to_nat i = Some 0).
Proof.
  intros Htext Hpos Hx0 Hx1. induction n as [| n IH]; intros row; cbn [LCD_rows].
  - exists []. split; [reflexivity |]. split; [reflexivity |]. intros j page Hj.
    rewrite lookup_nil in Hj. discriminate.
  - destruct (LCD_row_glyph tables ptr x y c pos rest row Htext Hpos Hx0 Hx1)
      as (page0 & -> & H0).
    cbn [bind]. destruct (IH (row + 1)) as (pages & -> & Hlen & Hpages).
    cbn [bind]. exists (page0 :: pages). split; [reflexivity |].
    split; [simpl; lia |]. intros j page Hj. destruct j as [| j]; simpl in Hj.
    + injection Hj as <-. rewrite Z.add_0_r. exact H0.
    + replace (row + Z.of_nat (S j)) with (row + 1 + Z.of_nat j) by lia.
      exact (Hpages j page Hj).
Qed.

(** C6.  A field with one glyph at a row [y] that is [k] pixels, 1 to 7,
    below the top of its page (so at [y = 5]): the renderer returns the
    eight pages; in the page of [y] the glyph's columns are the font's
    bytes shifted left by [k], in the next page the bytes shifted right by
    [8 - k], and shifting the two back and or-ing them gives the font's
    byte again; the other pages get no bit of the field.  The last holds of
    every column byte of every field. *)
Theorem glyph_across_pages (tables : list (list ascii)) (ptr : char_ptr) (x y : Z)
    (c : ascii) (pos : Z) (rest : list ascii) :
  chars_at tables ptr = Ok (c :: NUL :: rest) -> glyph_position c = Some pos ->
  0 <= x -> x + 5 <= 128 -> 0 <= y < 56 -> 1 <= y mod 8 <= 7 ->
  let k := y mod 8 in
  (exists pages top bottom,
     LCD_UpdateScreen tables [mkTextField ptr x y] 1 = Ok pages
     /\ length pages = 8%nat
     /\ pages !! Z.to_nat (y / 8) = Some top
     /\ pages !! Z.to_nat (y / 8 + 1) = Some bottom
     /\ (forall col g : Z, 0 <= col < 5 -> FONT_8P !! Z.to_nat (pos + col) = Some g ->
         exists t b,
           top !! Z.to_nat (x + col) = Some t /\ bottom !! Z.to_nat (x + col) = Some b
           /\ t = Z.shiftl g k mod 256 /\ b = Z.shiftr g (8 - k)
           /\ Z.lor (Z.shiftr t k) (Z.shiftl b (8 - k)) = g)
     /\ (forall (j : nat) (page : list Z), pages !! j = Some page ->
         j <> Z.to_nat (y / 8) -> j <> Z.to_nat (y / 8 + 1) ->
         page = replicate 128 0))
  /\ (forall currentRow g : Z, 0 <= g < 256 -> 0 <= currentRow ->
      currentRow <> y / 8 -> currentRow <> y / 8 + 1 -> contribution y currentRow g = 0).
Proof.
  intros Htext Hpos Hx0 Hx1 Hy Hk k. split.
  2: { intros q g Hg Hq Hne0 Hne1. apply contribution_elsewhere; (lia || assumption). }
  pose proof (glyph_position_range c pos Hpos) as (Hp0 & Hp1 & _).
  pose proof FONT_8P_bytes as Hfont.
  unfold LCD_UpdateScreen.
  change (LCD_y_end (Z.to_nat 1) 0 [mkTextField ptr x y] (replicate 15 0))
    with (Ok (<[0%nat := uint8 (y + 8)]> (replicate 15 0))).
  cbn [bind].
  destruct (LCD_rows_glyph tables ptr x y c pos rest 8 Htext Hpos Hx0 Hx1 0)
    as (pages & -> & Hlen & Hpages).
  assert (Hp : 0 <= y / 8 <= 6) by (Z.div_mod_to_equations; lia).
  destruct (lookup_lt_is_Some_2 pages (Z.to_nat (y / 8))) as (top & Htop); [lia |].
  destruct (lookup_lt_is_Some_2 pages (Z.to_nat (y / 8 + 1))) as (bottom & Hbottom); [lia |].
  exists pages, top, bottom. split; [reflexivity |]. split; [exact Hlen |].
  split; [exact Htop |]. split; [exact Hbottom |].
  destruct (Hpages _ top Htop) as (_ & Htopin & _).
  destruct (Hpages _ bottom Hbottom) as (_ & Hbotin & _).
  split.
  - intros col g Hcol Hg.
    assert (Hgr : 0 <= g < 256).
    { apply Hfont. apply list_elem_of_lookup. eauto. }
    exists (Z.shiftl g k mod 256), (Z.shiftr g (8 - k)).
    split.
    { rewrite (Htopin col g Hcol Hg). rewrite Z.add_0_l, Z2Nat.id by lia.
      rewrite contribution_top by lia. reflexivity. }
    split.
    { rewrite (Hbotin col g Hcol Hg). rewrite Z.add_0_l, Z2Nat.id by lia.
      rewrite contribution_bottom by lia. reflexivity. }
    split; [reflexivity |]. split; [reflexivity |].
    apply (recombined_byte g k Hgr). unfold k. lia.
  - intros j page Hj Hne0 Hne1.
    destruct (Hpages j page Hj) as (Hplen & Hin & Hout).
    apply list_eq. intros i.
    destruct (decide (i < 128)%nat) as [Hi | Hi].
    2: { rewrite lookup_ge_None_2 by lia.
         rewrite lookup_ge_None_2 by (rewrite length_replicate; lia). reflexivity. }
    rewrite lookup_replicate_2 by lia.
    destruct (decide (x <= Z.of_nat i < x + 5)) as [Hcol | Hcol].
    + destruct (lookup_lt_is_Some_2 FONT_8P (Z.to_nat (pos + (Z.of_nat i - x))))
        as (g & Hg); [change (length FONT_8P) with 210%nat; lia |].
      pose proof (Hin (Z.of_nat i - x) g ltac:(lia) Hg) as Hbyte.
      replace (Z.to_nat (x + (Z.of_nat i - x))) with i in Hbyte by lia.
      rewrite Hbyte. f_equal. apply contribution_elsewhere; try lia.
      apply Hfont. apply list_elem_of_lookup. eauto.
    + pose proof (Hout (Z.of_nat i) ltac:(lia) Hcol) as Hbyte.
      rewrite Nat2Z.id in Hbyte. exact Hbyte.
Qed.

End Glyph.

Lemma glyph_across_pages_witness :
  (exists pages top bottom,
     LCD_UpdateScreen (int16 := shift_out) [] [field "A" 0 5] 1 = Ok pages
     /\ length pages = 8%nat
     /\ pages !! 0%nat = Some top
     /\ pages !! 1%nat = Some bottom
     /\ (forall col g : Z, 0 <= col < 5 -> FONT_8P !! Z.to_nat (0 + col) = Some g ->
         exists t b,
           top !! Z.to_nat (0 + col) = Some t /\ bottom !! Z.to_nat (0 + col) = Some b
           /\ t = Z.shiftl g 5 mod 256 /\ b = Z.shiftr g (8 - 5)
           /\ Z.lor (Z.shiftr t 5) (Z.shiftl b (8 - 5)) = g)
     /\ (forall (j : nat) (page : list Z), pages !! j = Some page ->
         j <> 0%nat -> j <> 1%nat -> page = replicate 128 0))
  /\ (forall currentRow g : Z, 0 <= g < 256 -> 0 <= currentRow ->
      currentRow <> 0 -> currentRow <> 1 ->
      contribution (int16 := shift_out) 5 currentRow g = 0).
Proof.
  apply (glyph_across_pages (int16 := shift_out) [] (Literal "A") 0 5 "A"%char 0 []).
  - reflexivity.
  - reflexivity.
  - lia.
  - lia.
  - lia.
  - vm_compute. split; discriminate.
Defined.

(** ** The renderer: writes within the page buffer *)

Section Within.

Context {int16 : IntModel}.

Lemma LCD_char_no_glyph (direction y y_end currentRow : Z) (c : ascii)
    (msgBuffer : list Z) (bufferPosition : Z) :
  glyph_position c = None ->
  LCD_char direction y y_end currentRow (code c) msgBuffer bufferPosition
  = if (44 =? code c) || (46 =? code c) then
      do msgBuffer' <- LCD_or msgBuffer bufferPosition
                         (LCD_shift direction y y_end currentRow 0xC0) ;
      Ok (msgBuffer', uint8 (bufferPosition + 2))
    else if 32 =? code c then Ok (msgBuffer, uint8 (bufferPosition + (CHARWIDTH + 1)))
    else Ok (msgBuffer, bufferPosition).
Proof.
  unfold glyph_position, LCD_char. cbv zeta.
  destruct ((code c >=? 65) && (code c <=? 90)); [discriminate |].
  destruct ((code c >=? 47) && (code c <=? 58)); [discriminate |].
  destruct (97 =? code c); [discriminate |].
  destruct (111 =? code c); [discriminate |].
  destruct (62 =? code c); [discriminate |].
  destruct (60 =? code c); [discriminate |].
  intros _.
  destruct ((44 =? code c) || (46 =? code c)).
  - destruct (LCD_or msgBuffer bufferPosition (LCD_shift direction y y_end currentRow 192));
      reflexivity.
  - destruct (32 =? code c); reflexivity.
Qed.

(** A character drawn with its cell inside the buffer. *)
Lemma LCD_char_within (direction y y_end currentRow : Z) (c : ascii)
    (msgBuffer : list Z) (bufferPosition : Z) :
  length msgBuffer = 128%nat -> 0 <= bufferPosition -> bufferPosition + 5 <= 128 ->
  exists msgBuffer' bufferPosition',
    LCD_char direction y y_end currentRow (code c) msgBuffer bufferPosition
      = Ok (msgBuffer', bufferPosition')
    /\ length msgBuffer' = 128%nat
    /\ bufferPosition <= bufferPosition' <= bufferPosition + 6.
Proof.
  intros Hlen Hp0 Hp1. destruct (glyph_position c) as [pos |] eqn:Epos.
  - rewrite (LCD_char_glyph _ _ _ _ c pos) by exact Epos.
    pose proof (glyph_position_range c pos Epos) as (Hg0 & Hg1 & _).
    destruct (LCD_glyph_lookup direction y y_end currentRow pos bufferPosition 5 0 msgBuffer)
      as (buf' & -> & Hlen' & _); try lia.
    cbn [bind]. eexists _, _. split; [reflexivity |]. split; [congruence |].
    rewrite uint8_small by lia. lia.
  - rewrite LCD_char_no_glyph by exact Epos.
    destruct ((44 =? code c) || (46 =? code c)).
    + destruct (lookup_lt_is_Some_2 msgBuffer (Z.to_nat bufferPosition)) as (old & Hold);
        [lia |].
      rewrite (LCD_or_lookup msgBuffer bufferPosition _ old) by (first [lia | exact Hold]).
      cbn [bind]. eexists _, _. split; [reflexivity |].
      split; [rewrite length_insert; exact Hlen |].
      rewrite uint8_small by lia. lia.
    + destruct (32 =? code c).
      * eexists _, _. split; [reflexivity |]. split; [exact Hlen |].
        unfold CHARWIDTH. rewrite uint8_small by lia. lia.
      * eexists _, _. split; [reflexivity |]. split; [exact Hlen |]. lia.
Qed.

(** Spaces up to the end of the text: nothing is written. *)
Lemma LCD_text_blank (direction y y_end currentRow : Z) (charInText : list ascii) :
  terminated charInText = true -> drawn charInText = 0%nat ->
  forall (msgBuffer : list Z) (bufferPosition : Z),
  exists bufferPosition',
    LCD_text direction y y_end currentRow charInText msgBuffer bufferPosition
    = Ok (msgBuffer, bufferPosition').
Proof.
  induction charInText as [| c text IH]; intros Hterm Hdrawn buf pos;
    cbn [LCD_text terminated drawn] in *; [discriminate |].
  destruct (code c =? 0) eqn:Ez; [eauto |].
  simpl in Hterm.
  destruct (drawn text) eqn:Ed; [| discriminate].
  destruct (Z.eqb_spec (code c) 32) as [E32 | E32]; [| discriminate].
  rewrite E32.
  change (LCD_char direction y y_end currentRow 32 buf pos)
    with (Ok (buf, uint8 (pos + (CHARWIDTH + 1)))).
  cbn [bind fst snd]. apply IH; [exact Hterm | reflexivity].
Qed.

Lemma LCD_text_within (direction y y_end currentRow : Z) (charInText : list ascii) :
  forall (msgBuffer : list Z) (bufferPosition : Z),
  length msgBuffer = 128%nat -> fits bufferPosition charInText = true ->
  exists msgBuffer' bufferPosition',
    LCD_text direction y y_end currentRow charInText msgBuffer bufferPosition
      = Ok (msgBuffer', bufferPosition')
    /\ length msgBuffer' = 128%nat.
Proof.
  unfold fits.
  induction charInText as [| c text IH]; intros buf pos Hlen Hfits.
  - discriminate.
  - apply andb_true_iff in Hfits as [Hfits Hend].
    apply andb_true_iff in Hfits as [Hterm Hpos].
    apply Z.leb_le in Hend, Hpos.
    destruct (drawn (c :: text)) as [| n] eqn:Ed.
    + destruct (LCD_text_blank direction y y_end currentRow (c :: text) Hterm Ed buf pos)
        as (pos' & ->).
      eauto.
    + cbn [LCD_text terminated drawn] in *.
      destruct (code c =? 0) eqn:Ez; [discriminate |]. simpl in Hterm.
      assert (Hn : (drawn text <= n)%nat).
      { destruct (drawn text); [lia |]. injection Ed as <-. lia. }
      destruct (LCD_char_within direction y y_end currentRow c buf pos Hlen)
        as (buf' & pos' & -> & Hlen' & Hpos'); try lia.
      cbn [bind fst snd]. apply IH; [exact Hlen' |].
      rewrite Hterm. simpl.
      apply andb_true_iff. split; apply Z.leb_le; lia.
Qed.

Lemma LCD_y_end_within (pTextFields : list T_TextField) (n : nat) :
  forall (k : nat) (y_end : list Z),
  (k + n <= length pTextFields)%nat -> (k + n <= length y_end)%nat ->
  exists y_end',
    LCD_y_end n (Z.of_nat k) pTextFields y_end = Ok y_end'
    /\ length y_end' = length y_end.
Proof.
  induction n as [| n IH]; intros k y_end Hf Hy; cbn [LCD_y_end].
  - eauto.
  - destruct (lookup_lt_is_Some_2 pTextFields k) as (f & Hfk); [lia |].
    assert (E : load "pTextFields" pTextFields (Z.of_nat k) = Ok f).
    { apply load_Ok. rewrite Nat2Z.id. split; [lia | exact Hfk]. }
    rewrite E. cbn [bind]. rewrite store_in_range by lia. cbn [bind].
    replace (Z.of_nat k + 1) with (Z.of_nat (S k)) by lia.
    destruct (IH (S k) (<[Z.to_nat (Z.of_nat k) := uint8 (tf_y f + 8)]> y_end))
      as (y_end' & -> & Hlen); try (rewrite ?length_insert; lia).
    exists y_end'. split; [reflexivity |]. rewrite Hlen. apply length_insert.
Qed.

Lemma LCD_fields_within (tables : list (list ascii)) (pTextFields : list T_TextField)
    (y_end : list Z) (currentRow : Z) (n : nat) :
  forall (k : nat) (msgBuffer : list Z),
  length msgBuffer = 128%nat ->
  (k + n <= length pTextFields)%nat -> (k + n <= length y_end)%nat ->
  (forall (i : nat) (f : T_TextField), (k <= i < k + n)%nat ->
     pTextFields !! i = Some f -> field_fits tables f) ->
  exists msgBuffer',
    LCD_fields n (Z.of_nat k) tables pTextFields y_end currentRow msgBuffer
      = Ok msgBuffer'
    /\ length msgBuffer' = 128%nat.
Proof.
  induction n as [| n IH]; intros k buf Hlen Hf Hy Hfit; cbn [LCD_fields].
  - eauto.
  - destruct (lookup_lt_is_Some_2 pTextFields k) as (f & Hfk); [lia |].
    destruct (lookup_lt_is_Some_2 y_end k) as (ye & Hyk); [lia |].
    assert (E : load "pTextFields" pTextFields (Z.of_nat k) = Ok f).
    { apply load_Ok. rewrite Nat2Z.id. split; [lia | exact Hfk]. }
    assert (E' : load "y_end" y_end (Z.of_nat k) = Ok ye).
    { apply load_Ok. rewrite Nat2Z.id. split; [lia | exact Hyk]. }
    rewrite E. cbn [bind]. rewrite E'. cbn [bind].
    replace (Z.of_nat k + 1) with (Z.of_nat (S k)) by lia.
    assert (Hstep : exists buf',
      (if negb (LCD_direction (tf_y f) ye currentRow =? 0) then
         do charInText <- chars_at tables (pText f) ;
         do r <- LCD_text (LCD_direction (tf_y f) ye currentRow) (tf_y f) ye currentRow
                   charInText buf (tf_x f) ;
         Ok (fst r)
       else Ok buf) = Ok buf' /\ length buf' = 128%nat).
    { destruct (negb (LCD_direction (tf_y f) ye currentRow =? 0)); [| eauto].
      destruct (Hfit k f ltac:(lia) Hfk) as (text & -> & Htext). cbn [bind].
      destruct (LCD_text_within (LCD_direction (tf_y f) ye currentRow) (tf_y f) ye
                  currentRow text buf (tf_x f) Hlen Htext) as (buf' & pos' & -> & Hlen').
      cbn [bind fst]. eauto. }
    destruct Hstep as (buf' & -> & Hlen'). cbn [bind].
    apply IH; try assumption; try lia.
    intros i g Hi. apply Hfit. lia.
Qed.

Lemma LCD_rows_within (tables : list (list ascii)) (pTextFields : list T_TextField)
    (y_end : list Z) (count : nat) (n : nat) :
  (count <= length pTextFields)%nat -> (count <= length y_end)%nat ->
  (forall (i : nat) (f : T_TextField), (i < count)%nat ->
     pTextFields !! i = Some f -> field_fits tables f) ->
  forall currentRow : Z,
  exists pages,
    LCD_rows n currentRow tables pTextFields (Z.of_nat count) y_end = Ok pages
    /\ length pages = n /\ Forall (fun page => length page = 128%nat) pages.
Proof.
  intros Hf Hy Hfit. induction n as [| n IH]; intros row; cbn [LCD_rows].
  - exists []. auto.
  - unfold LCD_row. rewrite Nat2Z.id.
    assert (Hfit0 : forall (i : nat) (f : T_TextField), (0 <= i < 0 + count)%nat ->
              pTextFields !! i = Some f -> field_fits tables f).
    { intros i f Hi. apply Hfit. lia. }
    destruct (LCD_fields_within tables pTextFields y_end row count 0 (replicate 128 0)
                (length_replicate 128 0) Hf Hy Hfit0) as (page & E & Hlen).
    change (Z.of_nat 0) with 0 in E. rewrite E. cbn [bind].
    destruct (IH (row + 1)) as (pages & -> & Hn & Hall). cbn [bind].
    exists (page :: pages). split; [reflexivity |]. split; [simpl; lia |].
    constructor; assumption.
Qed.

Lemma LCD_UpdateScreen_within (tables : list (list ascii))
    (pTextFields : list T_TextField) (count : nat) :
  (count <= length pTextFields)%nat -> (count <= 15)%nat ->
  (forall (i : nat) (f : T_TextField), (i < count)%nat ->
     pTextFields !! i = Some f -> field_fits tables f) ->
  exists pages,
    LCD_UpdateScreen tables pTextFields (Z.of_nat count) = Ok pages
    /\ length pages = 8%nat /\ Forall (fun page => length page = 128%nat) pages.
Proof.
  intros Hf Hc Hfit. unfold LCD_UpdateScreen. rewrite Nat2Z.id.
  destruct (LCD_y_end_within pTextFields count 0 (replicate 15 0))
    as (y_end & E & Hlen); try (rewrite ?length_replicate; simpl; lia).
  change (Z.of_nat 0) with 0 in E. rewrite E. cbn [bind].
  rewrite length_replicate in Hlen.
  apply LCD_rows_within; try assumption. lia.
Qed.

Lemma drawn_before_NUL (charInText : list ascii) :
  forall i : nat, charInText !! i = Some NUL ->
  (drawn charInText <= i)%nat /\ terminated charInText = true.
Proof.
  induction charInText as [| c text IH]; intros i Hi; [discriminate |].
  cbn [drawn terminated]. destruct i as [| i].
  - injection Hi as ->. change (code NUL =? 0) with true. split; [lia | reflexivity].
  - destruct (IH i Hi) as (Hd & ->). rewrite orb_true_r. split; [| reflexivity].
    destruct (code c =? 0); [lia |].
    destruct (drawn text); [destruct (code c =? 32); lia | lia].
Qed.

(** A char table fits wherever seven cells do. *)
Lemma table_fits (tables : list (list ascii)) (j x y : Z) :
  tables_ok tables -> 0 <= j < 8 -> 0 <= x <= 87 ->
  field_fits tables (mkTextField (Table j) x y).
Proof.
  intros [Hlen Hrows] Hj Hx.
  destruct (lookup_lt_is_Some_2 tables (Z.to_nat j)) as (row & Hrow); [lia |].
  pose proof (proj1 (Forall_lookup _ _) Hrows _ _ Hrow) as [_ Hnul].
  destruct (drawn_before_NUL row 7 Hnul) as (Hd & Hterm).
  exists row. split.
  - apply load_Ok. split; [lia | exact Hrow].
  - unfold fits. cbn [tf_x]. rewrite Hterm. simpl.
    apply andb_true_iff. split; apply Z.leb_le; lia.
Qed.

Lemma calibration_row_1_fits (tables : list (list ascii)) (y : Z) :
  calibration_rows tables -> field_fits tables (mkTextField (Table 1) 90 y).
Proof.
  intros [(c & Hrow) _]. eexists. split.
  - apply load_Ok. split; [lia | exact Hrow].
  - unfold fits. cbn [tf_x].
    assert (Hd : (drawn (c :: chars "      " ++ [NUL]) <= 1)%nat).
    { change (drawn (c :: chars "      " ++ [NUL]))
        with (if code c =? 0 then 0%nat else if code c =? 32 then 0%nat else 1%nat).
      destruct (code c =? 0); [lia |]. destruct (code c =? 32); lia. }
    assert (Hterm : terminated (c :: chars "      " ++ [NUL]) = true).
    { change (terminated (c :: chars "      " ++ [NUL])) with ((code c =? 0) || true).
      apply orb_true_r. }
    rewrite Hterm. apply andb_true_iff. split; [reflexivity | apply Z.leb_le; lia].
Qed.

Lemma calibration_row_3_fits (tables : list (list ascii)) (y : Z) :
  calibration_rows tables -> field_fits tables (mkTextField (Table 3) 95 y).
Proof.
  intros [_ [Hrow | Hrow]]; eexists; (split; [apply load_Ok; split; [lia | exact Hrow] |]);
    vm_compute; reflexivity.
Qed.

Ltac field_fits_tac :=
  first
    [ eexists; split; [reflexivity | vm_compute; reflexivity]
    | apply table_fits; [assumption | lia | lia]
    | apply calibration_row_1_fits; assumption
    | apply calibration_row_3_fits; assumption ].

Ltac fields_fit_tac s :=
  let l := eval vm_compute in (fields_of s) in
  change (fields_of s) with l;
  repeat (apply List.Forall_cons; [field_fits_tac |]); apply List.Forall_nil.

(** The texts of every view end before the right edge of the display. *)
Lemma fields_fit (s : E_MenuStates) (tables : list (list ascii)) :
  tables_ok tables ->
  (calibration_view s = true -> calibration_rows tables) ->
  Forall (field_fits tables) (fields_of s).
Proof.
  intros Htables Hrows. destruct s.
  - fields_fit_tac PANEL_VIEW.
  - fields_fit_tac BATTERY_VIEW.
  - fields_fit_tac MENU_VIEW_1.
  - fields_fit_tac MENU_VIEW_2.
  - fields_fit_tac MENU_VIEW_3.
  - specialize (Hrows eq_refl). fields_fit_tac CALIBRATION_VIEW_1.
  - specialize (Hrows eq_refl). fields_fit_tac CALIBRATION_VIEW_2.
  - fields_fit_tac NO_MENU.
Qed.

Lemma textFieldCount_fields_of (s : E_MenuStates) :
  s <> NO_MENU ->
  load "views" MENU_VIEWS (state_value s) = Ok (view_of s)
  /\ textFieldCount (view_of s) = Z.of_nat (length (fields_of s)).
Proof. destruct s; intros Hs; [split; reflexivity .. | contradiction]. Qed.

End Within.

(** C5 as the specification has it fails: the columns of a glyph that
    ends right of the display are not clipped, the write goes past the
    page buffer.  Here one letter at column 126, index 128. *)
Lemma text_past_the_edge :
  LCD_UpdateScreen (int16 := shift_out) [] [field "A" 126 0] 1
  = Fault (OutOfBounds "msgBuffer" 128).
Proof. vm_compute. reflexivity. Qed.

Section Display.

Context `{FloatModel} {int16 : IntModel}.

(** C5, as the program has it: the renderer does not clip, and a field
    that ends right of the display is written past the page buffer; the
    views of the menu system have no such field.  For every state that
    [Menu_UpdateView] returns with, the call of [LCD_UpdateScreen] in
    [main] renders the eight pages of 128 bytes each, and no access is
    outside the page buffer. *)
Theorem views_within_page (pMenu : T_MenuSystem) :
  reachable pMenu -> menuState pMenu <> NO_MENU ->
  exists pages,
    main_LCD_UpdateScreen pMenu = Ok pages
    /\ length pages = 8%nat
    /\ Forall (fun page => length page = 128%nat) pages.
Proof.
  intros Hreach Hstate.
  destruct (reachable_inv pMenu Hreach) as [-> | [[Hpre Hrows] _]];
    [contradiction Hstate; reflexivity |].
  destruct Hpre as [Hviews Htables Hcur _ _ Hbound]. specialize (Hbound Hstate).
  destruct (textFieldCount_fields_of (menuState pMenu) Hstate) as (Hview & Hcount).
  unfold main_LCD_UpdateScreen. rewrite Hviews, Hview. cbn [bind]. rewrite Hcount.
  pose proof (length_fields_of (menuState pMenu)) as Hn.
  apply LCD_UpdateScreen_within; [lia | exact Hn |].
  intros i f Hi Hf.
  pose proof (fields_fit (menuState pMenu) (updatableCharTables pMenu) Htables Hrows)
    as Hfit.
  apply (proj1 (Forall_lookup _ _) Hfit i f).
  rewrite <- Hbound. rewrite lookup_take_lt by exact Hi. exact Hf.
Qed.

End Display.

Lemma views_within_page_witness :
  exists pages,
    main_LCD_UpdateScreen (int16 := shift_out) example_calibration_view_2 = Ok pages
    /\ length pages = 8%nat
    /\ Forall (fun page => length page = 128%nat) pages.
Proof.
  apply (views_within_page (H := centi_floats) (int16 := shift_out)
           example_calibration_view_2
           example_calibration_view_2_reachable).
  vm_compute. discriminate.
Defined.

(** * Further properties of the menu system *)

(** ** The bounds of the char tables *)

Lemma digits_overrun (a : list ascii) (v : Z) :
  length a = 8%nat -> 1000 <= v ->
  Menu_FloatToCharArray_digits 3 a v = Fault (OutOfBounds "charArray" (-1)).
Proof.
  intros Hl Hv.
  rewrite digits_step by lia. stored.
  rewrite digits_step by (Z.div_mod_to_equations; lia). stored.
  rewrite digits_step by (Z.div_mod_to_equations; lia). stored.
  cbn [Menu_FloatToCharArray_digits].
  destruct (Z.gtb_spec (v / 10 / 10 / 10) 0) as [_ | Hn]; [reflexivity |].
  exfalso. Z.div_mod_to_equations; lia.
Qed.

Section TableBounds.

Context `{FloatModel}.

(** X1.  [Menu_FloatToCharArray] on a table of eight bytes: a value with
    an integer part of at most three digits is written and the table
    keeps its length; with a fourth digit the loop over the digits
    leaves the table at its lower end, index -1. *)
Theorem Menu_FloatToCharArray_bounds (charArray : list ascii) (value : float) :
  length charArray = 8%nat -> 0 <= hundredths value ->
  (hundredths value / 100 < 1000 ->
   exists charArray',
     Menu_FloatToCharArray charArray value = Ok charArray'
     /\ length charArray' = 8%nat)
  /\ (1000 <= hundredths value / 100 ->
      Menu_FloatToCharArray charArray value = Fault (OutOfBounds "charArray" (-1))).
Proof.
  intros Hl H0. unfold Menu_FloatToCharArray. split.
  - intros H1. rewrite Menu_FloatToCharArray_uint_exact by assumption.
    eexists. split; [reflexivity |].
    rewrite length_app, length_drop, Hl. reflexivity.
  - intros H1. unfold Menu_FloatToCharArray_uint.
    stored. stored. stored. cbv zeta.
    assert (E : hundredths value / 10 / 10 = hundredths value / 100).
    { rewrite Z.div_div by lia. reflexivity. }
    rewrite E.
    destruct (Z.eqb_spec 0 (hundredths value / 100)) as [Hz | _]; [lia |].
    rewrite digits_overrun; [reflexivity | | exact H1].
    rewrite !length_insert. exact Hl.
Qed.

End TableBounds.

Lemma Menu_FloatToCharArray_bounds_witness :
  (123456 / 100 < 1000 ->
   exists charArray',
     Menu_FloatToCharArray (H := centi_floats) (replicate 8 NUL) 123456 = Ok charArray'
     /\ length charArray' = 8%nat)
  /\ (1000 <= 123456 / 100 ->
      Menu_FloatToCharArray (H := centi_floats) (replicate 8 NUL) 123456
      = Fault (OutOfBounds "charArray" (-1))).
Proof.
  apply (Menu_FloatToCharArray_bounds (H := centi_floats) (replicate 8 NUL) 123456).
  - reflexivity.
  - simpl. lia.
Defined.





(** ** Calls of [Menu_UpdateView] *)

Lemma table_update_tasks (s : E_MenuStates) (selection : Z)
    (buttonState : E_ButtonClicks) (s' : E_MenuStates) (selection' task : Z) :
  selection_ok s selection ->
  table_update s selection buttonState = (s', selection', task) ->
  (buttonState <> LONG_CLICK -> task = MENU_NO_ACTION)
  /\ 0 <= task <= 14
  /\ (task < MENU_SAVE -> menu_view s = true /\ s' = CALIBRATION_VIEW_1)
  /\ (task = MENU_SAVE \/ task = MENU_CANCEL -> s = MENU_VIEW_3 /\ s' = PANEL_VIEW)
  /\ (task = MENU_MEASURE_1 -> s = CALIBRATION_VIEW_1 /\ s' = CALIBRATION_VIEW_2)
  /\ (task = MENU_MEASURE_2 -> s = CALIBRATION_VIEW_2 /\ s' = MENU_VIEW_1).
Proof.
  unfold MENU_SAVE, MENU_CANCEL, MENU_MEASURE_1, MENU_MEASURE_2, MENU_NO_ACTION.
  intros Hsel Hupdate.
  destruct buttonState; unfold table_update in Hupdate.
  - injection Hupdate as <- <- <-. unfold MENU_NO_ACTION. repeat split; intros; lia.
  - destruct (table_short_click s selection) as [s1 sel1].
    injection Hupdate as <- <- <-. unfold MENU_NO_ACTION. repeat split; intros; lia.
  - destruct s; simpl in Hsel, Hupdate;
      try (assert (Hcase : selection = 0 \/ selection = 1 \/ selection = 2 \/ selection = 3)
             by lia;
           destruct Hcase as [-> | [-> | [-> | ->]]]);
      try (assert (Hcase : selection = 0 \/ selection = 1) by lia;
           destruct Hcase as [-> | ->]);
      try subst selection;
      vm_compute in Hupdate; injection Hupdate as <- <- <-;
      repeat split; intros; try reflexivity; try lia; try congruence;
      try (exfalso; lia); try (destruct H as [H | H]; discriminate H).
Qed.

Section UpdateCalls.

Context `{FloatModel}.

(** X3.  After the first call, and in the first call for every event but
    the long click, [Menu_UpdateView] stays within its arrays whenever
    the measurements can be displayed: the call returns, and the menu
    system is as well formed as before, with the view table of Menu.h,
    eight char tables of eight bytes that end in NUL, and fifteen text
    fields. *)
Theorem Menu_UpdateView_safe (pMenu : T_MenuSystem) (buttonState : E_ButtonClicks)
    (pMeasResults : list float) (pCalibInfo : T_CalibrationInfo) :
  reachable pMenu -> inputs_ok pMeasResults pCalibInfo -> points_ok ->
  (menuState pMenu = NO_MENU -> buttonState <> LONG_CLICK) ->
  exists pMenu' task,
    Menu_UpdateView pMenu buttonState pMeasResults pCalibInfo = Ok (pMenu', task)
    /\ views pMenu' = MENU_VIEWS
    /\ tables_ok (updatableCharTables pMenu')
    /\ length (currentTextFields pMenu') = 15%nat
    /\ menuState pMenu' <> NO_MENU.
Proof.
  intros Hreach Hin Hpoints Hno.
  pose proof (reachable_pre pMenu Hreach) as Hpre.
  destruct (Menu_UpdateView_total pMenu buttonState pMeasResults pCalibInfo
              Hpre Hin Hpoints Hno) as (p' & task & Hrun).
  exists p', task. split; [exact Hrun |].
  destruct (Menu_UpdateView_inv _ _ _ _ _ _ Hpre Hrun) as ([[Hv Ht Hf _ _ _] _] & Hs & _).
  auto.
Qed.

(** X4.  The task a call of [Menu_UpdateView] returns with.  Only a long
    click gives one; it is a number from 0 to 14; the channel numbers 0
    to 9 come from a menu view and lead to the first calibration view,
    save and cancel come from the third menu view and lead to the panel
    view, the two measure tasks come from the first and the second
    calibration view. *)
Theorem Menu_UpdateView_tasks (pMenu : T_MenuSystem) (buttonState : E_ButtonClicks)
    (pMeasResults : list float) (pCalibInfo : T_CalibrationInfo)
    (pMenu' : T_MenuSystem) (task : Z) :
  reachable pMenu ->
  Menu_UpdateView pMenu buttonState pMeasResults pCalibInfo = Ok (pMenu', task) ->
  (buttonState <> LONG_CLICK -> task = MENU_NO_ACTION)
  /\ 0 <= task <= 14
  /\ (task < MENU_SAVE ->
      menu_view (menuState pMenu) = true /\ menuState pMenu' = CALIBRATION_VIEW_1)
  /\ (task = MENU_SAVE \/ task = MENU_CANCEL ->
      menuState pMenu = MENU_VIEW_3 /\ menuState pMenu' = PANEL_VIEW)
  /\ (task = MENU_MEASURE_1 ->
      menuState pMenu = CALIBRATION_VIEW_1 /\ menuState pMenu' = CALIBRATION_VIEW_2)
  /\ (task = MENU_MEASURE_2 ->
      menuState pMenu = CALIBRATION_VIEW_2 /\ menuState pMenu' = MENU_VIEW_1).
Proof.
  intros Hreach Hrun.
  pose proof (reachable_pre pMenu Hreach) as Hpre.
  destruct (Menu_UpdateView_inv _ _ _ _ _ _ Hpre Hrun) as (_ & _ & Hshown).
  unfold shown in Hshown. cbn [fst snd] in Hshown.
  exact (table_update_tasks _ _ _ _ _ _ (pre_selection _ Hpre) (eq_sym Hshown)).
Qed.

End UpdateCalls.

Lemma Menu_UpdateView_safe_witness :
  exists pMenu' task,
    Menu_UpdateView (H := centi_floats) example_calibration_view_2 LONG_CLICK
      example_measurements example_calibration = Ok (pMenu', task)
    /\ views pMenu' = MENU_VIEWS
    /\ tables_ok (updatableCharTables pMenu')
    /\ length (currentTextFields pMenu') = 15%nat
    /\ menuState pMenu' <> NO_MENU.
Proof.
  apply (Menu_UpdateView_safe (H := centi_floats) example_calibration_view_2 LONG_CLICK
           example_measurements example_calibration).
  - exact example_calibration_view_2_reachable.
  - exact example_inputs_ok.
  - exact example_points_ok.
  - vm_compute. discriminate.
Defined.

Lemma Menu_UpdateView_tasks_witness :
  (LONG_CLICK <> LONG_CLICK -> 2 = MENU_NO_ACTION)
  /\ 0 <= 2 <= 14
  /\ (2 < MENU_SAVE ->
      menu_view (menuState example_menu_view) = true
      /\ menuState example_calibration_view_1 = CALIBRATION_VIEW_1)
  /\ (2 = MENU_SAVE \/ 2 = MENU_CANCEL ->
      menuState example_menu_view = MENU_VIEW_3
      /\ menuState example_calibration_view_1 = PANEL_VIEW)
  /\ (2 = MENU_MEASURE_1 ->
      menuState example_menu_view = CALIBRATION_VIEW_1
      /\ menuState example_calibration_view_1 = CALIBRATION_VIEW_2)
  /\ (2 = MENU_MEASURE_2 ->
      menuState example_menu_view = CALIBRATION_VIEW_2
      /\ menuState example_calibration_view_1 = MENU_VIEW_1).
Proof.
  apply (Menu_UpdateView_tasks (H := centi_floats) example_menu_view LONG_CLICK
           example_measurements example_calibration example_calibration_view_1 2).
  - exact example_menu_view_reachable.
  - vm_compute. reflexivity.
Defined.

(** ** The texts of the char tables *)

Lemma with_table_at (f : list ascii -> result (list ascii)) (ts : list (list ascii))
    (j : Z) (t t' : list ascii) :
  0 <= j -> ts !! Z.to_nat j = Some t -> f t = Ok t' ->
  with_table ts j f = Ok (<[Z.to_nat j := t']> ts).
Proof.
  intros Hj Ht Hf. apply with_table_Ok. exists t, t'. auto.
Qed.

Lemma with_table_text (s : string) (ts : list (list ascii)) (j : Z) (t : list ascii) :
  0 <= j -> ts !! Z.to_nat j = Some t ->
  (length (chars s) < length t)%nat -> (length t <= 256)%nat ->
  with_table ts j (Menu_CharArrayToTable s)
  = Ok (<[Z.to_nat j := chars s ++ NUL :: drop (S (length (chars s))) t]> ts).
Proof.
  intros Hj Ht Hlen Hmax. apply (with_table_at _ ts j t); try assumption.
  apply Menu_CharArrayToTable_exact; assumption.
Qed.

Lemma with_table_store (i : Z) (c : ascii) (ts : list (list ascii)) (j : Z)
    (t : list ascii) :
  0 <= j -> ts !! Z.to_nat j = Some t -> 0 <= i < Z.of_nat (length t) ->
  with_table ts j (fun t => store "table" t i c)
  = Ok (<[Z.to_nat j := <[Z.to_nat i := c]> t]> ts).
Proof.
  intros Hj Ht Hi. apply (with_table_at _ ts j t); try assumption.
  apply store_in_range. exact Hi.
Qed.

(** The eight char tables, one by one. *)
Lemma tables_ok_rows (ts : list (list ascii)) :
  tables_ok ts ->
  exists t0 t1 t2 t3 t4 t5 t6 t7,
    ts = [t0; t1; t2; t3; t4; t5; t6; t7]
    /\ row_ok t0 /\ row_ok t1 /\ row_ok t2 /\ row_ok t3
    /\ row_ok t4 /\ row_ok t5 /\ row_ok t6 /\ row_ok t7.
Proof.
  intros [Hlen Hrows].
  do 9 (destruct ts as [| ? ts]; try discriminate Hlen).
  repeat (apply Forall_cons in Hrows as [? Hrows]).
  do 8 eexists. split; [reflexivity |]. repeat (split; [assumption |]). assumption.
Qed.

Lemma row_ok_rest (t : list ascii) : row_ok t -> drop 7 t = [NUL] /\ drop 8 t = [].
Proof.
  intros [Hlen Hnul].
  do 9 (destruct t as [| ? t]; try discriminate Hlen).
  simpl in Hnul. injection Hnul as ->. split; reflexivity.
Qed.

Ltac table_index :=
  change (Z.to_nat 0) with 0%nat in *; change (Z.to_nat 1) with 1%nat in *;
  change (Z.to_nat 2) with 2%nat in *; change (Z.to_nat 3) with 3%nat in *;
  change (Z.to_nat 4) with 4%nat in *; change (Z.to_nat 5) with 5%nat in *;
  change (Z.to_nat 6) with 6%nat in *; change (Z.to_nat 7) with 7%nat in *.

(** The menu views' case of [Menu_UpdateTextFields]: four blank tables,
    then the mark in the table of the selection. *)
Lemma Menu_UpdateTextFields_menu_rows (ts : list (list ascii)) :
  tables_ok ts ->
  exists t4 t5 t6 t7,
    Menu_UpdateTextFields_menu 4 0 ts
    = Ok [chars "       " ++ [NUL]; chars "       " ++ [NUL];
          chars "       " ++ [NUL]; chars "       " ++ [NUL]; t4; t5; t6; t7]
    /\ ts !! 4%nat = Some t4 /\ ts !! 5%nat = Some t5
    /\ ts !! 6%nat = Some t6 /\ ts !! 7%nat = Some t7.
Proof.
  intros Hts.
  destruct (tables_ok_rows ts Hts)
    as (t0 & t1 & t2 & t3 & t4 & t5 & t6 & t7 & -> & H0 & H1 & H2 & H3 & _).
  exists t4, t5, t6, t7. split; [| repeat split; reflexivity].
  cbn [Menu_UpdateTextFields_menu].
  rewrite (with_table_at _ _ 0 t0 (chars "       " ++ [NUL]));
    [| lia | reflexivity | apply Menu_CharArrayToTable_seven; [exact H0 | reflexivity]].
  cbn [bind]. change (0 + 1) with 1.
  rewrite (with_table_at _ _ 1 t1 (chars "       " ++ [NUL]));
    [| lia | reflexivity | apply Menu_CharArrayToTable_seven; [exact H1 | reflexivity]].
  cbn [bind]. change (1 + 1) with 2.
  rewrite (with_table_at _ _ 2 t2 (chars "       " ++ [NUL]));
    [| lia | reflexivity | apply Menu_CharArrayToTable_seven; [exact H2 | reflexivity]].
  cbn [bind]. change (2 + 1) with 3.
  rewrite (with_table_at _ _ 3 t3 (chars "       " ++ [NUL]));
    [| lia | reflexivity | apply Menu_CharArrayToTable_seven; [exact H3 | reflexivity]].
  reflexivity.
Qed.

Lemma Menu_UpdateTextFields_switch_marks (pMenu : T_MenuSystem) {F : FloatModel}
    (pMeasResults : list float) (pCalibInfo : T_CalibrationInfo)
    (ts' : list (list ascii)) :
  tables_ok (updatableCharTables pMenu) ->
  selection_ok (menuState pMenu) (currentSelection pMenu) ->
  Menu_UpdateTextFields_switch pMenu pMeasResults pCalibInfo = Ok ts' ->
  (menu_view (menuState pMenu) = true ->
   forall i : Z, 0 <= i < 4 ->
   ts' !! Z.to_nat i
   = Some (chars (if i =? currentSelection pMenu then ">      " else "       ")
           ++ [NUL]))
  /\ (calibration_view (menuState pMenu) = true ->
      ts' !! 5%nat
      = Some (chars (if currentSelection pMenu =? 0 then ">      " else "       ")
              ++ [NUL])
      /\ ts' !! 6%nat
         = Some (chars (if currentSelection pMenu =? 0 then "<      " else "   >  <")
                 ++ [NUL])).
Proof.
  intros Hts Hsel Hrun. unfold Menu_UpdateTextFields_switch in Hrun.
  assert (Hmenu : menu_view (menuState pMenu) = true ->
            forall i : Z, 0 <= i < 4 ->
            ts' !! Z.to_nat i
            = Some (chars (if i =? currentSelection pMenu then ">      " else "       ")
                    ++ [NUL])).
  { intros Hview i Hi.
    assert (Hrun' : (do ts <- Menu_UpdateTextFields_menu 4 0 (updatableCharTables pMenu) ;
                     with_table ts (currentSelection pMenu)
                       (fun t => store "table" t 0 ">"%char)) = Ok ts').
    { destruct (menuState pMenu); try discriminate Hview; exact Hrun. }
    assert (Hs : 0 <= currentSelection pMenu <= 3).
    { destruct (menuState pMenu); try discriminate Hview; exact Hsel. }
    destruct (Menu_UpdateTextFields_menu_rows _ Hts) as (t4 & t5 & t6 & t7 & E & _).
    rewrite E in Hrun'. cbn [bind] in Hrun'.
    assert (Hcase : currentSelection pMenu = 0 \/ currentSelection pMenu = 1
                    \/ currentSelection pMenu = 2 \/ currentSelection pMenu = 3) by lia.
    assert (Hi' : i = 0 \/ i = 1 \/ i = 2 \/ i = 3) by lia.
    destruct Hcase as [Ec | [Ec | [Ec | Ec]]]; rewrite Ec in Hrun' |- *;
      vm_compute in Hrun'; injection Hrun' as <-;
      destruct Hi' as [-> | [-> | [-> | ->]]]; reflexivity. }
  split; [exact Hmenu |].
  intros Hview.
  assert (Hs : 0 <= currentSelection pMenu <= 1).
  { destruct (menuState pMenu); try discriminate Hview; exact Hsel. }
  assert (Hrun' :
    (do ts2 <-
       (if 0 =? currentSelection pMenu then
          do ts1 <- with_table (updatableCharTables pMenu) 5 (Menu_CharArrayToTable ">      ") ;
          with_table ts1 6 (Menu_CharArrayToTable "<      ")
        else
          do ts1 <- with_table (updatableCharTables pMenu) 5 (Menu_CharArrayToTable "       ") ;
          with_table ts1 6 (Menu_CharArrayToTable "   >  <")) ;
     do v <- load "pMeasResults" pMeasResults (measToCalibrate pCalibInfo) ;
     with_table ts2 7 (fun t => Menu_FloatToCharArray t v)) = Ok ts').
  { destruct (menuState pMenu); try discriminate Hview; exact Hrun. }
  clear Hrun Hmenu.
  destruct (tables_ok_rows _ Hts)
    as (t0 & t1 & t2 & t3 & t4 & t5 & t6 & t7 & E & _ & _ & _ & _ & _ & H5 & H6 & _).
  rewrite E in Hrun'.
  apply bind_Ok in Hrun' as (ts2 & H2 & Hrun').
  apply bind_Ok in Hrun' as (v & _ & Hrun').
  assert (Hts2 : forall a b : string, length (chars a) = 7%nat -> length (chars b) = 7%nat ->
            (do ts1 <- with_table [t0; t1; t2; t3; t4; t5; t6; t7] 5 (Menu_CharArrayToTable a) ;
             with_table ts1 6 (Menu_CharArrayToTable b))
            = Ok [t0; t1; t2; t3; t4; chars a ++ [NUL]; chars b ++ [NUL]; t7]).
  { intros a b Ha Hb.
    rewrite (with_table_at _ _ 5 t5 (chars a ++ [NUL]));
      [| lia | reflexivity | apply Menu_CharArrayToTable_seven; assumption].
    cbn [bind].
    rewrite (with_table_at _ _ 6 t6 (chars b ++ [NUL]));
      [| lia | reflexivity | apply Menu_CharArrayToTable_seven; assumption].
    reflexivity. }
  assert (Hother : ts' !! 5%nat = ts2 !! 5%nat /\ ts' !! 6%nat = ts2 !! 6%nat).
  { split; apply (with_table_other _ _ _ _ _ Hrun'); discriminate. }
  destruct Hother as [-> ->].
  assert (Hcase : currentSelection pMenu = 0 \/ currentSelection pMenu = 1) by lia.
  destruct Hcase as [Ec | Ec]; rewrite Ec in H2 |- *;
    change (0 =? 0) with true in *; change (0 =? 1) with false in *;
    change (1 =? 0) with false in *; cbv iota in H2;
    rewrite Hts2 in H2 by reflexivity; injection H2 as <-; split; reflexivity.
Qed.

Lemma row_ok_length (t : list ascii) : row_ok t -> length t = 8%nat.
Proof. intros [Hlen _]. exact Hlen. Qed.

Lemma float_text_row (t : list ascii) (n : Z) (u : ascii) :
  row_ok t -> float_text n ++ drop 6 (<[6%nat := u]> t) = float_text n ++ [u; NUL].
Proof.
  intros [Hlen Hnul].
  do 9 (destruct t as [| ? t]; try discriminate Hlen).
  simpl in Hnul. injection Hnul as ->. reflexivity.
Qed.

(** The tests on closed numbers, decided. *)
Ltac decide_tests :=
  repeat match goal with
         | |- context [?a >? ?b] =>
             let v := eval vm_compute in (a >? b) in change (a >? b) with v
         | |- context [Z.even ?a] =>
             let v := eval vm_compute in (Z.even a) in change (Z.even a) with v
         | |- context [0 =? ?a] =>
             let v := eval vm_compute in (0 =? a) in change (0 =? a) with v
         end;
  cbv beta iota zeta.

Section CalibrationTexts.

Context `{FloatModel}.

Lemma calibration_point_displayable (m : Z) (s : E_MenuStates) :
  points_ok -> displayable (hundredths (calibration_point m s)).
Proof.
  intros Hpoints. unfold calibration_point.
  destruct (Z.even m), s; cbv iota;
    first [ solve [apply (Hpoints [float_of_Z 2; float_of_Z 15]);
                   apply list_elem_of_In; simpl; tauto]
          | solve [apply (Hpoints [float_of_Z 1; float_of_Z 5]);
                   apply list_elem_of_In; simpl; tauto] ].
Qed.

Lemma Menu_FloatToCharArray_exact (t : list ascii) (v : float) :
  length t = 8%nat -> displayable (hundredths v) ->
  Menu_FloatToCharArray t v = Ok (float_text (hundredths v) ++ drop 6 t).
Proof.
  intros Hlen [H0 H1]. unfold Menu_FloatToCharArray.
  apply Menu_FloatToCharArray_uint_exact; assumption.
Qed.

Lemma CALIBRATION_POINTS_voltage :
  load "CALIBRATION_POINTS" CALIBRATION_POINTS 0 = Ok [float_of_Z 2; float_of_Z 15].
Proof. reflexivity. Qed.

Lemma CALIBRATION_POINTS_current :
  load "CALIBRATION_POINTS" CALIBRATION_POINTS 1 = Ok [float_of_Z 1; float_of_Z 5].
Proof. reflexivity. Qed.

Lemma load_first (a b : float) : load "CALIBRATION_POINTS" [a; b] 0 = Ok a.
Proof. reflexivity. Qed.

Lemma load_second (a b : float) : load "CALIBRATION_POINTS" [a; b] 1 = Ok b.
Proof. reflexivity. Qed.

(** The text a calibration view shows for the channel [m]. *)
Lemma Menu_SetCalibrationView_rows (pMenu : T_MenuSystem)
    (pCalibInfo : T_CalibrationInfo) (t0 t1 t2 t3 t4 t5 t6 t7 : list ascii) :
  updatableCharTables pMenu = [t0; t1; t2; t3; t4; t5; t6; t7] ->
  row_ok t0 -> row_ok t1 -> row_ok t2 -> row_ok t3 ->
  row_ok t4 -> row_ok t5 -> row_ok t7 ->
  calibration_view (menuState pMenu) = true ->
  0 <= measToCalibrate pCalibInfo <= 9 -> points_ok ->
  let m := measToCalibrate pCalibInfo in
  exists r2 t4',
    Menu_SetCalibrationView pMenu pCalibInfo
    = Ok (set_updatableCharTables pMenu
            [ chars (if m >? 7 then "  AKKU " else "PANEELI") ++ [NUL];
              (if m >? 7 then " "%char else decimal (m / 2 + 1))
                :: chars "      " ++ [NUL];
              r2;
              chars (match menuState pMenu with
                     | CALIBRATION_VIEW_2 => "2/2    "
                     | _ => "1/2    "
                     end) ++ [NUL];
              float_text (hundredths (calibration_point m (menuState pMenu))) ++ t4';
              <[6%nat := unit_letter m]> t5;
              t6;
              <[6%nat := unit_letter m]> t7 ])
    /\ c_string r2 = chars (if Z.even m then "JaNNITE" else "VIRTA")
    /\ row_ok r2
    /\ length t4' = 2%nat /\ t4' !! 1%nat = Some NUL.
Proof.
  intros Etables H0 H1 H2 H3 H4 H5 H7 Hview Hm Hpoints. cbv zeta.
  set (m := measToCalibrate pCalibInfo) in *.
  pose proof (row_ok_rest t2 H2) as [_ Hrest2].
  assert (Hrest4 : length (drop 6 t4) = 2%nat /\ drop 6 t4 !! 1%nat = Some NUL).
  { destruct H4 as [Hlen Hnul]. rewrite length_drop, Hlen. split; [reflexivity |].
    rewrite lookup_drop. exact Hnul. }
  assert (Hlen5 : 0 <= 6 < Z.of_nat (length t5)) by (rewrite (row_ok_length t5 H5); lia).
  assert (Hlen7 : 0 <= 6 < Z.of_nat (length t7)) by (rewrite (row_ok_length t7 H7); lia).
  assert (Hr2 : forall q : string, (length (chars q) <= 7)%nat ->
            row_ok (chars q ++ NUL :: drop (S (length (chars q))) t2)).
  { intros q Hq. apply row_ok_text; assumption. }
  pose proof (calibration_point_displayable m (menuState pMenu) Hpoints) as Hpoint.
  pose proof (Menu_FloatToCharArray_exact t4 _ (row_ok_length t4 H4) Hpoint) as Hfloat.
  assert (Hcase : m = 0 \/ m = 1 \/ m = 2 \/ m = 3 \/ m = 4 \/ m = 5 \/ m = 6
                  \/ m = 7 \/ m = 8 \/ m = 9) by lia.
  unfold Menu_SetCalibrationView. fold m. rewrite Etables. clear Etables.
  clearbody m.
  exists (chars (if Z.even m then "JaNNITE" else "VIRTA")
          ++ NUL :: drop (S (length (chars (if Z.even m then "JaNNITE" else "VIRTA")))) t2),
         (drop 6 t4).
  repeat match goal with
         | Hc : _ \/ _ |- _ => destruct Hc as [Hc | Hc]
         end;
    subst m;
    (destruct (menuState pMenu); try discriminate Hview);
    decide_tests;
    (split; [| split; [reflexivity | split; [apply Hr2; simpl; lia | exact Hrest4]]]);
    (rewrite (with_table_at _ _ 1 t1 (chars "       " ++ [NUL]));
       [| lia | reflexivity | apply Menu_CharArrayToTable_seven; [exact H1 | reflexivity]]);
    cbn [bind];
    match goal with
    | |- context [with_table _ 0 (Menu_CharArrayToTable ?s)] =>
        (rewrite (with_table_at _ _ 0 t0 (chars s ++ [NUL]));
           [| lia | reflexivity
            | apply Menu_CharArrayToTable_seven; [exact H0 | reflexivity]])
    end;
    cbn [bind];
    try (match goal with
         | |- context [with_table _ 1 (fun t => store "table" t 0 ?c)] =>
             (rewrite (with_table_at _ _ 1 (chars "       " ++ [NUL])
                         (c :: chars "      " ++ [NUL]));
                [| lia | reflexivity | reflexivity])
         end; cbn [bind]);
    match goal with
    | |- context [with_table _ 2 (Menu_CharArrayToTable ?s)] =>
        (rewrite (with_table_at _ _ 2 t2
                    (chars s ++ NUL :: drop (S (length (chars s))) t2));
           [| lia | reflexivity
            | apply Menu_CharArrayToTable_exact; rewrite (row_ok_length t2 H2); simpl; lia])
    end;
    cbn [bind];
    match goal with
    | |- context [with_table _ 3 (Menu_CharArrayToTable ?s)] =>
        (rewrite (with_table_at _ _ 3 t3 (chars s ++ [NUL]));
           [| lia | reflexivity
            | apply Menu_CharArrayToTable_seven; [exact H3 | reflexivity]])
    end;
    cbn [bind];
    rewrite ?CALIBRATION_POINTS_voltage, ?CALIBRATION_POINTS_current;
    cbn [bind];
    rewrite ?load_first, ?load_second;
    cbn [bind];
    (erewrite (with_table_at _ _ 4 t4); [| lia | reflexivity | exact Hfloat]);
    cbn [bind];
    match goal with
    | |- context [with_table _ 5 (fun t => store "table" t 6 ?u)] =>
        (rewrite (with_table_at _ _ 5 t5 (<[6%nat := u]> t5));
           [| lia | reflexivity | apply store_in_range; exact Hlen5]);
        cbn [bind];
        (rewrite (with_table_at _ _ 7 t7 (<[6%nat := u]> t7));
           [| lia | reflexivity | apply store_in_range; exact Hlen7])
    end;
    reflexivity.
Qed.


(** The text update in a calibration view: all eight char tables. *)
Lemma Menu_UpdateTextFields_calibration (pMenu : T_MenuSystem)
    (pMeasResults : list float) (pCalibInfo : T_CalibrationInfo) (v : float) :
  menu_pre pMenu -> calibration_view (menuState pMenu) = true ->
  0 <= measToCalibrate pCalibInfo <= 9 -> points_ok ->
  pMeasResults !! Z.to_nat (measToCalibrate pCalibInfo) = Some v ->
  displayable (hundredths v) ->
  let m := measToCalibrate pCalibInfo in
  exists r2 t4',
    Menu_UpdateTextFields pMenu pMeasResults pCalibInfo
    = Ok (set_updatableCharTables pMenu
            [ chars (if m >? 7 then "  AKKU " else "PANEELI") ++ [NUL];
              (if m >? 7 then " "%char else decimal (m / 2 + 1))
                :: chars "      " ++ [NUL];
              r2;
              chars (match menuState pMenu with
                     | CALIBRATION_VIEW_2 => "2/2    "
                     | _ => "1/2    "
                     end) ++ [NUL];
              float_text (hundredths (calibration_point m (menuState pMenu))) ++ t4';
              chars (if currentSelection pMenu =? 0 then ">      " else "       ")
                ++ [NUL];
              chars (if currentSelection pMenu =? 0 then "<      " else "   >  <")
                ++ [NUL];
              float_text (hundredths v) ++ [unit_letter m; NUL] ])
    /\ c_string r2 = chars (if Z.even m then "JaNNITE" else "VIRTA")
    /\ row_ok r2
    /\ length t4' = 2%nat /\ t4' !! 1%nat = Some NUL.
Proof.
  intros Hpre Hview Hm Hpoints Hv Hdisp. cbv zeta.
  destruct (tables_ok_rows _ (pre_tables _ Hpre))
    as (t0 & t1 & t2 & t3 & t4 & t5 & t6 & t7 & E & H0 & H1 & H2 & H3 & H4 & H5 & H6 & H7).
  destruct (Menu_SetCalibrationView_rows pMenu pCalibInfo t0 t1 t2 t3 t4 t5 t6 t7
              E H0 H1 H2 H3 H4 H5 H7 Hview Hm Hpoints)
    as (r2 & t4' & Eset & Hr2 & Hrow2 & Ht4').
  exists r2, t4'. split; [| auto].
  assert (Hsel : 0 <= currentSelection pMenu <= 1).
  { pose proof (pre_selection _ Hpre) as Hs.
    destruct (menuState pMenu); try discriminate Hview; exact Hs. }
  assert (Hprev : state_value (menuState pMenu) <> state_value (previousMenu pMenu)).
  { intros Eq. apply state_value_inj in Eq.
    exact (pre_previous _ Hpre Hview (eq_sym Eq)). }
  apply Z.eqb_neq in Hprev.
  assert (Hload : load "pMeasResults" pMeasResults (measToCalibrate pCalibInfo) = Ok v).
  { apply load_Ok. split; [lia | exact Hv]. }
  assert (H5' : row_ok (<[6%nat := unit_letter (measToCalibrate pCalibInfo)]> t5)).
  { apply row_ok_insert; [exact H5 | discriminate]. }
  assert (H7' : length (<[6%nat := unit_letter (measToCalibrate pCalibInfo)]> t7) = 8%nat).
  { rewrite length_insert. exact (row_ok_length t7 H7). }
  pose proof (Menu_FloatToCharArray_exact _ v H7' Hdisp) as Hfloat.
  rewrite (float_text_row t7 _ _ H7) in Hfloat.
  unfold Menu_UpdateTextFields.
  assert (Hcond :
    ((5 =? state_value (menuState pMenu)) || (6 =? state_value (menuState pMenu)))
    && negb (state_value (menuState pMenu) =? state_value (previousMenu pMenu)) = true).
  { rewrite Hprev. destruct (menuState pMenu); try discriminate Hview; reflexivity. }
  assert (Hfirst :
    match menuState pMenu with
    | NO_MENU => Menu_ChangeView (set_menuState pMenu PANEL_VIEW)
    | _ => Ok pMenu
    end = Ok pMenu).
  { destruct (menuState pMenu); try discriminate Hview; reflexivity. }
  rewrite Hfirst. cbn [bind]. rewrite Hcond, Eset. cbn [bind].
  unfold Menu_UpdateTextFields_switch, set_updatableCharTables.
  cbn [menuState updatableCharTables currentSelection previousMenu views currentTextFields].
  assert (Hcase : currentSelection pMenu = 0 \/ currentSelection pMenu = 1) by lia.
  destruct Hcase as [Ec | Ec]; rewrite Ec;
    (destruct (menuState pMenu); try discriminate Hview);
    decide_tests;
    match goal with
    | |- context [with_table _ 5 (Menu_CharArrayToTable ?s)] =>
        (rewrite (with_table_at _ _ 5 (<[6%nat := unit_letter (measToCalibrate pCalibInfo)]> t5)
                    (chars s ++ [NUL]));
           [| lia | reflexivity
            | apply Menu_CharArrayToTable_seven; [exact H5' | reflexivity]])
    end;
    cbn [bind];
    match goal with
    | |- context [with_table _ 6 (Menu_CharArrayToTable ?s)] =>
        (rewrite (with_table_at _ _ 6 t6 (chars s ++ [NUL]));
           [| lia | reflexivity
            | apply Menu_CharArrayToTable_seven; [exact H6 | reflexivity]])
    end;
    cbn [bind]; rewrite Hload; cbn [bind];
    (erewrite (with_table_at _ _ 7); [| lia | reflexivity | exact Hfloat]);
    reflexivity.
Qed.

End CalibrationTexts.

Lemma c_string_text (s : string) (rest : list ascii) :
  Forall (fun c => code c <> 0) (chars s) -> c_string (chars s ++ NUL :: rest) = chars s.
Proof.
  induction (chars s) as [| c l IH]; intros Hall; simpl.
  - reflexivity.
  - apply Forall_cons in Hall as [Hc Hl].
    destruct (Z.eqb_spec (code c) 0) as [E | _]; [contradiction |].
    rewrite IH by exact Hl. reflexivity.
Qed.

Section ShownTexts.

Context `{FloatModel}.

(** X5.  The mark of the selection.  A call of [Menu_UpdateView] on a
    well-formed menu system returns with the view, the selection and the
    task of the transition table; where that view is a menu view, the
    char table of the selected line starts with [>] and is blank behind
    it, and the other three of the first four tables are blank; where it
    is a calibration view the tables 5 and 6 hold [>] and [<] (selection
    0, back) or a blank and [   >  <] (selection 1, measure). *)
Theorem selection_mark (pMenu : T_MenuSystem) (buttonState : E_ButtonClicks)
    (pMeasResults : list float) (pCalibInfo : T_CalibrationInfo) :
  menu_pre pMenu -> inputs_ok pMeasResults pCalibInfo -> points_ok ->
  (menuState pMenu = NO_MENU -> buttonState <> LONG_CLICK) ->
  exists pMenu' task,
    Menu_UpdateView pMenu buttonState pMeasResults pCalibInfo = Ok (pMenu', task)
    /\ shown (pMenu', task)
       = table_update (menuState pMenu) (currentSelection pMenu) buttonState
    /\ (menu_view (menuState pMenu') = true ->
        forall i : Z, 0 <= i < 4 ->
        updatableCharTables pMenu' !! Z.to_nat i
        = Some (chars (if i =? currentSelection pMenu' then ">      " else "       ")
                ++ [NUL]))
    /\ (calibration_view (menuState pMenu') = true ->
        updatableCharTables pMenu' !! 5%nat
        = Some (chars (if currentSelection pMenu' =? 0 then ">      " else "       ")
                ++ [NUL])
        /\ updatableCharTables pMenu' !! 6%nat
           = Some (chars (if currentSelection pMenu' =? 0 then "<      " else "   >  <")
                   ++ [NUL])).
Proof.
  intros Hpre Hin Hpoints Hno.
  destruct (Menu_UpdateView_total pMenu buttonState pMeasResults pCalibInfo
              Hpre Hin Hpoints Hno) as (p' & task & Hrun).
  exists p', task. split; [exact Hrun |].
  split; [exact (proj2 (proj2 (Menu_UpdateView_inv _ _ _ _ _ _ Hpre Hrun))) |].
  unfold Menu_UpdateView in Hrun.
  apply bind_Ok in Hrun as ([p1 task1] & H1 & Hrun).
  apply bind_Ok in Hrun as (p2 & H2 & Hrun). simpl in H2, Hrun.
  injection Hrun as -> ->.
  destruct (Menu_HandleButtonState_table pMenu buttonState Hpre Hno)
    as (p1' & task' & E & Hp1 & _).
  rewrite E in H1. injection H1 as -> ->.
  destruct (Menu_UpdateTextFields_steps _ _ _ _ Hp1 H2)
    as (p0 & ts2 & ts' & Hpre0 & _ & _ & _ & Hts2 & _ & _ & H3 & ->).
  unfold set_updatableCharTables.
  cbn [updatableCharTables menuState currentSelection].
  apply (Menu_UpdateTextFields_switch_marks (set_updatableCharTables p0 ts2)
           pMeasResults pCalibInfo ts' Hts2 (pre_selection _ Hpre0) H3).
Qed.

(** X6.  What a calibration view says of the channel [m] the caller passes
    in [pCalibInfo]: after a call of [Menu_UpdateView] that ends in a
    calibration view, table 0 names the panel or the battery, table 1
    the panel's number, table 2 the quantity (voltage for the channels of
    even number), table 3 the step, table 4 starts with the calibration
    point of the step, and table 7 is the measurement of the channel with
    its unit letter. *)
Theorem calibration_view_texts (pMenu : T_MenuSystem) (buttonState : E_ButtonClicks)
    (pMeasResults : list float) (pCalibInfo : T_CalibrationInfo) (v : float) :
  reachable pMenu -> inputs_ok pMeasResults pCalibInfo -> points_ok ->
  (menuState pMenu = NO_MENU -> buttonState <> LONG_CLICK) ->
  pMeasResults !! Z.to_nat (measToCalibrate pCalibInfo) = Some v ->
  let m := measToCalibrate pCalibInfo in
  exists pMenu' task,
    Menu_UpdateView pMenu buttonState pMeasResults pCalibInfo = Ok (pMenu', task)
    /\ (calibration_view (menuState pMenu') = true ->
        exists t0 t1 t2 t3 t4 t5 t6 t7,
          updatableCharTables pMenu' = [t0; t1; t2; t3; t4; t5; t6; t7]
          /\ c_string t0 = chars (if m >? 7 then "  AKKU " else "PANEELI")
          /\ c_string t1
             = (if m >? 7 then " "%char else decimal (m / 2 + 1)) :: chars "      "
          /\ c_string t2 = chars (if Z.even m then "JaNNITE" else "VIRTA")
          /\ c_string t3
             = chars (match menuState pMenu' with
                      | CALIBRATION_VIEW_2 => "2/2    "
                      | _ => "1/2    "
                      end)
          /\ take 6 t4 = float_text (hundredths (calibration_point m (menuState pMenu')))
          /\ t7 = float_text (hundredths v) ++ [unit_letter m; NUL]).
Proof.
  intros Hreach Hin Hpoints Hno Hv. cbv zeta.
  pose proof (reachable_pre pMenu Hreach) as Hpre.
  destruct (Menu_HandleButtonState_table pMenu buttonState Hpre Hno)
    as (p1 & task & E & Hp1 & _).
  unfold Menu_UpdateView. rewrite E. cbn [bind fst snd].
  destruct Hin as (Hlen & Hall & Hm).
  destruct (calibration_view (menuState p1)) eqn:Hview.
  - assert (Hdisp : displayable (hundredths v)).
    { apply Hall. exact (list_elem_of_lookup_2 _ _ _ Hv). }
    destruct (Menu_UpdateTextFields_calibration p1 pMeasResults pCalibInfo v
                Hp1 Hview Hm Hpoints Hv Hdisp) as (r2 & t4' & -> & Hr2 & _ & Ht4' & _).
    cbn [bind]. eexists _, _. split; [reflexivity |].
    intros _. unfold set_updatableCharTables. cbn [updatableCharTables menuState].
    do 8 eexists. split; [reflexivity |].
    assert (Hcase : measToCalibrate pCalibInfo = 0 \/ measToCalibrate pCalibInfo = 1
                    \/ measToCalibrate pCalibInfo = 2 \/ measToCalibrate pCalibInfo = 3
                    \/ measToCalibrate pCalibInfo = 4 \/ measToCalibrate pCalibInfo = 5
                    \/ measToCalibrate pCalibInfo = 6 \/ measToCalibrate pCalibInfo = 7
                    \/ measToCalibrate pCalibInfo = 8 \/ measToCalibrate pCalibInfo = 9)
      by lia.
    split; [| split; [| split; [exact Hr2 | split; [| split; [| reflexivity]]]]].
    + repeat match goal with
             | Hc : _ \/ _ |- _ => destruct Hc as [Hc | Hc]
             end; rewrite Hcase; reflexivity.
    + repeat match goal with
             | Hc : _ \/ _ |- _ => destruct Hc as [Hc | Hc]
             end; rewrite Hcase; reflexivity.
    + destruct (menuState p1); reflexivity.
    + rewrite take_app_length'; [reflexivity |]. reflexivity.
  - destruct (Menu_UpdateTextFields_total p1 pMeasResults pCalibInfo Hp1)
      as (p' & Hrun); [exact (conj Hlen (conj Hall Hm)) | intros _; exact Hpoints |].
    rewrite Hrun. cbn [bind]. exists p', task. split; [reflexivity |].
    intros Hview'.
    destruct (Menu_UpdateTextFields_inv _ _ _ _ Hp1 Hrun) as (_ & Hs & _).
    rewrite Hs in Hview'. destruct (menuState p1); discriminate.
Qed.

End ShownTexts.

Lemma selection_mark_witness :
  exists pMenu' task,
    Menu_UpdateView (H := centi_floats) example_menu_view SHORT_CLICK
      example_measurements example_calibration = Ok (pMenu', task)
    /\ shown (pMenu', task) = (MENU_VIEW_1, 3, MENU_NO_ACTION)
    /\ updatableCharTables pMenu' !! 0%nat = Some (chars "       " ++ [NUL])
    /\ updatableCharTables pMenu' !! 2%nat = Some (chars "       " ++ [NUL])
    /\ updatableCharTables pMenu' !! 3%nat = Some (chars ">      " ++ [NUL]).
Proof.
  destruct (selection_mark (H := centi_floats) example_menu_view SHORT_CLICK
              example_measurements example_calibration)
    as (pMenu' & task & Hrun & Hshown & Hmenu & _).
  - exact (reachable_pre (H := centi_floats) _ example_menu_view_reachable).
  - exact example_inputs_ok.
  - exact example_points_ok.
  - vm_compute. discriminate.
  - exists pMenu', task. split; [exact Hrun |]. split; [exact Hshown |].
    assert (Hview : menuState pMenu' = MENU_VIEW_1 /\ currentSelection pMenu' = 3).
    { injection Hshown as Hview Hselection _. split; assumption. }
    destruct Hview as [Hview Hselection].
    rewrite Hview, Hselection in Hmenu. specialize (Hmenu eq_refl).
    split; [| split].
    + apply (Hmenu 0). lia.
    + apply (Hmenu 2). lia.
    + apply (Hmenu 3). lia.
Defined.

Lemma calibration_view_texts_witness :
  exists pMenu' task,
    Menu_UpdateView (H := centi_floats) example_menu_view LONG_CLICK
      example_measurements example_calibration = Ok (pMenu', task)
    /\ (calibration_view (menuState pMenu') = true ->
        exists t0 t1 t2 t3 t4 t5 t6 t7,
          updatableCharTables pMenu' = [t0; t1; t2; t3; t4; t5; t6; t7]
          /\ c_string t0 = chars "PANEELI"
          /\ c_string t1 = "2"%char :: chars "      "
          /\ c_string t2 = chars "VIRTA"
          /\ c_string t3
             = chars (match menuState pMenu' with
                      | CALIBRATION_VIEW_2 => "2/2    "
                      | _ => "1/2    "
                      end)
          /\ take 6 t4
             = float_text (calibration_point (H := centi_floats) 3 (menuState pMenu'))
          /\ t7 = float_text 0 ++ ["A"%char; NUL]).
Proof.
  apply (calibration_view_texts (H := centi_floats) example_menu_view LONG_CLICK
           example_measurements example_calibration 0).
  - exact example_menu_view_reachable.
  - exact example_inputs_ok.
  - exact example_points_ok.
  - vm_compute. discriminate.
  - reflexivity.
Defined.

(** ** Rounds of short clicks, and the fields of a view *)

Section Rounds.

Context `{FloatModel}.

(** X7.  Short clicks lead round: in a measurement view two of them, in
    a calibration view two, in a menu view twelve bring back the view and
    the selection the round started with, none with a task; and the
    twelve of a menu view pass every line of the three menu views. *)
Theorem short_click_round (pMenu : T_MenuSystem) (pMeasResults : list float)
    (pCalibInfo : T_CalibrationInfo) :
  reachable pMenu -> menuState pMenu <> NO_MENU ->
  inputs_ok pMeasResults pCalibInfo -> points_ok ->
  exists trace,
    Menu_updates pMenu (replicate (round_length (menuState pMenu)) SHORT_CLICK)
      pMeasResults pCalibInfo = Ok trace
    /\ last (map shown trace)
       = Some (menuState pMenu, currentSelection pMenu, MENU_NO_ACTION)
    /\ Forall (fun r => snd r = MENU_NO_ACTION) trace
    /\ (menu_view (menuState pMenu) = true ->
        forall (s : E_MenuStates) (selection : Z),
        menu_view s = true -> 0 <= selection <= 3 ->
        (s, selection, MENU_NO_ACTION) ∈ map shown trace).
Proof.
  intros Hreach Hstate Hin Hpoints.
  pose proof (reachable_pre pMenu Hreach) as Hpre.
  destruct (Menu_updates_table pMeasResults pCalibInfo
              (replicate (round_length (menuState pMenu)) SHORT_CLICK)
              Hin Hpoints pMenu Hpre) as (trace & Hrun & Hshown).
  { intros Hno. contradiction. }
  exists trace. split; [exact Hrun |].
  pose proof (pre_selection _ Hpre) as Hsel.
  assert (Htasks : Forall (fun r => snd r = MENU_NO_ACTION) (map shown trace) ->
                   Forall (fun r => snd r = MENU_NO_ACTION) trace).
  { clear. induction trace as [| r trace IH]; intros Hall; [constructor |].
    simpl in Hall. apply Forall_cons in Hall as [Hr Hall].
    constructor; [exact Hr | exact (IH Hall)]. }
  rewrite Hshown in *. clear Hshown Hrun.
  assert (Hlines : forall l : list (E_MenuStates * Z * Z),
            Forall (fun r => In r l)
              [ (MENU_VIEW_1, 0, MENU_NO_ACTION); (MENU_VIEW_1, 1, MENU_NO_ACTION);
                (MENU_VIEW_1, 2, MENU_NO_ACTION); (MENU_VIEW_1, 3, MENU_NO_ACTION);
                (MENU_VIEW_2, 0, MENU_NO_ACTION); (MENU_VIEW_2, 1, MENU_NO_ACTION);
                (MENU_VIEW_2, 2, MENU_NO_ACTION); (MENU_VIEW_2, 3, MENU_NO_ACTION);
                (MENU_VIEW_3, 0, MENU_NO_ACTION); (MENU_VIEW_3, 1, MENU_NO_ACTION);
                (MENU_VIEW_3, 2, MENU_NO_ACTION); (MENU_VIEW_3, 3, MENU_NO_ACTION) ] ->
            forall (s : E_MenuStates) (selection : Z),
            menu_view s = true -> 0 <= selection <= 3 ->
            (s, selection, MENU_NO_ACTION) ∈ l).
  { clear. intros l Hall s selection Hs Hrange.
    apply list_elem_of_In.
    repeat (apply Forall_cons in Hall as [? Hall]).
    assert (Hcase : selection = 0 \/ selection = 1 \/ selection = 2 \/ selection = 3)
      by lia.
    destruct s; try discriminate Hs;
      destruct Hcase as [-> | [-> | [-> | ->]]]; assumption. }
  destruct (menuState pMenu) eqn:Es; try contradiction; simpl in Hsel.
  - rewrite Hsel. split; [reflexivity |].
    split; [apply Htasks; vm_compute; repeat constructor |]. discriminate.
  - rewrite Hsel. split; [reflexivity |].
    split; [apply Htasks; vm_compute; repeat constructor |]. discriminate.
  - assert (Hcase : currentSelection pMenu = 0 \/ currentSelection pMenu = 1
                    \/ currentSelection pMenu = 2 \/ currentSelection pMenu = 3) by lia.
    destruct Hcase as [Ec | [Ec | [Ec | Ec]]]; rewrite Ec in *;
      (split; [reflexivity |]);
      (split; [apply Htasks; vm_compute; repeat constructor |]);
      intros _; apply Hlines; vm_compute;
      repeat (apply List.Forall_cons;
              [solve [repeat (first [left; reflexivity | right])] |]);
      apply List.Forall_nil.
  - assert (Hcase : currentSelection pMenu = 0 \/ currentSelection pMenu = 1
                    \/ currentSelection pMenu = 2 \/ currentSelection pMenu = 3) by lia.
    destruct Hcase as [Ec | [Ec | [Ec | Ec]]]; rewrite Ec in *;
      (split; [reflexivity |]);
      (split; [apply Htasks; vm_compute; repeat constructor |]);
      intros _; apply Hlines; vm_compute;
      repeat (apply List.Forall_cons;
              [solve [repeat (first [left; reflexivity | right])] |]);
      apply List.Forall_nil.
  - assert (Hcase : currentSelection pMenu = 0 \/ currentSelection pMenu = 1
                    \/ currentSelection pMenu = 2 \/ currentSelection pMenu = 3) by lia.
    destruct Hcase as [Ec | [Ec | [Ec | Ec]]]; rewrite Ec in *;
      (split; [reflexivity |]);
      (split; [apply Htasks; vm_compute; repeat constructor |]);
      intros _; apply Hlines; vm_compute;
      repeat (apply List.Forall_cons;
              [solve [repeat (first [left; reflexivity | right])] |]);
      apply List.Forall_nil.
  - assert (Hcase : currentSelection pMenu = 0 \/ currentSelection pMenu = 1) by lia.
    destruct Hcase as [Ec | Ec]; rewrite Ec in *;
      (split; [reflexivity |]);
      (split; [apply Htasks; vm_compute; repeat constructor |]); discriminate.
  - assert (Hcase : currentSelection pMenu = 0 \/ currentSelection pMenu = 1) by lia.
    destruct Hcase as [Ec | Ec]; rewrite Ec in *;
      (split; [reflexivity |]);
      (split; [apply Htasks; vm_compute; repeat constructor |]); discriminate.
Qed.

End Rounds.

Lemma short_click_round_witness :
  exists trace,
    Menu_updates (H := centi_floats) example_menu_view
      (replicate (round_length (menuState example_menu_view)) SHORT_CLICK)
      example_measurements example_calibration = Ok trace
    /\ last (map shown trace)
       = Some (menuState example_menu_view, currentSelection example_menu_view,
               MENU_NO_ACTION)
    /\ Forall (fun r => snd r = MENU_NO_ACTION) trace
    /\ (menu_view (menuState example_menu_view) = true ->
        forall (s : E_MenuStates) (selection : Z),
        menu_view s = true -> 0 <= selection <= 3 ->
        (s, selection, MENU_NO_ACTION) ∈ map shown trace).
Proof.
  apply (short_click_round (H := centi_floats) example_menu_view
           example_measurements example_calibration).
  - exact example_menu_view_reachable.
  - vm_compute. discriminate.
  - exact example_inputs_ok.
  - exact example_points_ok.
Defined.

(** X8.  A view change binds the fields of the view: the first
    [textFieldCount] text fields of the menu system stand where the
    view's fields stand, the texts the view gives are kept, and the
    fields without a text get the char tables 0, 1, 2, ... in order, at
    most eight of them, so that no null pointer is left among them; the
    fields behind them stay as they were. *)
Theorem Menu_ChangeView_binds (pMenu : T_MenuSystem) :
  views pMenu = MENU_VIEWS ->
  length (currentTextFields pMenu) = 15%nat ->
  menuState pMenu <> NO_MENU ->
  let view := view_of (menuState pMenu) in
  let n := Z.to_nat (textFieldCount view) in
  exists cur',
    Menu_ChangeView pMenu = Ok (set_currentTextFields pMenu cur')
    /\ length cur' = 15%nat
    /\ Forall2 bound_to (take n cur') (take n (textFields view))
    /\ (exists k : nat, (k <= 8)%nat /\ omap table_of (take n cur') = seqZ 0 (Z.of_nat k))
    /\ drop n cur' = drop n (currentTextFields pMenu).
Proof.
  intros Hviews Hlen Hstate. cbv zeta.
  rewrite (Menu_ChangeView_exact pMenu Hviews Hlen Hstate).
  eexists. split; [reflexivity |].
  pose proof (length_fields_of (menuState pMenu)) as Hn.
  assert (Hcount : Z.to_nat (textFieldCount (view_of (menuState pMenu)))
                   = length (fields_of (menuState pMenu))).
  { destruct (menuState pMenu); reflexivity. }
  rewrite Hcount.
  split; [| split; [| split]].
  - rewrite length_app, length_drop, Hlen. lia.
  - rewrite take_app_length.
    destruct (menuState pMenu); try contradiction; vm_compute;
      repeat (constructor; [repeat split; eauto |]); constructor.
  - rewrite take_app_length.
    destruct (menuState pMenu); try contradiction;
      first [ exists 8%nat; split; [lia | reflexivity]
            | exists 2%nat; split; [lia | reflexivity]
            | exists 4%nat; split; [lia | reflexivity] ].
  - rewrite drop_app_length. reflexivity.
Qed.

Lemma Menu_ChangeView_binds_witness :
  let view := view_of (menuState example_menu_view) in
  let n := Z.to_nat (textFieldCount view) in
  exists cur',
    Menu_ChangeView example_menu_view = Ok (set_currentTextFields example_menu_view cur')
    /\ length cur' = 15%nat
    /\ Forall2 bound_to (take n cur') (take n (textFields view))
    /\ (exists k : nat, (k <= 8)%nat /\ omap table_of (take n cur') = seqZ 0 (Z.of_nat k))
    /\ drop n cur' = drop n (currentTextFields example_menu_view).
Proof.
  apply (Menu_ChangeView_binds example_menu_view).
  - reflexivity.
  - reflexivity.
  - vm_compute. discriminate.
Defined.

(** * The push button *)

Lemma Charger_IsButtonClicked_held (c P3IN : Z) :
  button_down P3IN -> 0 <= c < 65535 ->
  Charger_IsButtonClicked (mkButton 1 c) P3IN
  = (mkButton 1 (c + 1), if c =? 20 then LONG_CLICK else NO_CLICK).
Proof.
  intros Hdown Hc. unfold Charger_IsButtonClicked, button_down in *.
  rewrite Hdown. cbn [buttonPressed pressedCounter].
  change (Z.land 0 BIT2) with 0. change (0 =? 0) with true.
  change (0 =? 1) with false. cbv iota zeta.
  unfold uint16. rewrite Z.mod_small by lia. reflexivity.
Qed.

(** The button held down, from the second cycle of the press on. *)
Lemma Charger_clicks_held (pins : list Z) :
  forall c : Z,
  Forall button_down pins -> 0 <= c -> c + Z.of_nat (length pins) <= 65535 ->
  Charger_clicks (mkButton 1 c) pins
  = (mkButton 1 (c + Z.of_nat (length pins)),
     map (fun i => if c + i =? 20 then LONG_CLICK else NO_CLICK)
       (seqZ 0 (Z.of_nat (length pins)))).
Proof.
  induction pins as [| p pins IH]; intros c Hall Hc Hlen.
  - simpl. rewrite Z.add_0_r. reflexivity.
  - apply Forall_cons in Hall as [Hp Hall].
    cbn [Charger_clicks length] in *.
    rewrite Charger_IsButtonClicked_held by (first [exact Hp | lia]).
    rewrite (IH (c + 1)) by (first [exact Hall | lia]).
    replace (Z.of_nat (S (length pins))) with (Z.succ (Z.of_nat (length pins))) by lia.
    rewrite (seqZ_cons 0 (Z.succ (Z.of_nat (length pins)))) by lia. rewrite Z.pred_succ.
    cbn [map]. rewrite Z.add_0_r.
    replace (c + 1 + Z.of_nat (length pins)) with (c + Z.succ (Z.of_nat (length pins)))
      by lia.
    f_equal. f_equal.
    change (Z.succ 0) with (1 + 0). rewrite <- (fmap_add_seqZ 1 0).
    change (@map Z) with (@fmap list _ Z). rewrite <- list_fmap_compose.
    apply list_fmap_ext. intros _ i _. unfold compose.
    replace (c + 1 + i) with (c + (1 + i)) by lia. reflexivity.
Qed.

Lemma Charger_clicks_app (pins pins' : list Z) :
  forall statics : T_Button,
  Charger_clicks statics (pins ++ pins')
  = (fst (Charger_clicks (fst (Charger_clicks statics pins)) pins'),
     snd (Charger_clicks statics pins)
     ++ snd (Charger_clicks (fst (Charger_clicks statics pins)) pins')).
Proof.
  induction pins as [| p pins IH]; intros statics; cbn [Charger_clicks app].
  - cbn [fst snd app]. destruct (Charger_clicks statics pins'); reflexivity.
  - destruct (Charger_IsButtonClicked statics p) as [statics1 c].
    rewrite IH. destruct (Charger_clicks statics1 pins) as [statics2 clicks].
    cbn [fst snd].
    destruct (Charger_clicks statics2 pins'). reflexivity.
Qed.

Lemma Charger_IsButtonClicked_up (statics : T_Button) (P3IN : Z) :
  ~ button_down P3IN ->
  Charger_IsButtonClicked statics P3IN
  = if 1 =? buttonPressed statics then
      (mkButton 0 0,
       if pressedCounter statics <? SHORT_CLICK_THRESHOLD then SHORT_CLICK else NO_CLICK)
    else (statics, NO_CLICK).
Proof.
  unfold button_down, Charger_IsButtonClicked. intros Hup.
  destruct (Z.eqb_spec (Z.land P3IN BIT2) 0) as [E | _]; [contradiction | reflexivity].
Qed.

(** X9.  The click of a press.  With the button up before, down for [n]
    cycles and then up, [Charger_IsButtonClicked] reports a long click
    in the 22nd cycle of the press and nowhere else, a short click in the
    cycle of the release if the press was 1 to 20 cycles long, and
    nothing at all for a press of exactly 21 cycles; after the release
    the static variables are as at the start. *)
Theorem click_of_a_press (down : list Z) (up : Z) :
  Forall button_down down -> ~ button_down up -> Z.of_nat (length down) <= 65536 ->
  exists clicks,
    Charger_clicks (mkButton 0 0) (down ++ [up]) = (mkButton 0 0, clicks)
    /\ length clicks = S (length down)
    /\ (forall i : nat,
          clicks !! i = Some LONG_CLICK <-> i = 21%nat /\ (22 <= length down)%nat)
    /\ (forall i : nat,
          clicks !! i = Some SHORT_CLICK
          <-> i = length down /\ (1 <= length down <= 20)%nat).
Proof.
  intros Hdown Hup Hlen. destruct down as [| p rest].
  - cbn [app Charger_clicks]. rewrite Charger_IsButtonClicked_up by exact Hup.
    cbn [buttonPressed pressedCounter]. change (1 =? 0) with false. cbv iota.
    eexists. split; [reflexivity |]. split; [reflexivity |].
    split; intros [| i]; simpl; split; intros Hi;
      first [discriminate Hi | destruct Hi; lia].
  - apply Forall_cons in Hdown as [Hp Hrest]. cbn [length] in Hlen.
    change ((p :: rest) ++ [up]) with (p :: (rest ++ [up])).
    cbn [Charger_clicks].
    assert (Efirst : Charger_IsButtonClicked (mkButton 0 0) p = (mkButton 1 0, NO_CLICK)).
    { unfold Charger_IsButtonClicked. unfold button_down in Hp. rewrite Hp. reflexivity. }
    rewrite Efirst, Charger_clicks_app.
    rewrite (Charger_clicks_held rest 0 Hrest) by lia.
    cbn [fst snd Charger_clicks]. rewrite Charger_IsButtonClicked_up by exact Hup.
    cbn [buttonPressed pressedCounter]. change (1 =? 1) with true. cbv iota.
    cbn [fst snd]. rewrite Z.add_0_l.
    eexists. split; [reflexivity |].
    set (held := map (fun i => if 0 + i =? 20 then LONG_CLICK else NO_CLICK)
                   (seqZ 0 (Z.of_nat (length rest)))).
    assert (Hheld : length held = length rest).
    { unfold held. rewrite length_map, length_seqZ. lia. }
    assert (Hat : forall j : nat, (j < length rest)%nat ->
              held !! j = Some (if Z.of_nat j =? 20 then LONG_CLICK else NO_CLICK)).
    { intros j Hj. unfold held.
      change (@map Z) with (@fmap list _ Z). rewrite list_lookup_fmap.
      rewrite lookup_seqZ_lt by lia. reflexivity. }
    split; [cbn [length]; rewrite length_app, Hheld; simpl; lia |].
    split; intros i; rewrite lookup_cons; destruct i as [| i]; cbn [length].
    + split; [discriminate | intros [Hi _]; discriminate Hi].
    + destruct (Nat.lt_ge_cases i (length rest)) as [Hi | Hi].
      * rewrite lookup_app_l by lia. rewrite (Hat i Hi).
        destruct (Z.eqb_spec (Z.of_nat i) 20) as [E | E].
        -- split; [intros _; lia | reflexivity].
        -- split; [discriminate | intros [Ei _]; lia].
      * rewrite lookup_app_r by lia. rewrite Hheld.
        destruct (i - length rest)%nat as [| d] eqn:Ed; rewrite lookup_cons.
        -- destruct (Z.ltb_spec (Z.of_nat (length rest)) SHORT_CLICK_THRESHOLD);
             (split; [discriminate | intros [Ei Hn]; lia]).
        -- split; [discriminate | intros [Ei Hn]; lia].
    + split; [discriminate | intros [Hi _]; discriminate Hi].
    + destruct (Nat.lt_ge_cases i (length rest)) as [Hi | Hi].
      * rewrite lookup_app_l by lia. rewrite (Hat i Hi).
        destruct (Z.of_nat i =? 20); (split; [discriminate | intros [Ei _]; lia]).
      * rewrite lookup_app_r by lia. rewrite Hheld.
        destruct (i - length rest)%nat as [| d] eqn:Ed; rewrite lookup_cons.
        -- unfold SHORT_CLICK_THRESHOLD.
           destruct (Z.ltb_spec (Z.of_nat (length rest)) 20).
           ++ split; [intros _; lia | reflexivity].
           ++ split; [discriminate | intros [Ei Hn]; lia].
        -- split; [discriminate | intros [Ei Hn]; lia].
Qed.

Lemma click_of_a_press_witness :
  exists clicks,
    Charger_clicks (mkButton 0 0) (replicate 30 0 ++ [4]) = (mkButton 0 0, clicks)
    /\ length clicks = S (length (replicate 30 0))
    /\ (forall i : nat,
          clicks !! i = Some LONG_CLICK
          <-> i = 21%nat /\ (22 <= length (replicate 30 0))%nat)
    /\ (forall i : nat,
          clicks !! i = Some SHORT_CLICK
          <-> i = length (replicate 30 0) /\ (1 <= length (replicate 30 0) <= 20)%nat).
Proof.
  apply (click_of_a_press (replicate 30 0) 4).
  - apply Forall_forall. intros p Hp. apply elem_of_replicate in Hp as [-> _]. reflexivity.
  - unfold button_down. vm_compute. discriminate.
  - simpl. lia.
Defined.


Lemma Charger_IsButtonClicked_run (statics : T_Button) (k P3IN : Z) :
  button_run statics k ->
  let r := Charger_IsButtonClicked statics P3IN in
  (button_down P3IN -> button_run (fst r) (k + 1) /\ (snd r = LONG_CLICK -> 21 <= k))
  /\ (~ button_down P3IN -> button_run (fst r) 0 /\ snd r <> LONG_CLICK).
Proof.
  intros Hrun. cbv zeta. split.
  - intros Hdown. unfold Charger_IsButtonClicked, button_down in *. rewrite Hdown.
    change (0 =? 0) with true. cbv iota.
    destruct Hrun as [(Hp & Hc & Hk) | (Hp & Hc & Hk)]; rewrite Hp.
    + change (0 =? 0) with true. cbv iota. cbn [fst snd]. split; [| discriminate].
      right. cbn [buttonPressed pressedCounter]. rewrite Hc, Hk.
      repeat split; try reflexivity; lia.
    + change (0 =? 1) with false. cbv iota zeta. cbn [fst snd]. split.
      * right. cbn [buttonPressed pressedCounter]. split; [reflexivity |].
        split; [| lia]. unfold uint16. rewrite Hc.
        replace (k + 1 - 1) with (k - 1 + 1) by lia.
        rewrite Zplus_mod_idemp_l. reflexivity.
      * unfold SHORT_CLICK_THRESHOLD.
        destruct (Z.eqb_spec (pressedCounter statics) 20) as [E | _]; [| discriminate].
        intros _. rewrite Hc in E.
        destruct (Z.le_gt_cases 21 k) as [Hle | Hgt]; [exact Hle |].
        rewrite Z.mod_small in E by lia. lia.
  - intros Hup. rewrite Charger_IsButtonClicked_up by exact Hup.
    destruct Hrun as [(Hp & Hc & Hk) | (Hp & Hc & Hk)]; rewrite Hp.
    + change (1 =? 0) with false. cbv iota. cbn [fst snd].
      split; [left; auto | discriminate].
    + change (1 =? 1) with true. cbv iota. cbn [fst snd].
      split; [left; auto |].
      destruct (pressedCounter statics <? SHORT_CLICK_THRESHOLD); discriminate.
Qed.

Lemma Charger_clicks_long (pins : list Z) :
  forall (statics : T_Button) (k : Z) (i : nat),
  button_run statics k ->
  snd (Charger_clicks statics pins) !! i = Some LONG_CLICK ->
  21 <= k + Z.of_nat i
  /\ forall j : nat, (j <= 21)%nat -> (j <= i)%nat ->
     exists P3IN, pins !! (i - j)%nat = Some P3IN /\ button_down P3IN.
Proof.
  induction pins as [| p pins IH]; intros statics k i Hrun Hlong.
  - destruct i; discriminate Hlong.
  - cbn [Charger_clicks] in Hlong.
    pose proof (Charger_IsButtonClicked_run statics k p Hrun) as [Hdown Hup].
    cbv zeta in Hdown, Hup.
    destruct (Charger_IsButtonClicked statics p) as [statics1 c].
    destruct (Charger_clicks statics1 pins) as [statics2 clicks] eqn:Erest.
    cbn [fst snd] in *.
    assert (Hk : 0 <= k) by (destruct Hrun as [(_ & _ & ->) | (_ & _ & ?)]; lia).
    destruct (Z.eqb_spec (Z.land p BIT2) 0) as [Ep | Ep].
    + destruct (Hdown Ep) as [Hrun1 Hc].
      destruct i as [| i].
      * injection Hlong as ->. split; [specialize (Hc eq_refl); lia |].
        intros j _ Hj. assert (j = 0%nat) as -> by lia. exists p. split; [reflexivity | exact Ep].
      * cbn [lookup list_lookup] in Hlong.
        destruct (IH statics1 (k + 1) i Hrun1) as [Hi Hpins];
          [rewrite Erest; exact Hlong |].
        split; [lia |]. intros j Hj Hji.
        destruct (Nat.eq_dec j (S i)) as [-> | Hne].
        -- rewrite Nat.sub_diag. exists p. split; [reflexivity | exact Ep].
        -- destruct (Hpins j Hj) as (q & Hq & Hqd); [lia |].
           exists q. split; [| exact Hqd].
           replace (S i - j)%nat with (S (i - j)) by lia. exact Hq.
    + destruct (Hup Ep) as [Hrun1 Hc].
      destruct i as [| i]; [injection Hlong as ->; contradiction |].
      cbn [lookup list_lookup] in Hlong.
      destruct (IH statics1 0 i Hrun1) as [Hi Hpins];
        [rewrite Erest; exact Hlong |].
      split; [lia |]. intros j Hj Hji.
      destruct (Hpins j Hj) as (q & Hq & Hqd); [lia |].
      exists q. split; [| exact Hqd].
      replace (S i - j)%nat with (S (i - j)) by lia. exact Hq.
Qed.

(** X10.  No long click without a long press.  Whatever the port reads
    from the start of the program on, a long click in cycle [i]
    (counted from 0) is not reported before cycle 21, and the button was
    down in that cycle and in the 21 cycles before it. *)
Theorem long_click_after_long_press (pins : list Z) (i : nat) :
  snd (Charger_clicks (mkButton 0 0) pins) !! i = Some LONG_CLICK ->
  (21 <= i)%nat
  /\ forall j : nat, (j <= 21)%nat ->
     exists P3IN, pins !! (i - j)%nat = Some P3IN /\ button_down P3IN.
Proof.
  intros Hlong.
  destruct (Charger_clicks_long pins (mkButton 0 0) 0 i) as [Hi Hpins];
    [left; auto | exact Hlong |].
  split; [lia |]. intros j Hj. apply Hpins; lia.
Qed.

Lemma long_click_after_long_press_witness :
  (21 <= 21)%nat
  /\ forall j : nat, (j <= 21)%nat ->
     exists P3IN, replicate 25 0 !! (21 - j)%nat = Some P3IN /\ button_down P3IN.
Proof.
  apply (long_click_after_long_press (replicate 25 0) 21).
  vm_compute. reflexivity.
Defined.

(** * The main loop *)

Section MainLoop.

Context `{FloatModel} {int16 : IntModel}.

(** The display update of [main] for a menu system between two calls. *)
Lemma main_LCD_UpdateScreen_within (pMenu : T_MenuSystem) :
  menu_inv pMenu -> menuState pMenu <> NO_MENU ->
  exists pages,
    main_LCD_UpdateScreen pMenu = Ok pages
    /\ length pages = 8%nat
    /\ Forall (fun page => length page = 128%nat) pages.
Proof.
  intros [Hpre Hrows] Hstate.
  destruct Hpre as [Hviews Htables Hcur _ _ Hbound]. specialize (Hbound Hstate).
  destruct (textFieldCount_fields_of (menuState pMenu) Hstate) as (Hview & Hcount).
  unfold main_LCD_UpdateScreen. rewrite Hviews, Hview. cbn [bind]. rewrite Hcount.
  pose proof (length_fields_of (menuState pMenu)) as Hn.
  apply LCD_UpdateScreen_within; [lia | exact Hn |].
  intros i f Hi Hf.
  pose proof (fields_fit (menuState pMenu) (updatableCharTables pMenu) Htables Hrows)
    as Hfit.
  apply (proj1 (Forall_lookup _ _) Hfit i f).
  rewrite <- Hbound. rewrite lookup_take_lt by exact Hi. exact Hf.
Qed.

Lemma main_switch_inv (menuAction : Z) (inputs : T_Inputs) (calib : T_CalibrationInfo) :
  0 <= measToCalibrate calib <= 9 -> length (calibResults calib) = 2%nat ->
  length (rawMeas inputs) = 15%nat ->
  0 <= menuAction <= 14 ->
  exists calib',
    main_switch menuAction inputs calib = Ok calib'
    /\ 0 <= measToCalibrate calib' <= 9
    /\ length (calibResults calib') = 2%nat
    /\ (menuAction < MENU_SAVE -> measToCalibrate calib' = menuAction)
    /\ (MENU_SAVE <= menuAction -> measToCalibrate calib' = measToCalibrate calib).
Proof.
  intros Hm Hres Hraw Haction. unfold main_switch.
  assert (Hchannel : exists channel raw,
            load "MEAS_LOOKUP_TABLE" MEAS_LOOKUP_TABLE (measToCalibrate calib) = Ok channel
            /\ load "rawMeas" (rawMeas inputs) channel = Ok raw).
  { assert (Hcase : measToCalibrate calib = 0 \/ measToCalibrate calib = 1
                    \/ measToCalibrate calib = 2 \/ measToCalibrate calib = 3
                    \/ measToCalibrate calib = 4 \/ measToCalibrate calib = 5
                    \/ measToCalibrate calib = 6 \/ measToCalibrate calib = 7
                    \/ measToCalibrate calib = 8 \/ measToCalibrate calib = 9) by lia.
    assert (Hchannel : exists channel,
              load "MEAS_LOOKUP_TABLE" MEAS_LOOKUP_TABLE (measToCalibrate calib) = Ok channel
              /\ 0 <= channel < 15).
    { repeat match goal with
             | Hc : _ \/ _ |- _ => destruct Hc as [Hc | Hc]
             end; rewrite Hcase; eexists; (split; [reflexivity | lia]). }
    destruct Hchannel as (channel & Echannel & Hchannel).
    destruct (lookup_lt_is_Some_2 (rawMeas inputs) (Z.to_nat channel)) as (raw & Eraw);
      [lia |].
    exists channel, raw. split; [exact Echannel |].
    apply load_Ok. split; [lia | exact Eraw]. }
  destruct Hchannel as (channel & raw & -> & Hload).
  unfold MENU_NO_ACTION, MENU_MEASURE_1, MENU_MEASURE_2, MENU_SAVE, MENU_CANCEL.
  destruct (Z.eqb_spec menuAction 12) as [-> | H12].
  { eexists. split; [reflexivity |]. repeat split; solve [lia | exact Hres]. }
  destruct (Z.eqb_spec menuAction 13) as [-> | H13].
  { cbn [bind]. rewrite Hload. cbn [bind].
    rewrite store_in_range by lia. cbn [bind].
    eexists. split; [reflexivity |]. cbn [measToCalibrate calibResults].
    rewrite length_insert. repeat split; solve [lia | exact Hres]. }
  destruct (Z.eqb_spec menuAction 14) as [-> | H14].
  { cbn [bind]. rewrite Hload. cbn [bind].
    rewrite store_in_range by lia. cbn [bind].
    eexists. split; [reflexivity |]. cbn [measToCalibrate calibResults].
    rewrite length_insert. repeat split; solve [lia | exact Hres]. }
  destruct (Z.eqb_spec menuAction 10) as [-> | H10].
  { eexists. split; [reflexivity |]. repeat split; solve [lia | exact Hres]. }
  destruct (Z.eqb_spec menuAction 11) as [-> | H11].
  { eexists. split; [reflexivity |]. repeat split; solve [lia | exact Hres]. }
  eexists. split; [reflexivity |]. cbn [measToCalibrate calibResults].
  rewrite uint8_small by lia. repeat split; solve [lia | exact Hres].
Qed.

Lemma main_initial_inv : main_inv main_initial.
Proof.
  unfold main_inv, main_initial. cbn [calib measToCalibrate calibResults menu button].
  repeat split; try lia. left. split; reflexivity.
Qed.

(** X11.  From the button to the display.  The statements of the loop of
    [main] from the call of [Charger_IsButtonClicked] to the call of
    [LCD_UpdateScreen], run with the variables as [main] creates them or
    with a well-formed menu system that has a view, and with
    measurements that can be displayed: they return, the menu update, the
    switch and the display update without an access outside an array;
    the menu system has a view afterwards (from [NO_MENU], the panel
    view), the channel to calibrate is one of the ten, the display gets
    eight pages of 128 bytes, and the variables are well-formed
    again. *)
Theorem main_button_to_display_within (st : T_Charger) (inputs : T_Inputs) :
  main_inv st -> inputs_fine inputs -> points_ok ->
  exists st' pages,
    main_button_to_display st inputs = Ok (st', pages)
    /\ main_inv st'
    /\ menuState (menu st') <> NO_MENU
    /\ (menuState (menu st) = NO_MENU -> menuState (menu st') = PANEL_VIEW)
    /\ length pages = 8%nat
    /\ Forall (fun page => length page = 128%nat) pages.
Proof.
  intros (Hm & Hres & Hmenu) (Hraw & Hmeas & Hdisp) Hpoints.
  unfold main_button_to_display.
  destruct (Charger_IsButtonClicked (button st) (P3IN inputs)) as [button1 click] eqn:Eclick.
  assert (Hpre : menu_pre (menu st)).
  { destruct Hmenu as [[-> _] | [[Hpre _] _]]; [exact initial_menu_pre | exact Hpre]. }
  assert (Hno : menuState (menu st) = NO_MENU -> click <> LONG_CLICK).
  { intros Hs. destruct Hmenu as [[_ Eb] | [_ Hne]]; [| contradiction].
    rewrite Eb in Eclick. unfold Charger_IsButtonClicked in Eclick.
    cbn [buttonPressed pressedCounter] in Eclick.
    change (0 =? 0) with true in Eclick. change (1 =? 0) with false in Eclick.
    destruct (Z.land (P3IN inputs) BIT2 =? 0); injection Eclick as _ <-; discriminate. }
  assert (Hin : inputs_ok (measResults inputs) (calib st)).
  { split; [exact Hmeas |]. split; [exact Hdisp | exact Hm]. }
  destruct (Menu_UpdateView_total (menu st) click (measResults inputs) (calib st)
              Hpre Hin Hpoints Hno) as (p' & task & Hrun).
  rewrite Hrun. cbn [bind fst snd].
  destruct (Menu_UpdateView_inv _ _ _ _ _ _ Hpre Hrun) as (Hinv & Hstate & Hshown).
  unfold shown in Hshown. cbn [fst snd] in Hshown.
  destruct (table_update_tasks _ _ _ _ _ _ (pre_selection _ Hpre) (eq_sym Hshown))
    as (_ & Htask & _).
  destruct (main_switch_inv task inputs (calib st) Hm Hres Hraw Htask)
    as (calib' & -> & Hm' & Hres' & _).
  cbn [bind].
  destruct (main_LCD_UpdateScreen_within p' Hinv Hstate) as (pages & -> & Hpages & Hpage).
  cbn [bind]. eexists _, pages. split; [reflexivity |].
  split; [| split; [exact Hstate | split; [| split; assumption]]].
  - split; [exact Hm' |]. split; [exact Hres' |]. right; split; assumption.
  - intros Hs. rewrite Hs in Hshown.
    change (menuState p' = PANEL_VIEW).
    destruct click; try (exfalso; apply (Hno Hs); reflexivity);
      unfold table_update, table_short_click, shown_view in Hshown;
      injection Hshown as -> _ _; reflexivity.
Qed.

End MainLoop.

Lemma example_inputs_fine : inputs_fine (H := centi_floats) example_inputs.
Proof.
  split; [reflexivity |]. split; [reflexivity |].
  destruct example_inputs_ok as (_ & Hall & _). exact Hall.
Qed.

Lemma main_button_to_display_within_witness :
  exists st' pages,
    main_button_to_display (H := centi_floats) (int16 := shift_out)
      main_initial example_inputs = Ok (st', pages)
    /\ main_inv st'
    /\ menuState (menu st') <> NO_MENU
    /\ (menuState (menu (main_initial (H := centi_floats))) = NO_MENU ->
        menuState (menu st') = PANEL_VIEW)
    /\ length pages = 8%nat
    /\ Forall (fun page => length page = 128%nat) pages.
Proof.
  apply (main_button_to_display_within (H := centi_floats) (int16 := shift_out)
           main_initial example_inputs).
  - exact main_initial_inv.
  - exact example_inputs_fine.
  - exact example_points_ok.
Defined.

(** * The delay loop *)

Lemma main_delay_rounds_on (n : nat) :
  forall cycleDelay : Z,
  0 <= cycleDelay < 256 ->
  main_delay_rounds n cycleDelay = Some ((cycleDelay + Z.of_nat n) mod 256).
Proof.
  induction n as [| n IH]; intros c Hc.
  - cbn [main_delay_rounds]. rewrite Z.add_0_r, Z.mod_small by exact Hc. reflexivity.
  - cbn [main_delay_rounds]. unfold main_delay_round.
    destruct (Z.ltb_spec c 50000) as [_ | Hge]; [| lia].
    rewrite IH by (unfold uint8; apply Z.mod_pos_bound; lia).
    unfold uint8. rewrite Zplus_mod_idemp_l. f_equal. f_equal. lia.
Qed.

(** X12.  The delay loop at the end of a pass of the loop of [main]
    does not end.  Its counter is a [uint8_t], below 50000 whatever it
    holds: after any number of rounds the loop is still running, the
    counter at the number of rounds modulo 256. *)
Theorem main_delay_never_ends (n : nat) :
  main_delay n = Some (Z.of_nat n mod 256).
Proof. unfold main_delay. rewrite main_delay_rounds_on by lia. reflexivity. Qed.

(** * The commands and the transfer to the display *)

Lemma LCD_SetRowColumn_all :
  forallb (fun row =>
    forallb (fun column =>
      match LCD_SetRowColumn row column with
      | [b0; b1; b2] =>
          (b0 =? 0xB0 + row) && (b1 =? 0x10 + column / 16) && (b2 =? column mod 16)
      | _ => false
      end) (seqZ 0 256)) (seqZ 0 8) = true.
Proof. vm_compute. reflexivity. Qed.

(** X13.  The address commands.  For a page [row] of the display and a
    column below 256, [LCD_SetRowColumn] makes the three command bytes
    [0xB0 + row], [0x10 + column / 16] and [column mod 16]: the page, and
    the column in two halves of four bits, from which it is read back as
    [16 * (b1 - 0x10) + b2]. *)
Theorem LCD_SetRowColumn_bytes (row column : Z) :
  0 <= row < 8 -> 0 <= column < 256 ->
  exists b0 b1 b2,
    LCD_SetRowColumn row column = [b0; b1; b2]
    /\ b0 = 0xB0 + row
    /\ b1 = 0x10 + column / 16
    /\ b2 = column mod 16
    /\ 16 * (b1 - 0x10) + b2 = column.
Proof.
  intros Hrow Hcolumn. pose proof LCD_SetRowColumn_all as Hall.
  rewrite forallb_forall in Hall. specialize (Hall row).
  rewrite forallb_forall in Hall.
  assert (Hin : forall z n : Z, 0 <= z < n -> In z (seqZ 0 n)).
  { intros z n Hz. apply list_elem_of_In. apply elem_of_seqZ. lia. }
  specialize (Hall (Hin row 8 Hrow) column (Hin column 256 Hcolumn)).
  destruct (LCD_SetRowColumn row column) as [| b0 [| b1 [| b2 [| ? ?]]]];
    try discriminate Hall.
  apply andb_true_iff in Hall as [Hall H2].
  apply andb_true_iff in Hall as [H0 H1].
  apply Z.eqb_eq in H0, H1, H2.
  exists b0, b1, b2. repeat split; try assumption.
  subst b1 b2. Z.div_mod_to_equations; lia.
Qed.

Lemma LCD_SetRowColumn_bytes_witness :
  exists b0 b1 b2,
    LCD_SetRowColumn 3 100 = [b0; b1; b2]
    /\ b0 = 0xB0 + 3
    /\ b1 = 0x10 + 100 / 16
    /\ b2 = 100 mod 16
    /\ 16 * (b1 - 0x10) + b2 = 100.
Proof.
  apply (LCD_SetRowColumn_bytes 3 100); lia.
Defined.

Lemma USCI0TX_ISR_times_sent (n : nat) :
  forall st : T_Transfer,
  0 <= msgIndex st ->
  msgIndex st + Z.of_nat n < msgLength st ->
  msgLength st <= Z.of_nat (length (msgBuffer st)) -> msgLength st <= 255 ->
  USCI0TX_ISR_times n st
  = Ok (mkTransfer (msgBuffer st) (msgLength st) (msgIndex st + Z.of_nat n)
          (isTransferReady st) (UCB0TXIE st) (P4OUT_BIT0 st) (P2OUT_BIT5 st)
          (UCB0TXBUF st
           ++ take n (drop (Z.to_nat (msgIndex st)) (msgBuffer st)))).
Proof.
  induction n as [| n IH]; intros st Hi Hn Hlen Hmax; cbn [USCI0TX_ISR_times].
  - rewrite Z.add_0_r, take_0, app_nil_r. destruct st; reflexivity.
  - unfold USCI0TX_ISR.
    destruct (lookup_lt_is_Some_2 (msgBuffer st) (Z.to_nat (msgIndex st)))
      as (byte & Hbyte); [lia |].
    assert (E : load "msgBuffer" (msgBuffer st) (msgIndex st) = Ok byte)
      by (apply load_Ok; auto).
    rewrite E. cbn [bind]. cbv zeta. rewrite uint8_small by lia.
    destruct (Z.geb_spec (msgIndex st + 1) (msgLength st)) as [Hge | _]; [lia |].
    cbn [bind]. rewrite IH; cbn [msgBuffer msgLength msgIndex isTransferReady UCB0TXIE
                              P4OUT_BIT0 P2OUT_BIT5 UCB0TXBUF]; try lia.
    f_equal. f_equal; [lia |].
    rewrite <- app_assoc. f_equal.
    rewrite (drop_S _ byte _ Hbyte). cbn [app take].
    replace (Z.to_nat (msgIndex st + 1)) with (S (Z.to_nat (msgIndex st))) by lia.
    reflexivity.
Qed.

Lemma USCI0TX_ISR_times_last (n : nat) :
  forall st : T_Transfer,
  USCI0TX_ISR_times (S n) st = (do st1 <- USCI0TX_ISR_times n st ; USCI0TX_ISR st1).
Proof.
  induction n as [| n IH]; intros st.
  - cbn [USCI0TX_ISR_times bind]. destruct (USCI0TX_ISR st); reflexivity.
  - change (USCI0TX_ISR_times (S (S n)) st)
      with (do st1 <- USCI0TX_ISR st ; USCI0TX_ISR_times (S n) st1).
    change (USCI0TX_ISR_times (S n) st)
      with (do st1 <- USCI0TX_ISR st ; USCI0TX_ISR_times n st1).
    destruct (USCI0TX_ISR st) as [st1 | f]; [| reflexivity].
    cbn [bind]. rewrite IH. reflexivity.
Qed.

(** X14.  A transfer.  With no transfer under way, [LCD_SendData] for 1
    to 255 bytes that the buffer holds starts one, and the interrupt
    routine, run once for each byte, writes the first [length] bytes of
    the buffer to the transmitter in their order; the transfer is marked
    ready with the last byte and not before, and then the interrupt is
    switched off, the device deselected and index and length are back
    at 0. *)
Theorem transfer_of_a_page (st : T_Transfer) (length : Z) :
  isTransferReady st <> 0 -> msgIndex st = 0 ->
  1 <= length <= Z.of_nat (List.length (msgBuffer st)) -> length <= 255 ->
  exists st0,
    LCD_SendData st length = Some st0
    /\ (forall k : nat, (k < Z.to_nat length)%nat ->
        exists stk,
          USCI0TX_ISR_times k st0 = Ok stk
          /\ isTransferReady stk = 0 /\ UCB0TXIE stk = true
          /\ UCB0TXBUF stk = UCB0TXBUF st ++ take k (msgBuffer st))
    /\ USCI0TX_ISR_times (Z.to_nat length) st0
       = Ok (mkTransfer (msgBuffer st) 0 0 1 false true true
               (UCB0TXBUF st ++ take (Z.to_nat length) (msgBuffer st))).
Proof.
  intros Hready Hindex Hlength Hmax. unfold LCD_SendData.
  destruct (Z.eqb_spec 0 (isTransferReady st)) as [E | _]; [congruence |].
  rewrite uint8_small by lia. rewrite Hindex.
  eexists. split; [reflexivity |].
  assert (Hsent : forall k : nat, (k < Z.to_nat length)%nat ->
            USCI0TX_ISR_times k
              (mkTransfer (msgBuffer st) length 0 0 true false (P2OUT_BIT5 st) (UCB0TXBUF st))
            = Ok (mkTransfer (msgBuffer st) length (Z.of_nat k) 0 true false
                    (P2OUT_BIT5 st) (UCB0TXBUF st ++ take k (msgBuffer st)))).
  { intros k Hk. rewrite USCI0TX_ISR_times_sent;
      cbn [msgBuffer msgLength msgIndex isTransferReady UCB0TXIE P4OUT_BIT0
           P2OUT_BIT5 UCB0TXBUF]; try lia.
    reflexivity. }
  split.
  - intros k Hk. eexists. split; [exact (Hsent k Hk) |]. auto.
  - destruct (Z.to_nat length) as [| n] eqn:En; [lia |].
    rewrite USCI0TX_ISR_times_last, (Hsent n) by lia. cbn [bind].
    unfold USCI0TX_ISR.
    cbn [msgBuffer msgLength msgIndex isTransferReady UCB0TXIE P4OUT_BIT0
         P2OUT_BIT5 UCB0TXBUF].
    destruct (lookup_lt_is_Some_2 (msgBuffer st) n) as (byte & Hbyte); [lia |].
    assert (E : load "msgBuffer" (msgBuffer st) (Z.of_nat n) = Ok byte).
    { apply load_Ok. rewrite Nat2Z.id. split; [lia | exact Hbyte]. }
    rewrite E. cbn [bind]. cbv zeta. rewrite uint8_small by lia.
    destruct (Z.geb_spec (Z.of_nat n + 1) length) as [_ | Hlt]; [| lia].
    rewrite <- app_assoc, (take_S_r _ _ byte Hbyte). reflexivity.
Qed.

Lemma transfer_of_a_page_witness :
  exists st0,
    LCD_SendData (mkTransfer (seqZ 0 128) 0 0 1 false true true []) 128 = Some st0
    /\ (forall k : nat, (k < Z.to_nat 128)%nat ->
        exists stk,
          USCI0TX_ISR_times k st0 = Ok stk
          /\ isTransferReady stk = 0 /\ UCB0TXIE stk = true
          /\ UCB0TXBUF stk = [] ++ take k (seqZ 0 128))
    /\ USCI0TX_ISR_times (Z.to_nat 128) st0
       = Ok (mkTransfer (seqZ 0 128) 0 0 1 false true true
               ([] ++ take (Z.to_nat 128) (seqZ 0 128))).
Proof.
  apply (transfer_of_a_page (mkTransfer (seqZ 0 128) 0 0 1 false true true []) 128).
  - discriminate.
  - reflexivity.
  - vm_compute. split; discriminate.
  - lia.
Defined.

(** * Further properties of the renderer *)

Section Aligned.

Context {int16 : IntModel}.

Lemma contribution_aligned (y g : Z) :
  0 <= y <= 247 -> y mod 8 = 0 -> 0 <= g < 256 ->
  contribution y (y / 8) g = g
  /\ contribution y (y / 8 + 1) g = 0
  /\ contribution y (y / 8 + 2) g = undefined_shift g 16 mod 256
  /\ (forall currentRow : Z, 0 <= currentRow -> currentRow <> y / 8 ->
      currentRow <> y / 8 + 1 -> currentRow <> y / 8 + 2 ->
      contribution y currentRow g = 0).
Proof.
  intros Hy Hk Hg. split.
  { rewrite contribution_top by exact Hy. rewrite Hk, Z.shiftl_0_r.
    apply Z.mod_small. exact Hg. }
  assert (Eq : y = 8 * (y / 8)) by (Z.div_mod_to_equations; lia).
  set (q := y / 8) in *. clearbody q. subst y.
  unfold contribution, LCD_direction, LCD_shift. cbv zeta.
  rewrite uint8_small by lia.
  split; [| split].
  - destruct (Z.geb_spec (8 * q) ((q + 1) * 8)) as [Hge | _]; [lia |]. cbn [andb].
    destruct (Z.geb_spec (8 * q + 8 + 8) ((q + 1) * 8)) as [_ | Hlt]; [| lia].
    destruct (Z.leb_spec (8 * q + 8) ((q + 1 + 1) * 8 - 1)) as [_ | Hgt]; [| lia].
    cbn [andb]. change (2 =? 0) with false. change (1 =? 2) with false. cbv iota.
    replace (8 - (8 * q + 8 - (q + 1) * 8)) with 8 by lia.
    change (8 <? 16) with true. cbv iota.
    rewrite Z.shiftr_div_pow2 by lia. change (2 ^ 8) with 256.
    rewrite (Z.div_small g 256) by exact Hg. reflexivity.
  - destruct (Z.geb_spec (8 * q) ((q + 2) * 8)) as [Hge | _]; [lia |]. cbn [andb].
    destruct (Z.geb_spec (8 * q + 8 + 8) ((q + 2) * 8)) as [_ | Hlt]; [| lia].
    destruct (Z.leb_spec (8 * q + 8) ((q + 2 + 1) * 8 - 1)) as [_ | Hgt]; [| lia].
    cbn [andb]. change (2 =? 0) with false. change (1 =? 2) with false. cbv iota.
    replace (8 - (8 * q + 8 - (q + 2) * 8)) with 16 by lia.
    change (16 <? 16) with false. cbv iota. reflexivity.
  - intros currentRow Hrow Hne0 Hne1 Hne2.
    destruct (Z.geb_spec (8 * q) (currentRow * 8));
      destruct (Z.leb_spec (8 * q) ((currentRow + 1) * 8 - 1));
      cbn [andb]; try (exfalso; lia);
      destruct (Z.geb_spec (8 * q + 8 + 8) (currentRow * 8));
      destruct (Z.leb_spec (8 * q + 8) ((currentRow + 1) * 8 - 1));
      cbn [andb]; try reflexivity; exfalso; lia.
Qed.

(** X15.  A field with one glyph at a row [y] that is a multiple of 8.
    The page [y / 8] has the five bytes of the glyph as the font table
    has them, at the columns from [x] on, and is 0 elsewhere.  The page
    two below it, where there is one, gets in the same columns what the
    target makes of the bytes shifted right by 16, a shift that C leaves
    undefined for its 16-bit [int], and is 0 elsewhere.  All other pages
    are 0. *)
Theorem glyph_at_page_top (tables : list (list ascii)) (ptr : char_ptr) (x y : Z)
    (c : ascii) (pos : Z) (rest : list ascii) :
  chars_at tables ptr = Ok (c :: NUL :: rest) -> glyph_position c = Some pos ->
  0 <= x -> x + 5 <= 128 -> 0 <= y < 64 -> y mod 8 = 0 ->
  exists pages page,
    LCD_UpdateScreen tables [mkTextField ptr x y] 1 = Ok pages
    /\ length pages = 8%nat
    /\ pages !! Z.to_nat (y / 8) = Some page
    /\ (forall col g : Z, 0 <= col < 5 -> FONT_8P !! Z.to_nat (pos + col) = Some g ->
        page !! Z.to_nat (x + col) = Some g)
    /\ (forall i : Z, 0 <= i < 128 -> ~ (x <= i < x + 5) -> page !! Z.to_nat i = Some 0)
    /\ (forall page' : list Z, pages !! Z.to_nat (y / 8 + 2) = Some page' ->
        (forall col g : Z, 0 <= col < 5 -> FONT_8P !! Z.to_nat (pos + col) = Some g ->
         page' !! Z.to_nat (x + col) = Some (undefined_shift g 16 mod 256))
        /\ (forall i : Z, 0 <= i < 128 -> ~ (x <= i < x + 5) ->
            page' !! Z.to_nat i = Some 0))
    /\ (forall (j : nat) (page' : list Z), pages !! j = Some page' ->
        j <> Z.to_nat (y / 8) -> j <> Z.to_nat (y / 8 + 2) -> page' = replicate 128 0).
Proof.
  intros Htext Hpos Hx0 Hx1 Hy Hk.
  pose proof (glyph_position_range c pos Hpos) as (Hp0 & Hp1 & _).
  pose proof FONT_8P_bytes as Hfont.
  unfold LCD_UpdateScreen.
  change (LCD_y_end (Z.to_nat 1) 0 [mkTextField ptr x y] (replicate 15 0))
    with (Ok (<[0%nat := uint8 (y + 8)]> (replicate 15 0))).
  cbn [bind].
  destruct (LCD_rows_glyph tables ptr x y c pos rest 8 Htext Hpos Hx0 Hx1 0)
    as (pages & -> & Hlen & Hpages).
  assert (Hp : 0 <= y / 8 <= 7) by (Z.div_mod_to_equations; lia).
  destruct (lookup_lt_is_Some_2 pages (Z.to_nat (y / 8))) as (page & Hpage); [lia |].
  exists pages, page. split; [reflexivity |]. split; [exact Hlen |].
  split; [exact Hpage |].
  destruct (Hpages _ page Hpage) as (_ & Hin & Hout).
  split; [| split; [exact Hout | split]].
  - intros col g Hcol Hg.
    assert (Hgr : 0 <= g < 256).
    { apply Hfont. apply list_elem_of_lookup. eauto. }
    rewrite (Hin col g Hcol Hg). rewrite Z.add_0_l, Z2Nat.id by lia.
    f_equal. apply contribution_aligned; lia.
  - intros page' Hpage'.
    destruct (Hpages _ page' Hpage') as (_ & Hin' & Hout').
    split; [| exact Hout'].
    intros col g Hcol Hg.
    assert (Hgr : 0 <= g < 256).
    { apply Hfont. apply list_elem_of_lookup. eauto. }
    rewrite (Hin' col g Hcol Hg). rewrite Z.add_0_l, Z2Nat.id by lia.
    f_equal. apply contribution_aligned; lia.
  - intros j page' Hj Hne Hne2.
    destruct (Hpages j page' Hj) as (Hplen & Hin' & Hout').
    assert (Hjlt : (j < 8)%nat) by (apply lookup_lt_Some in Hj; lia).
    apply list_eq. intros i.
    destruct (decide (i < 128)%nat) as [Hi | Hi].
    2: { rewrite lookup_ge_None_2 by lia.
         rewrite lookup_ge_None_2 by (rewrite length_replicate; lia). reflexivity. }
    rewrite lookup_replicate_2 by lia.
    destruct (decide (x <= Z.of_nat i < x + 5)) as [Hcol | Hcol].
    + destruct (lookup_lt_is_Some_2 FONT_8P (Z.to_nat (pos + (Z.of_nat i - x))))
        as (g & Hg); [change (length FONT_8P) with 210%nat; lia |].
      pose proof (Hin' (Z.of_nat i - x) g ltac:(lia) Hg) as Hbyte.
      replace (Z.to_nat (x + (Z.of_nat i - x))) with i in Hbyte by lia.
      rewrite Hbyte. f_equal.
      assert (Hgr : 0 <= g < 256).
      { apply Hfont. apply list_elem_of_lookup. eauto. }
      rewrite Z.add_0_l.
      destruct (contribution_aligned y g ltac:(lia) Hk Hgr) as (_ & Hnext & _ & Hrest).
      destruct (Z.eq_dec (Z.of_nat j) (y / 8 + 1)) as [E | E].
      * rewrite E. exact Hnext.
      * apply Hrest; lia.
    + pose proof (Hout' (Z.of_nat i) ltac:(lia) Hcol) as Hbyte.
      rewrite Nat2Z.id in Hbyte. exact Hbyte.
Qed.

End Aligned.

Lemma glyph_at_page_top_witness :
  exists pages page,
    LCD_UpdateScreen (int16 := shift_out) [] [field "A" 10 16] 1 = Ok pages
    /\ length pages = 8%nat
    /\ pages !! 2%nat = Some page
    /\ (forall col g : Z, 0 <= col < 5 -> FONT_8P !! Z.to_nat (0 + col) = Some g ->
        page !! Z.to_nat (10 + col) = Some g)
    /\ (forall i : Z, 0 <= i < 128 -> ~ (10 <= i < 10 + 5) -> page !! Z.to_nat i = Some 0)
    /\ (forall page' : list Z, pages !! 4%nat = Some page' ->
        (forall col g : Z, 0 <= col < 5 -> FONT_8P !! Z.to_nat (0 + col) = Some g ->
         page' !! Z.to_nat (10 + col) = Some 0)
        /\ (forall i : Z, 0 <= i < 128 -> ~ (10 <= i < 10 + 5) ->
            page' !! Z.to_nat i = Some 0))
    /\ (forall (j : nat) (page' : list Z), pages !! j = Some page' ->
        j <> 2%nat -> j <> 4%nat -> page' = replicate 128 0).
Proof.
  apply (glyph_at_page_top (int16 := shift_out) [] (Literal "A") 10 16 "A"%char 0 []).
  - reflexivity.
  - reflexivity.
  - lia.
  - lia.
  - lia.
  - reflexivity.
Defined.

Section Fields.

Context {int16 : IntModel}.

Lemma LCD_y_end_split (pTextFields : list T_TextField) (n m : nat) :
  forall (k : Z) (y_end : list Z),
  LCD_y_end (n + m) k pTextFields y_end
  = (do y_end1 <- LCD_y_end n k pTextFields y_end ;
     LCD_y_end m (k + Z.of_nat n) pTextFields y_end1).
Proof.
  induction n as [| n IH]; intros k y_end.
  - cbn [LCD_y_end bind Nat.add]. rewrite Z.add_0_r. reflexivity.
  - cbn [LCD_y_end Nat.add].
    destruct (load "pTextFields" pTextFields k) as [f | e]; [| reflexivity].
    cbn [bind].
    destruct (store "y_end" y_end k (uint8 (tf_y f + 8))) as [y_end' | e];
      [| reflexivity].
    cbn [bind]. rewrite IH.
    replace (k + 1 + Z.of_nat n) with (k + Z.of_nat (S n)) by lia. reflexivity.
Qed.

(** X16.  The renderer has room for fifteen fields: with more than
    fifteen text fields [LCD_UpdateScreen] writes the lower end of the
    sixteenth past its array [y_end], before anything is drawn. *)
Theorem LCD_UpdateScreen_sixteen_fields (tables : list (list ascii))
    (pTextFields : list T_TextField) (textFieldCount : Z) :
  15 < textFieldCount <= Z.of_nat (length pTextFields) ->
  LCD_UpdateScreen tables pTextFields textFieldCount = Fault (OutOfBounds "y_end" 15).
Proof.
  intros Hcount. unfold LCD_UpdateScreen.
  replace (Z.to_nat textFieldCount) with (15 + S (Z.to_nat textFieldCount - 16))%nat by lia.
  rewrite LCD_y_end_split.
  destruct (LCD_y_end_within pTextFields 15 0 (replicate 15 0))
    as (y_end & E & Hlen); [lia | rewrite length_replicate; lia |].
  change (Z.of_nat 0) with 0 in E. rewrite E. cbn [bind LCD_y_end].
  rewrite length_replicate in Hlen.
  destruct (lookup_lt_is_Some_2 pTextFields 15) as (f & Hf); [lia |].
  assert (Ef : load "pTextFields" pTextFields (0 + Z.of_nat 15) = Ok f).
  { apply load_Ok. split; [lia | exact Hf]. }
  rewrite Ef. cbn [bind].
  unfold store. rewrite Hlen. reflexivity.
Qed.

End Fields.

Lemma LCD_UpdateScreen_sixteen_fields_witness :
  LCD_UpdateScreen (int16 := shift_out) [] (replicate 16 (field "A" 0 0)) 16
  = Fault (OutOfBounds "y_end" 15).
Proof.
  apply (LCD_UpdateScreen_sixteen_fields (int16 := shift_out) []
           (replicate 16 (field "A" 0 0)) 16).
  simpl. lia.
Defined.

(** ** Pixels are added, never cleared *)

Section Pixels.

Context {int16 : IntModel}.

Lemma lor_byte (old bits : Z) :
  0 <= old < 256 ->
  Z.land old (Z.lor old bits mod 256) = old /\ 0 <= Z.lor old bits mod 256 < 256.
Proof.
  intros Hold. split; [| apply Z.mod_pos_bound; lia].
  change 256 with (2 ^ 8). rewrite <- Z.land_ones by lia.
  rewrite Z.land_assoc.
  assert (E : Z.land old (Z.lor old bits) = old).
  { apply Z.bits_inj'. intros n Hn. rewrite Z.land_spec, Z.lor_spec.
    destruct (Z.testbit old n); reflexivity. }
  rewrite E. rewrite Z.land_ones by lia. apply Z.mod_small. exact Hold.
Qed.

Lemma covers_refl (page : list Z) : bytes page -> covers page page.
Proof.
  intros Hbytes. split; [reflexivity |]. intros i b b' Hb Hb'.
  rewrite Hb in Hb'. injection Hb' as <-. apply Z.land_diag.
Qed.

Lemma covers_trans (p1 p2 p3 : list Z) :
  covers p1 p2 -> covers p2 p3 -> covers p1 p3.
Proof.
  intros [Hl12 H12] [Hl23 H23]. split; [congruence |].
  intros i b b3 Hb Hb3.
  destruct (lookup_lt_is_Some_2 p2 i) as (b2 & Hb2).
  { rewrite Hl12. exact (lookup_lt_Some _ _ _ Hb). }
  pose proof (H12 i b b2 Hb Hb2) as E12. pose proof (H23 i b2 b3 Hb2 Hb3) as E23.
  rewrite <- E12. rewrite <- Z.land_assoc, E23. reflexivity.
Qed.

Lemma LCD_or_covers (msgBuffer : list Z) (i bits : Z) (msgBuffer' : list Z) :
  bytes msgBuffer -> LCD_or msgBuffer i bits = Ok msgBuffer' ->
  covers msgBuffer msgBuffer' /\ bytes msgBuffer'.
Proof.
  intros Hbytes Hor. unfold LCD_or in Hor.
  apply bind_Ok in Hor as (old & Hold & Hstore).
  apply load_Ok in Hold as [Hi Hold]. apply store_Ok in Hstore as [_ ->].
  assert (Hrange : 0 <= old < 256).
  { exact (proj1 (Forall_lookup _ _) Hbytes _ _ Hold). }
  destruct (lor_byte old bits Hrange) as [Hland Hbyte].
  split; [split |].
  - apply length_insert.
  - intros j b b' Hb Hb'.
    destruct (Nat.eq_dec j (Z.to_nat i)) as [-> | Hne].
    + rewrite list_lookup_insert_eq in Hb' by exact (lookup_lt_Some _ _ _ Hold).
      injection Hb' as <-. rewrite Hold in Hb. injection Hb as <-. exact Hland.
    + rewrite list_lookup_insert_ne in Hb' by congruence.
      rewrite Hb in Hb'. injection Hb' as <-. apply Z.land_diag.
  - apply Forall_insert; assumption.
Qed.

Lemma LCD_glyph_covers (direction y y_end currentRow charPosition bufferPosition : Z)
    (n : nat) :
  forall (byteOfChar : Z) (msgBuffer msgBuffer' : list Z),
  bytes msgBuffer ->
  LCD_glyph n byteOfChar direction y y_end currentRow charPosition bufferPosition
    msgBuffer = Ok msgBuffer' ->
  covers msgBuffer msgBuffer' /\ bytes msgBuffer'.
Proof.
  induction n as [| n IH]; intros col buf buf' Hbytes Hrun; cbn [LCD_glyph] in Hrun.
  - injection Hrun as <-. split; [apply covers_refl |]; assumption.
  - apply bind_Ok in Hrun as (bits & _ & Hrun).
    apply bind_Ok in Hrun as (buf1 & Hor & Hrun).
    destruct (LCD_or_covers _ _ _ _ Hbytes Hor) as [H1 Hb1].
    destruct (IH _ _ _ Hb1 Hrun) as [H2 Hb2].
    split; [exact (covers_trans _ _ _ H1 H2) | exact Hb2].
Qed.

Lemma LCD_char_covers (direction y y_end currentRow c : Z)
    (msgBuffer : list Z) (bufferPosition : Z) (r : list Z * Z) :
  bytes msgBuffer ->
  LCD_char direction y y_end currentRow c msgBuffer bufferPosition = Ok r ->
  covers msgBuffer (fst r) /\ bytes (fst r).
Proof.
  intros Hbytes Hrun. unfold LCD_char in Hrun.
  apply bind_Ok in Hrun as ([[pos buf1] pos1] & Hfirst & Hrun).
  assert (H1 : covers msgBuffer buf1 /\ bytes buf1).
  { repeat match type of Hfirst with
           | (if ?b then _ else _) = _ => destruct b
           end;
      try (injection Hfirst as _ <- _; split; [apply covers_refl |]; assumption).
    apply bind_Ok in Hfirst as (buf' & Hor & Hfirst). injection Hfirst as _ <- _.
    exact (LCD_or_covers _ _ _ _ Hbytes Hor). }
  destruct H1 as [H1 Hb1].
  destruct (negb (pos =? 255)).
  - apply bind_Ok in Hrun as (buf2 & Hglyph & Hrun). injection Hrun as <-. cbn [fst].
    destruct (LCD_glyph_covers _ _ _ _ _ _ _ _ _ _ Hb1 Hglyph) as [H2 Hb2].
    split; [exact (covers_trans _ _ _ H1 H2) | exact Hb2].
  - injection Hrun as <-. cbn [fst]. split; assumption.
Qed.

Lemma LCD_text_covers (direction y y_end currentRow : Z) (charInText : list ascii) :
  forall (msgBuffer : list Z) (bufferPosition : Z) (r : list Z * Z),
  bytes msgBuffer ->
  LCD_text direction y y_end currentRow charInText msgBuffer bufferPosition = Ok r ->
  covers msgBuffer (fst r) /\ bytes (fst r).
Proof.
  induction charInText as [| c text IH]; intros buf pos r Hbytes Hrun;
    cbn [LCD_text] in Hrun; [discriminate |].
  destruct (code c =? 0).
  - injection Hrun as <-. cbn [fst]. split; [apply covers_refl |]; assumption.
  - apply bind_Ok in Hrun as (r1 & Hchar & Hrun).
    destruct (LCD_char_covers _ _ _ _ _ _ _ _ Hbytes Hchar) as [H1 Hb1].
    destruct (IH _ _ _ Hb1 Hrun) as [H2 Hb2].
    split; [exact (covers_trans _ _ _ H1 H2) | exact Hb2].
Qed.

Lemma LCD_fields_covers (tables : list (list ascii)) (pTextFields : list T_TextField)
    (y_end : list Z) (currentRow : Z) (n : nat) :
  forall (k : Z) (msgBuffer msgBuffer' : list Z),
  bytes msgBuffer ->
  LCD_fields n k tables pTextFields y_end currentRow msgBuffer = Ok msgBuffer' ->
  covers msgBuffer msgBuffer' /\ bytes msgBuffer'.
Proof.
  induction n as [| n IH]; intros k buf buf' Hbytes Hrun; cbn [LCD_fields] in Hrun.
  - injection Hrun as <-. split; [apply covers_refl |]; assumption.
  - apply bind_Ok in Hrun as (f & _ & Hrun).
    apply bind_Ok in Hrun as (ye & _ & Hrun). cbv zeta in Hrun.
    apply bind_Ok in Hrun as (buf1 & Hstep & Hrun).
    assert (H1 : covers buf buf1 /\ bytes buf1).
    { destruct (negb (LCD_direction (tf_y f) ye currentRow =? 0)).
      - apply bind_Ok in Hstep as (text & _ & Hstep).
        apply bind_Ok in Hstep as (r & Htext & Hstep). injection Hstep as <-.
        exact (LCD_text_covers _ _ _ _ _ _ _ _ Hbytes Htext).
      - injection Hstep as <-. split; [apply covers_refl |]; assumption. }
    destruct H1 as [H1 Hb1].
    destruct (IH _ _ _ Hb1 Hrun) as [H2 Hb2].
    split; [exact (covers_trans _ _ _ H1 H2) | exact Hb2].
Qed.

Lemma LCD_fields_split (tables : list (list ascii)) (pTextFields : list T_TextField)
    (y_end : list Z) (currentRow : Z) (n m : nat) :
  forall (k : Z) (msgBuffer : list Z),
  LCD_fields (n + m) k tables pTextFields y_end currentRow msgBuffer
  = (do msgBuffer1 <- LCD_fields n k tables pTextFields y_end currentRow msgBuffer ;
     LCD_fields m (k + Z.of_nat n) tables pTextFields y_end currentRow msgBuffer1).
Proof.
  induction n as [| n IH]; intros k buf.
  - cbn [LCD_fields bind Nat.add]. rewrite Z.add_0_r. reflexivity.
  - cbn [LCD_fields Nat.add].
    destruct (load "pTextFields" pTextFields k) as [f | e]; [| reflexivity].
    cbn [bind].
    destruct (load "y_end" y_end k) as [ye | e]; [| reflexivity].
    cbn [bind]. cbv zeta.
    match goal with
    | |- bind ?step _ = _ => destruct step as [buf1 | e]; [| reflexivity]
    end.
    cbn [bind]. rewrite IH.
    replace (k + 1 + Z.of_nat n) with (k + Z.of_nat (S n)) by lia. reflexivity.
Qed.

Lemma load_agree {A : Type} (array : string) (l l' : list A) (i : Z) :
  l !! Z.to_nat i = l' !! Z.to_nat i -> load array l i = load array l' i.
Proof. intros E. unfold load. rewrite E. reflexivity. Qed.

(** The loop over the fields reads the fields and lower ends it counts
    through, no others. *)
Lemma LCD_fields_agree (tables : list (list ascii)) (fields fields' : list T_TextField)
    (y_end y_end' : list Z) (currentRow : Z) (n : nat) :
  forall (k : nat) (msgBuffer : list Z),
  (forall i : nat, (k <= i < k + n)%nat ->
     fields !! i = fields' !! i /\ y_end !! i = y_end' !! i) ->
  LCD_fields n (Z.of_nat k) tables fields y_end currentRow msgBuffer
  = LCD_fields n (Z.of_nat k) tables fields' y_end' currentRow msgBuffer.
Proof.
  induction n as [| n IH]; intros k buf Hagree; cbn [LCD_fields]; [reflexivity |].
  destruct (Hagree k ltac:(lia)) as [Ef Ey].
  rewrite (load_agree "pTextFields" fields fields') by (rewrite Nat2Z.id; exact Ef).
  rewrite (load_agree "y_end" y_end y_end') by (rewrite Nat2Z.id; exact Ey).
  destruct (load "pTextFields" fields' (Z.of_nat k)) as [f | e]; [| reflexivity].
  cbn [bind].
  destruct (load "y_end" y_end' (Z.of_nat k)) as [ye | e]; [| reflexivity].
  cbn [bind]. cbv zeta.
  match goal with
  | |- bind ?step _ = _ => destruct step as [buf1 | e]; [| reflexivity]
  end.
  cbn [bind]. replace (Z.of_nat k + 1) with (Z.of_nat (S k)) by lia.
  apply IH. intros i Hi. apply Hagree. lia.
Qed.

Lemma LCD_y_end_agree (fields fields' : list T_TextField) (n : nat) :
  forall (k : nat) (y_end : list Z),
  (forall i : nat, (k <= i < k + n)%nat -> fields !! i = fields' !! i) ->
  LCD_y_end n (Z.of_nat k) fields y_end = LCD_y_end n (Z.of_nat k) fields' y_end.
Proof.
  induction n as [| n IH]; intros k y_end Hagree; cbn [LCD_y_end]; [reflexivity |].
  rewrite (load_agree "pTextFields" fields fields')
    by (rewrite Nat2Z.id; apply Hagree; lia).
  destruct (load "pTextFields" fields' (Z.of_nat k)) as [f | e]; [| reflexivity].
  cbn [bind].
  destruct (store "y_end" y_end (Z.of_nat k) (uint8 (tf_y f + 8))) as [y_end' | e];
    [| reflexivity].
  cbn [bind]. replace (Z.of_nat k + 1) with (Z.of_nat (S k)) by lia.
  apply IH. intros i Hi. apply Hagree. lia.
Qed.

Lemma LCD_rows_covers (tables : list (list ascii)) (fields fields' : list T_TextField)
    (y_end y_end' : list Z) (n : nat) :
  (forall i : nat, (i < n)%nat ->
     fields !! i = fields' !! i /\ y_end !! i = y_end' !! i) ->
  forall (m : nat) (currentRow : Z) (pages pages' : list (list Z)),
  LCD_rows m currentRow tables fields (Z.of_nat n) y_end = Ok pages ->
  LCD_rows m currentRow tables fields' (Z.of_nat (S n)) y_end' = Ok pages' ->
  Forall2 covers pages pages'.
Proof.
  intros Hagree. induction m as [| m IH]; intros row pages pages' Hrun Hrun';
    cbn [LCD_rows] in Hrun, Hrun'.
  - injection Hrun as <-. injection Hrun' as <-. constructor.
  - apply bind_Ok in Hrun as (page & Hpage & Hrun).
    apply bind_Ok in Hrun as (rest & Hrest & Hrun). injection Hrun as <-.
    apply bind_Ok in Hrun' as (page' & Hpage' & Hrun').
    apply bind_Ok in Hrun' as (rest' & Hrest' & Hrun'). injection Hrun' as <-.
    constructor; [| exact (IH _ _ _ Hrest Hrest')].
    unfold LCD_row in Hpage, Hpage'. rewrite Nat2Z.id in Hpage, Hpage'.
    replace (S n) with (n + 1)%nat in Hpage' by lia.
    rewrite LCD_fields_split in Hpage'.
    change 0 with (Z.of_nat 0) in Hpage, Hpage'.
    rewrite <- (LCD_fields_agree tables fields fields' y_end y_end') in Hpage'
      by (intros i Hi; apply Hagree; lia).
    rewrite Hpage in Hpage'. cbn [bind] in Hpage'.
    assert (Hzero : bytes (replicate 128 0)).
    { apply Forall_forall. intros b Hb. apply elem_of_replicate in Hb as [-> _]. lia. }
    destruct (LCD_fields_covers _ _ _ _ _ _ _ _ Hzero Hpage) as [_ Hbytes].
    exact (proj1 (LCD_fields_covers _ _ _ _ _ _ _ _ Hbytes Hpage')).
Qed.

(** X17.  Pixels are added, never cleared.  For text fields that end
    before the right edge of the display, fewer than fifteen and one
    more: both lists are drawn, and every pixel that is set in a page
    drawn from the fields is set in the page drawn from the fields with
    the further field at their end. *)
Theorem further_field_keeps_pixels (tables : list (list ascii))
    (pTextFields : list T_TextField) (f : T_TextField) :
  (length pTextFields < 15)%nat ->
  Forall (field_fits tables) (pTextFields ++ [f]) ->
  exists pages pages',
    LCD_UpdateScreen tables pTextFields (Z.of_nat (length pTextFields)) = Ok pages
    /\ LCD_UpdateScreen tables (pTextFields ++ [f]) (Z.of_nat (S (length pTextFields)))
       = Ok pages'
    /\ Forall2 covers pages pages'.
Proof.
  intros Hn Hfit. set (n := length pTextFields) in *.
  destruct (LCD_UpdateScreen_within tables pTextFields n) as (pages & Hrun & _);
    [lia | lia | |].
  { intros i g Hi Hg. apply (proj1 (Forall_lookup _ _) Hfit i g).
    rewrite lookup_app_l by lia. exact Hg. }
  destruct (LCD_UpdateScreen_within tables (pTextFields ++ [f]) (S n))
    as (pages' & Hrun' & _); [rewrite length_app; simpl; lia | lia | |].
  { intros i g Hi Hg. exact (proj1 (Forall_lookup _ _) Hfit i g Hg). }
  exists pages, pages'. split; [exact Hrun |]. split; [exact Hrun' |].
  unfold LCD_UpdateScreen in Hrun, Hrun'. rewrite Nat2Z.id in Hrun, Hrun'.
  apply bind_Ok in Hrun as (y_end & Hy & Hrun).
  apply bind_Ok in Hrun' as (y_end' & Hy' & Hrun').
  replace (S n) with (n + 1)%nat in Hy' by lia.
  rewrite LCD_y_end_split in Hy'. change 0 with (Z.of_nat 0) in Hy, Hy'.
  rewrite (LCD_y_end_agree (pTextFields ++ [f]) pTextFields) in Hy'.
  2: { intros i Hi. apply lookup_app_l. lia. }
  rewrite Hy in Hy'. cbn [bind LCD_y_end] in Hy'.
  apply bind_Ok in Hy' as (g & _ & Hy').
  apply bind_Ok in Hy' as (y_end1 & Hstore & Hy'). injection Hy' as <-.
  apply store_Ok in Hstore as [_ ->].
  eapply (LCD_rows_covers tables pTextFields (pTextFields ++ [f]) y_end _ n);
    [| exact Hrun | exact Hrun'].
  intros i Hi. split.
  - symmetry. apply lookup_app_l. exact Hi.
  - rewrite list_lookup_insert_ne by lia. reflexivity.
Qed.

End Pixels.

Lemma further_field_keeps_pixels_witness :
  exists pages pages',
    LCD_UpdateScreen (int16 := shift_out) [] [field "AKKU" 10 4]
      (Z.of_nat (length [field "AKKU" 10 4])) = Ok pages
    /\ LCD_UpdateScreen (int16 := shift_out) []
         ([field "AKKU" 10 4] ++ [field "VIRTA" 20 8])
         (Z.of_nat (S (length [field "AKKU" 10 4]))) = Ok pages'
    /\ Forall2 covers pages pages'.
Proof.
  apply (further_field_keeps_pixels (int16 := shift_out) []
           [field "AKKU" 10 4] (field "VIRTA" 20 8)).
  - simpl. lia.
  - repeat (apply List.Forall_cons;
            [eexists; split; [reflexivity | vm_compute; reflexivity] |]).
    apply List.Forall_nil.
Defined.

(** * The adjustment data *)

Lemma take_4_drop (l : list Z) (n : nat) :
  (n + 4 <= length l)%nat ->
  exists b0 b1 b2 b3,
    take 4 (drop n l) = [b0; b1; b2; b3]
    /\ l !! n = Some b0 /\ l !! S n = Some b1
    /\ l !! S (S n) = Some b2 /\ l !! S (S (S n)) = Some b3.
Proof.
  intros Hlen.
  destruct (lookup_lt_is_Some_2 l n) as (b0 & H0); [lia |].
  destruct (lookup_lt_is_Some_2 l (S n)) as (b1 & H1); [lia |].
  destruct (lookup_lt_is_Some_2 l (S (S n))) as (b2 & H2); [lia |].
  destruct (lookup_lt_is_Some_2 l (S (S (S n)))) as (b3 & H3); [lia |].
  exists b0, b1, b2, b3. split; [| auto].
  rewrite (drop_S _ _ _ H0), (drop_S _ _ _ H1), (drop_S _ _ _ H2), (drop_S _ _ _ H3).
  reflexivity.
Qed.

Lemma Adjustment_ReadFloatsFromFlash_bytes_exact (flash : list Z) (pFlash : Z)
    (pResult : list Z) :
  0 <= Adjustment.flash_index pFlash ->
  Adjustment.flash_index pFlash + 4 <= Z.of_nat (length flash) ->
  length pResult = 4%nat ->
  Adjustment.Adjustment_ReadFloatsFromFlash_bytes 4 0 flash pFlash pResult
  = Ok (take 4 (drop (Z.to_nat (Adjustment.flash_index pFlash)) flash), pFlash + 4).
Proof.
  intros Hp Hlen Hres.
  destruct (take_4_drop flash (Z.to_nat (Adjustment.flash_index pFlash)))
    as (b0 & b1 & b2 & b3 & -> & H0 & H1 & H2 & H3); [lia |].
  do 5 (destruct pResult as [| ? pResult]; try discriminate Hres).
  assert (Hload : forall (p : Z) (k : nat) (b : Z), p = pFlash + Z.of_nat k ->
            flash !! (Z.to_nat (Adjustment.flash_index pFlash) + k)%nat = Some b ->
            load "pFlash" flash (Adjustment.flash_index p) = Ok b).
  { intros p k b -> Hb. apply load_Ok. unfold Adjustment.flash_index in *.
    split; [lia |]. replace (Z.to_nat (pFlash + Z.of_nat k - 4096))
      with (Z.to_nat (pFlash - 4096) + k)%nat by lia. exact Hb. }
  cbn [Adjustment.Adjustment_ReadFloatsFromFlash_bytes].
  rewrite (Hload pFlash 0%nat b0); [| lia | rewrite Nat.add_0_r; exact H0].
  cbn [bind]. rewrite store_in_range by (simpl; lia). cbn [bind].
  rewrite (Hload (pFlash + 1) 1%nat b1); [| lia | rewrite Nat.add_1_r; exact H1].
  cbn [bind]. rewrite store_in_range by (simpl; lia). cbn [bind].
  rewrite (Hload (pFlash + 1 + 1) 2%nat b2);
    [| lia | replace (_ + 2)%nat with (S (S (Z.to_nat (Adjustment.flash_index pFlash))))
               by lia; exact H2].
  cbn [bind]. rewrite store_in_range by (simpl; lia). cbn [bind].
  rewrite (Hload (pFlash + 1 + 1 + 1) 3%nat b3);
    [| lia | replace (_ + 3)%nat with (S (S (S (Z.to_nat (Adjustment.flash_index pFlash)))))
               by lia; exact H3].
  cbn [bind]. rewrite store_in_range by (simpl; lia). cbn [bind].
  f_equal. f_equal. lia.
Qed.

Lemma Adjustment_ReadFloatsFromFlash_loop_exact (flash : list Z) (pFlash : Z) (n : nat) :
  forall (i : nat) (pFloats : list (list Z)) (result_ : list Z),
  0 <= Adjustment.flash_index pFlash ->
  Adjustment.flash_index pFlash + 4 * Z.of_nat (i + n) <= Z.of_nat (length flash) ->
  (i + n <= length pFloats)%nat -> length result_ = 4%nat ->
  exists pFloats',
    Adjustment.Adjustment_ReadFloatsFromFlash_loop n (Z.of_nat i) pFloats flash
      (pFlash + 4 * Z.of_nat i) result_ = Ok pFloats'
    /\ length pFloats' = length pFloats
    /\ forall (k : nat) (old : list Z), pFloats !! k = Some old ->
       pFloats' !! k
       = Some (if decide (i <= k < i + n)%nat
               then Adjustment.read_float flash pFlash k old else old).
Proof.
  induction n as [| n IH]; intros i pFloats result_ Hp Hflash Hlen Hres;
    cbn [Adjustment.Adjustment_ReadFloatsFromFlash_loop].
  - exists pFloats. split; [reflexivity |]. split; [reflexivity |].
    intros k old Hold. destruct (decide (i <= k < i + 0)%nat); [lia | exact Hold].
  - assert (Hidx : Z.to_nat (Adjustment.flash_index (pFlash + 4 * Z.of_nat i))
                   = (Z.to_nat (Adjustment.flash_index pFlash) + 4 * i)%nat).
    { unfold Adjustment.flash_index in *. lia. }
    destruct (take_4_drop flash (Z.to_nat (Adjustment.flash_index pFlash) + 4 * i))
      as (b0 & b1 & b2 & b3 & Etake & H0 & _); [lia |].
    assert (Efirst : load "pFlash" flash
                       (Adjustment.flash_index (pFlash + 4 * Z.of_nat i)) = Ok b0).
    { apply load_Ok. rewrite Hidx. split; [| exact H0].
      unfold Adjustment.flash_index in *. lia. }
    rewrite Efirst. cbn [bind].
    assert (Eread : forall old : list Z,
              Adjustment.read_float flash pFlash i old
              = if b0 =? 255 then old else [b0; b1; b2; b3]).
    { intros old. unfold Adjustment.read_float, Adjustment.flash_float.
      rewrite Etake. reflexivity. }
    replace (Z.of_nat i + 1) with (Z.of_nat (S i)) by lia.
    destruct (Z.eqb_spec b0 255) as [E255 | E255]; cbn [negb].
    + replace (pFlash + 4 * Z.of_nat i + 4) with (pFlash + 4 * Z.of_nat (S i)) by lia.
      destruct (IH (S i) pFloats result_) as (pFloats' & -> & Hlen' & Hfloats);
        try assumption; try lia.
      exists pFloats'. split; [reflexivity |]. split; [exact Hlen' |].
      intros k old Hold. rewrite (Hfloats k old Hold).
      destruct (decide (S i <= k < S i + n)%nat), (decide (i <= k < i + S n)%nat);
        try reflexivity; try lia.
      assert (k = i) as -> by lia. rewrite Eread.
      destruct (Z.eqb_spec b0 255); [reflexivity | contradiction].
    + rewrite Adjustment_ReadFloatsFromFlash_bytes_exact;
        [| unfold Adjustment.flash_index in *; lia
         | unfold Adjustment.flash_index in *; lia | exact Hres].
      cbn [bind fst snd]. rewrite Hidx, Etake.
      rewrite store_in_range by lia. cbn [bind].
      replace (pFlash + 4 * Z.of_nat i + 4) with (pFlash + 4 * Z.of_nat (S i)) by lia.
      destruct (IH (S i) (<[Z.to_nat (Z.of_nat i) := [b0; b1; b2; b3]]> pFloats)
                  [b0; b1; b2; b3])
        as (pFloats' & -> & Hlen' & Hfloats);
        try assumption; try (rewrite ?length_insert; lia); [reflexivity |].
      exists pFloats'. split; [reflexivity |].
      split; [rewrite Hlen'; apply length_insert |].
      intros k old Hold. rewrite Nat2Z.id in Hfloats.
      destruct (Nat.eq_dec k i) as [-> | Hne].
      * rewrite (Hfloats i [b0; b1; b2; b3]).
        2: { apply list_lookup_insert_eq. exact (lookup_lt_Some _ _ _ Hold). }
        destruct (decide (S i <= i < S i + n)%nat); [lia |].
        destruct (decide (i <= i < i + S n)%nat); [| lia].
        rewrite Eread. destruct (Z.eqb_spec b0 255); [contradiction | reflexivity].
      * rewrite (Hfloats k old).
        2: { rewrite list_lookup_insert_ne by congruence. exact Hold. }
        destruct (decide (S i <= k < S i + n)%nat), (decide (i <= k < i + S n)%nat);
          try reflexivity; lia.
Qed.

Lemma ReadFloatsFromFlash_floats_aux (pFloats : list (list Z)) (flash : list Z)
    (pFlash floatCount : Z) :
  0x1000 <= pFlash -> 0 <= floatCount <= Z.of_nat (length pFloats) ->
  Adjustment.flash_index pFlash + 4 * floatCount <= Z.of_nat (length flash) ->
  exists pFloats',
    Adjustment.Adjustment_ReadFloatsFromFlash pFloats flash pFlash floatCount
      = Ok pFloats'
    /\ length pFloats' = length pFloats
    /\ forall (i : nat) (old : list Z), pFloats !! i = Some old ->
       pFloats' !! i
       = Some (if decide (Z.of_nat i < floatCount)
               then Adjustment.read_float flash pFlash i old else old).
Proof.
  intros Hp Hcount Hflash. unfold Adjustment.Adjustment_ReadFloatsFromFlash.
  destruct (Adjustment_ReadFloatsFromFlash_loop_exact flash pFlash (Z.to_nat floatCount)
              0 pFloats [0; 0; 0; 0]) as (pFloats' & Hrun & Hlen & Hfloats).
  { unfold Adjustment.flash_index. lia. }
  { unfold Adjustment.flash_index in *. lia. }
  { lia. }
  { reflexivity. }
  change (Z.of_nat 0) with 0 in Hrun. rewrite Z.mul_0_r, Z.add_0_r in Hrun.
  exists pFloats'. split; [exact Hrun |]. split; [exact Hlen |].
  intros i old Hold. rewrite (Hfloats i old Hold).
  destruct (decide (0 <= i < 0 + Z.to_nat floatCount)%nat),
    (decide (Z.of_nat i < floatCount)); try reflexivity; lia.
Qed.

(** X18.  [Adjustment_ReadFloatsFromFlash] takes a float from the flash
    memory unless the first of its four bytes there is [0xFF], the mark
    of erased flash memory; such a float, and every float behind the
    first [floatCount], keeps the value it had. *)
Theorem ReadFloatsFromFlash_floats (pFloats : list (list Z)) (flash : list Z)
    (pFlash floatCount : Z) :
  0x1000 <= pFlash -> 0 <= floatCount <= Z.of_nat (length pFloats) ->
  Adjustment.flash_index pFlash + 4 * floatCount <= Z.of_nat (length flash) ->
  exists pFloats',
    Adjustment.Adjustment_ReadFloatsFromFlash pFloats flash pFlash floatCount
      = Ok pFloats'
    /\ length pFloats' = length pFloats
    /\ forall (i : nat) (old : list Z), pFloats !! i = Some old ->
       pFloats' !! i
       = Some (if decide (Z.of_nat i < floatCount)
               then Adjustment.read_float flash pFlash i old else old).
Proof. exact (ReadFloatsFromFlash_floats_aux pFloats flash pFlash floatCount). Qed.

Lemma ReadFloatsFromFlash_floats_witness :
  exists pFloats',
    Adjustment.Adjustment_ReadFloatsFromFlash Adjustment.ADJUSTMENT_COEFFICIENTS
      ([1; 2; 3; 4; 255; 6; 7; 8] ++ replicate 32 255) 0x1000 10 = Ok pFloats'
    /\ length pFloats' = length Adjustment.ADJUSTMENT_COEFFICIENTS
    /\ forall (i : nat) (old : list Z),
       Adjustment.ADJUSTMENT_COEFFICIENTS !! i = Some old ->
       pFloats' !! i
       = Some (if decide (Z.of_nat i < 10)
               then Adjustment.read_float ([1; 2; 3; 4; 255; 6; 7; 8] ++ replicate 32 255)
                      0x1000 i old
               else old).
Proof.
  apply (ReadFloatsFromFlash_floats Adjustment.ADJUSTMENT_COEFFICIENTS
           ([1; 2; 3; 4; 255; 6; 7; 8] ++ replicate 32 255) 0x1000 10).
  - lia.
  - simpl. lia.
  - vm_compute. discriminate.
Defined.

Ltac floats_skeleton a Ha :=
  let Hlen := fresh "Hlen" in
  let Hall := fresh "Hall" in
  destruct Ha as [Hlen Hall];
  do 11 (destruct a as [| ? a]; try discriminate Hlen);
  repeat (apply Forall_cons in Hall as [? Hall]);
  repeat match goal with
         | H : length ?f = 4%nat |- _ =>
             do 5 (destruct f as [| ? f]; try discriminate H); clear H
         end;
  clear Hlen Hall.

(** Forty bytes copied are ten floats copied. *)
Lemma Adjustment_GetCurrentAdjustment_loop_copies (readByte currentByte : list (list Z)) :
  Adjustment.floats_ok readByte -> Adjustment.floats_ok currentByte ->
  Adjustment.Adjustment_GetCurrentAdjustment_loop 40 0 readByte currentByte = Ok readByte.
Proof.
  intros Hsrc Hdst.
  floats_skeleton readByte Hsrc. floats_skeleton currentByte Hdst.
  vm_compute. reflexivity.
Qed.

Lemma ADJUSTMENT_tables_ok :
  Adjustment.floats_ok Adjustment.ADJUSTMENT_COEFFICIENTS
  /\ Adjustment.floats_ok Adjustment.ADJUSTMENT_OFFSETS.
Proof. split; (split; [reflexivity | repeat constructor]). Qed.

Lemma read_float_erased (flash : list Z) (pFlash : Z) (i : nat) (old : list Z) :
  flash !! (Z.to_nat (Adjustment.flash_index pFlash) + 4 * i)%nat = Some 0xFF ->
  Adjustment.read_float flash pFlash i old = old.
Proof.
  intros Hfirst. unfold Adjustment.read_float, Adjustment.flash_float.
  rewrite (drop_S _ _ _ Hfirst). cbn [take]. reflexivity.
Qed.

Lemma GetCurrentAdjustment_floats_aux (pMeasInfo : Adjustment.T_MeasureInformation)
    (flash : list Z) :
  Adjustment.floats_ok (Adjustment.adjustmentCoeff pMeasInfo) ->
  Adjustment.floats_ok (Adjustment.adjustmentOffset pMeasInfo) ->
  (0x40 + 40 <= length flash)%nat ->
  exists pMeasInfo',
    Adjustment.Adjustment_GetCurrentAdjustment pMeasInfo flash = Ok pMeasInfo'
    /\ Adjustment.rawMeas pMeasInfo' = Adjustment.rawMeas pMeasInfo
    /\ Adjustment.measResults pMeasInfo' = Adjustment.measResults pMeasInfo
    /\ (forall (i : nat) (factory : list Z),
          Adjustment.ADJUSTMENT_COEFFICIENTS !! i = Some factory ->
          Adjustment.adjustmentCoeff pMeasInfo' !! i
          = Some (Adjustment.read_float flash
                    Adjustment.CONVERSION_COEFFICIENT_ADDRESS i factory))
    /\ (forall (i : nat) (factory : list Z),
          Adjustment.ADJUSTMENT_OFFSETS !! i = Some factory ->
          Adjustment.adjustmentOffset pMeasInfo' !! i
          = Some (Adjustment.read_float flash
                    Adjustment.CONVERSION_OFFSET_ADDRESS i factory))
    /\ ((forall k : nat, (k < 0x40 + 40)%nat -> flash !! k = Some 0xFF) ->
        Adjustment.adjustmentCoeff pMeasInfo' = Adjustment.ADJUSTMENT_COEFFICIENTS
        /\ Adjustment.adjustmentOffset pMeasInfo' = Adjustment.ADJUSTMENT_OFFSETS).
Proof.
  intros Hcoeff Hoffset Hflash.
  destruct ADJUSTMENT_tables_ok as [Hc Ho].
  unfold Adjustment.Adjustment_GetCurrentAdjustment.
  rewrite (Adjustment_GetCurrentAdjustment_loop_copies _ _ Hc Hcoeff). cbn [bind].
  rewrite (Adjustment_GetCurrentAdjustment_loop_copies _ _ Ho Hoffset). cbn [bind].
  unfold Adjustment.Adjustment_ReadAdjustmentFromFlash.
  cbn [Adjustment.adjustmentCoeff Adjustment.adjustmentOffset Adjustment.rawMeas
       Adjustment.measResults].
  destruct (ReadFloatsFromFlash_floats_aux Adjustment.ADJUSTMENT_COEFFICIENTS flash
              Adjustment.CONVERSION_COEFFICIENT_ADDRESS 10)
    as (coeff & -> & Hclen & Hcfloats);
    [unfold Adjustment.CONVERSION_COEFFICIENT_ADDRESS; lia | simpl; lia
     | unfold Adjustment.flash_index, Adjustment.CONVERSION_COEFFICIENT_ADDRESS; lia |].
  cbn [bind].
  destruct (ReadFloatsFromFlash_floats_aux Adjustment.ADJUSTMENT_OFFSETS flash
              Adjustment.CONVERSION_OFFSET_ADDRESS 10)
    as (offset & -> & Holen & Hofloats);
    [unfold Adjustment.CONVERSION_OFFSET_ADDRESS; lia | simpl; lia
     | unfold Adjustment.flash_index, Adjustment.CONVERSION_OFFSET_ADDRESS; lia |].
  cbn [bind]. eexists. split; [reflexivity |].
  cbn [Adjustment.adjustmentCoeff Adjustment.adjustmentOffset Adjustment.rawMeas
       Adjustment.measResults].
  assert (Hten : forall (a : list (list Z)) (i : nat) (f : list Z),
            length a = 10%nat -> a !! i = Some f -> Z.of_nat i < 10).
  { intros a i f Hlen Hi. apply lookup_lt_Some in Hi. lia. }
  split; [reflexivity |]. split; [reflexivity |].
  split; [| split].
  - intros i factory Hi. rewrite (Hcfloats i factory Hi).
    destruct (decide (Z.of_nat i < 10)) as [_ | Hge]; [reflexivity |].
    exfalso. apply Hge. exact (Hten _ _ _ (proj1 Hc) Hi).
  - intros i factory Hi. rewrite (Hofloats i factory Hi).
    destruct (decide (Z.of_nat i < 10)) as [_ | Hge]; [reflexivity |].
    exfalso. apply Hge. exact (Hten _ _ _ (proj1 Ho) Hi).
  - intros Herased. split; apply list_eq; intros i.
    + destruct (Adjustment.ADJUSTMENT_COEFFICIENTS !! i) as [factory |] eqn:Hi.
      * pose proof (Hten _ _ _ (proj1 Hc) Hi) as Hlt.
        rewrite (Hcfloats i factory Hi).
        destruct (decide (Z.of_nat i < 10)); [| lia].
        rewrite read_float_erased; [reflexivity |]. apply Herased.
        unfold Adjustment.flash_index, Adjustment.CONVERSION_COEFFICIENT_ADDRESS. lia.
      * apply lookup_ge_None. apply lookup_ge_None in Hi. lia.
    + destruct (Adjustment.ADJUSTMENT_OFFSETS !! i) as [factory |] eqn:Hi.
      * pose proof (Hten _ _ _ (proj1 Ho) Hi) as Hlt.
        rewrite (Hofloats i factory Hi).
        destruct (decide (Z.of_nat i < 10)); [| lia].
        rewrite read_float_erased; [reflexivity |]. apply Herased.
        unfold Adjustment.flash_index, Adjustment.CONVERSION_OFFSET_ADDRESS. lia.
      * apply lookup_ge_None. apply lookup_ge_None in Hi. lia.
Qed.

(** X19.  [Adjustment_GetCurrentAdjustment] does not depend on the
    adjustment data it finds in [measInfo]: every coefficient and every
    offset becomes the float of the flash memory at its place, or, where
    the flash memory has [0xFF] as the first byte, the factory value; the
    raw values and the results are left alone.  With erased flash memory
    the adjustment data are the factory tables. *)
Theorem GetCurrentAdjustment_floats (pMeasInfo : Adjustment.T_MeasureInformation)
    (flash : list Z) :
  Adjustment.floats_ok (Adjustment.adjustmentCoeff pMeasInfo) ->
  Adjustment.floats_ok (Adjustment.adjustmentOffset pMeasInfo) ->
  (0x40 + 40 <= length flash)%nat ->
  exists pMeasInfo',
    Adjustment.Adjustment_GetCurrentAdjustment pMeasInfo flash = Ok pMeasInfo'
    /\ Adjustment.rawMeas pMeasInfo' = Adjustment.rawMeas pMeasInfo
    /\ Adjustment.measResults pMeasInfo' = Adjustment.measResults pMeasInfo
    /\ (forall (i : nat) (factory : list Z),
          Adjustment.ADJUSTMENT_COEFFICIENTS !! i = Some factory ->
          Adjustment.adjustmentCoeff pMeasInfo' !! i
          = Some (Adjustment.read_float flash
                    Adjustment.CONVERSION_COEFFICIENT_ADDRESS i factory))
    /\ (forall (i : nat) (factory : list Z),
          Adjustment.ADJUSTMENT_OFFSETS !! i = Some factory ->
          Adjustment.adjustmentOffset pMeasInfo' !! i
          = Some (Adjustment.read_float flash
                    Adjustment.CONVERSION_OFFSET_ADDRESS i factory))
    /\ ((forall k : nat, (k < 0x40 + 40)%nat -> flash !! k = Some 0xFF) ->
        Adjustment.adjustmentCoeff pMeasInfo' = Adjustment.ADJUSTMENT_COEFFICIENTS
        /\ Adjustment.adjustmentOffset pMeasInfo' = Adjustment.ADJUSTMENT_OFFSETS).
Proof. exact (GetCurrentAdjustment_floats_aux pMeasInfo flash). Qed.

Lemma GetCurrentAdjustment_floats_witness :
  exists pMeasInfo',
    Adjustment.Adjustment_GetCurrentAdjustment Adjustment.example_measInfo
      (replicate 128 0xFF) = Ok pMeasInfo'
    /\ Adjustment.rawMeas pMeasInfo' = Adjustment.rawMeas Adjustment.example_measInfo
    /\ Adjustment.measResults pMeasInfo'
       = Adjustment.measResults Adjustment.example_measInfo
    /\ (forall (i : nat) (factory : list Z),
          Adjustment.ADJUSTMENT_COEFFICIENTS !! i = Some factory ->
          Adjustment.adjustmentCoeff pMeasInfo' !! i
          = Some (Adjustment.read_float (replicate 128 0xFF)
                    Adjustment.CONVERSION_COEFFICIENT_ADDRESS i factory))
    /\ (forall (i : nat) (factory : list Z),
          Adjustment.ADJUSTMENT_OFFSETS !! i = Some factory ->
          Adjustment.adjustmentOffset pMeasInfo' !! i
          = Some (Adjustment.read_float (replicate 128 0xFF)
                    Adjustment.CONVERSION_OFFSET_ADDRESS i factory))
    /\ ((forall k : nat, (k < 0x40 + 40)%nat -> replicate 128 0xFF !! k = Some 0xFF) ->
        Adjustment.adjustmentCoeff pMeasInfo' = Adjustment.ADJUSTMENT_COEFFICIENTS
        /\ Adjustment.adjustmentOffset pMeasInfo' = Adjustment.ADJUSTMENT_OFFSETS).
Proof.
  apply (GetCurrentAdjustment_floats Adjustment.example_measInfo (replicate 128 0xFF)).
  - split; [reflexivity | repeat constructor].
  - split; [reflexivity | repeat constructor].
  - simpl. lia.
Defined.

(** ** Saving the adjustment data *)

Lemma byte_load_concat (array : string) (a : list (list Z)) :
  Forall (fun f => length f = 4%nat) a ->
  forall (k : nat) (b : Z),
  concat a !! k = Some b ->
  Adjustment.byte_load array a (Z.of_nat k) = Ok b.
Proof.
  induction 1 as [| f a Hf Ha IH]; intros k b Hk; [discriminate |].
  do 5 (destruct f as [| ? f]; try discriminate Hf).
  unfold Adjustment.byte_load.
  destruct (decide (k < 4)%nat) as [Hlt | Hge].
  - rewrite (Z.div_small (Z.of_nat k) 4) by lia.
    rewrite (Z.mod_small (Z.of_nat k) 4) by lia.
    change (load array ([z; z0; z1; z2] :: a) 0) with (Ok (A := list Z) [z; z0; z1; z2]).
    cbn [bind]. apply load_Ok. rewrite Nat2Z.id. split; [lia |].
    do 4 (destruct k as [| k]; [exact Hk |]). lia.
  - assert (Ek : k = (4 + (k - 4))%nat) by lia.
    rewrite Ek in Hk. cbn [concat app] in Hk.
    change (z :: z0 :: z1 :: z2 :: concat a) with ([z; z0; z1; z2] ++ concat a) in Hk.
    rewrite lookup_app_r in Hk by (simpl; lia).
    replace (4 + (k - 4) - length [z; z0; z1; z2])%nat with (k - 4)%nat in Hk
      by (simpl; lia).
    specialize (IH (k - 4)%nat b Hk). unfold Adjustment.byte_load in IH.
    apply bind_Ok in IH as (g & Hg & Hb).
    apply load_Ok in Hg as [_ Hg].
    assert (Ediv : Z.of_nat k / 4 = Z.of_nat (k - 4) / 4 + 1)
      by (Z.div_mod_to_equations; lia).
    assert (Emod : Z.of_nat k mod 4 = Z.of_nat (k - 4) mod 4)
      by (Z.div_mod_to_equations; lia).
    rewrite Ediv, Emod.
    assert (Eg : load array ([z; z0; z1; z2] :: a) (Z.of_nat (k - 4) / 4 + 1) = Ok g).
    { apply load_Ok. split; [Z.div_mod_to_equations; lia |].
      replace (Z.to_nat (Z.of_nat (k - 4) / 4 + 1))
        with (S (Z.to_nat (Z.of_nat (k - 4) / 4)))
        by (Z.div_mod_to_equations; lia).
      exact Hg. }
    rewrite Eg. cbn [bind]. exact Hb.
Qed.

Lemma Adjustment_WriteToFlash_loop_exact (pCharFloats : list (list Z)) (pFlash : Z)
    (n : nat) :
  Forall (fun f => length f = 4%nat) pCharFloats ->
  0 <= Adjustment.flash_index pFlash ->
  forall (i : nat) (flash : list Z),
  (i + n <= length (concat pCharFloats))%nat ->
  Adjustment.flash_index pFlash + Z.of_nat (i + n) <= Z.of_nat (length flash) ->
  exists flash',
    Adjustment.Adjustment_WriteToFlash_loop n (Z.of_nat i) pCharFloats flash pFlash
      = Ok flash'
    /\ length flash' = length flash
    /\ forall j : nat,
       flash' !! j
       = if decide (Z.to_nat (Adjustment.flash_index pFlash) + i <= j
                    < Z.to_nat (Adjustment.flash_index pFlash) + i + n)%nat
         then concat pCharFloats !! (j - Z.to_nat (Adjustment.flash_index pFlash))%nat
         else flash !! j.
Proof.
  intros Hfloats Hp. induction n as [| n IH]; intros i flash Hsrc Hflash;
    cbn [Adjustment.Adjustment_WriteToFlash_loop].
  - exists flash. split; [reflexivity |]. split; [reflexivity |].
    intros j. destruct (decide _); [lia | reflexivity].
  - destruct (lookup_lt_is_Some_2 (concat pCharFloats) i) as (b & Hb); [lia |].
    rewrite (byte_load_concat _ _ Hfloats i b Hb). cbn [bind].
    assert (Eidx : Z.to_nat (Adjustment.flash_index (pFlash + Z.of_nat i))
                   = (Z.to_nat (Adjustment.flash_index pFlash) + i)%nat).
    { unfold Adjustment.flash_index in *. lia. }
    rewrite store_in_range by (unfold Adjustment.flash_index in *; lia).
    cbn [bind]. rewrite Eidx.
    replace (Z.of_nat i + 1) with (Z.of_nat (S i)) by lia.
    destruct (IH (S i) (<[(Z.to_nat (Adjustment.flash_index pFlash) + i)%nat := b]> flash))
      as (flash' & -> & Hlen & Hbytes); [lia | rewrite length_insert; lia |].
    exists flash'. split; [reflexivity |].
    split; [rewrite Hlen; apply length_insert |].
    intros j. rewrite Hbytes.
    destruct (decide (Z.to_nat (Adjustment.flash_index pFlash) + S i <= j
                      < Z.to_nat (Adjustment.flash_index pFlash) + S i + n)%nat) as [Hin | Hout].
    + destruct (decide _); [reflexivity | lia].
    + destruct (Nat.eq_dec j (Z.to_nat (Adjustment.flash_index pFlash) + i)%nat)
        as [-> | Hne].
      * rewrite list_lookup_insert_eq by lia.
        destruct (decide _); [| lia].
        replace (Z.to_nat (Adjustment.flash_index pFlash) + i
                 - Z.to_nat (Adjustment.flash_index pFlash))%nat with i by lia.
        symmetry. exact Hb.
      * rewrite list_lookup_insert_ne by congruence.
        destruct (decide _); [lia | reflexivity].
Qed.

Lemma take_4_agree (l l' : list Z) (m : nat) :
  (forall k : nat, (k < 4)%nat -> l !! (m + k)%nat = l' !! (m + k)%nat) ->
  take 4 (drop m l) = take 4 (drop m l').
Proof.
  intros Hagree. apply list_eq. intros k.
  destruct (decide (k < 4)%nat) as [Hk | Hk].
  - rewrite !lookup_take_lt by exact Hk. rewrite !lookup_drop. apply Hagree. exact Hk.
  - rewrite !lookup_take_ge by lia. reflexivity.
Qed.

Lemma take_4_exact (l : list Z) (m : nat) (f : list Z) :
  length f = 4%nat ->
  (forall k : nat, (k < 4)%nat -> l !! (m + k)%nat = f !! k) ->
  take 4 (drop m l) = f.
Proof.
  intros Hf Hbytes. apply list_eq. intros k.
  destruct (decide (k < 4)%nat) as [Hk | Hk].
  - rewrite lookup_take_lt by exact Hk. rewrite lookup_drop. apply Hbytes. exact Hk.
  - rewrite lookup_take_ge by lia. symmetry. apply lookup_ge_None. lia.
Qed.

Lemma concat_floats_lookup (a : list (list Z)) :
  Forall (fun f => length f = 4%nat) a ->
  forall (i k : nat) (f : list Z),
  a !! i = Some f -> (k < 4)%nat -> concat a !! (4 * i + k)%nat = f !! k.
Proof.
  induction 1 as [| g a Hg Ha IH]; intros i k f Hi Hk; [discriminate |].
  cbn [concat]. destruct i as [| i].
  - injection Hi as <-. rewrite lookup_app_l by lia. reflexivity.
  - rewrite lookup_app_r by lia. rewrite Hg.
    replace (4 * S i + k - 4)%nat with (4 * i + k)%nat by lia.
    apply IH; assumption.
Qed.

Lemma first_byte_cleared_ok (a : list (list Z)) :
  Adjustment.floats_ok a ->
  Adjustment.floats_ok (Adjustment.first_byte_cleared a)
  /\ Adjustment.byte_store "pCharFloats" a 0 0
     = Ok (Adjustment.first_byte_cleared a).
Proof.
  intros [Hlen Hall]. destruct a as [| f a]; [discriminate |].
  apply Forall_cons in Hall as [Hf Hall].
  do 5 (destruct f as [| ? f]; try discriminate Hf).
  split; [| reflexivity].
  split; [exact Hlen |]. constructor; [reflexivity | exact Hall].
Qed.

Lemma Adjustment_WriteToFlash_exact (pFloats : list (list Z)) (flash : list Z)
    (pFlash : Z) :
  Adjustment.floats_ok pFloats ->
  0 <= Adjustment.flash_index pFlash ->
  Adjustment.flash_index pFlash + 40 <= Z.of_nat (length flash) ->
  exists flash',
    Adjustment.Adjustment_WriteToFlash pFloats flash pFlash 10
      = Ok (Adjustment.first_byte_cleared pFloats, flash')
    /\ length flash' = length flash
    /\ (forall (i : nat) (f : list Z),
          Adjustment.first_byte_cleared pFloats !! i = Some f ->
          Adjustment.flash_float flash' pFlash i = f)
    /\ (forall j : nat,
          ~ (Z.to_nat (Adjustment.flash_index pFlash) <= j
             < Z.to_nat (Adjustment.flash_index pFlash) + 40)%nat ->
          flash' !! j = flash !! j).
Proof.
  intros Hfloats Hp Hflash.
  destruct (first_byte_cleared_ok pFloats Hfloats) as [[Hlen Hall] Estore].
  unfold Adjustment.Adjustment_WriteToFlash. rewrite Estore. cbn [bind].
  assert (Hconcat : length (concat (Adjustment.first_byte_cleared pFloats)) = 40%nat).
  { rewrite length_concat.
    rewrite (sum_list_fmap_same 4) by exact Hall. rewrite Hlen. reflexivity. }
  destruct (Adjustment_WriteToFlash_loop_exact (Adjustment.first_byte_cleared pFloats)
              pFlash 40 Hall Hp 0 flash) as (flash' & Hrun & Hlen' & Hbytes);
    [lia | lia |].
  change (Z.to_nat (10 * 4)) with 40%nat. change (Z.of_nat 0) with 0 in Hrun.
  rewrite Hrun. cbn [bind].
  exists flash'. split; [reflexivity |]. split; [exact Hlen' |]. split.
  - intros i f Hi. unfold Adjustment.flash_float.
    assert (Hf : length f = 4%nat).
    { exact (proj1 (Forall_lookup _ _) Hall i f Hi). }
    apply take_4_exact; [exact Hf |]. intros k Hk. rewrite Hbytes.
    apply lookup_lt_Some in Hi as Hilt.
    destruct (decide _) as [_ | Hout]; [| lia].
    replace (Z.to_nat (Adjustment.flash_index pFlash) + 4 * i + k
             - Z.to_nat (Adjustment.flash_index pFlash))%nat
      with (4 * i + k)%nat by lia.
    apply concat_floats_lookup; assumption.
  - intros j Hj. rewrite Hbytes. destruct (decide _) as [Hin | _]; [lia | reflexivity].
Qed.

Lemma Adjustment_SaveAdjustmentToFlash_exact
    (pMeasInfo : Adjustment.T_MeasureInformation) (flash : list Z) :
  Adjustment.floats_ok (Adjustment.adjustmentCoeff pMeasInfo) ->
  Adjustment.floats_ok (Adjustment.adjustmentOffset pMeasInfo) ->
  (0x40 + 40 <= length flash)%nat ->
  exists flash',
    Adjustment.Adjustment_SaveAdjustmentToFlash pMeasInfo flash
    = Ok (Adjustment.mkMeasureInformation
            (Adjustment.rawMeas pMeasInfo) (Adjustment.measResults pMeasInfo)
            (Adjustment.first_byte_cleared (Adjustment.adjustmentCoeff pMeasInfo))
            (Adjustment.first_byte_cleared (Adjustment.adjustmentOffset pMeasInfo)),
          flash')
    /\ length flash' = length flash
    /\ (forall (i : nat) (f : list Z),
          Adjustment.first_byte_cleared (Adjustment.adjustmentCoeff pMeasInfo) !! i
          = Some f ->
          Adjustment.flash_float flash' Adjustment.CONVERSION_COEFFICIENT_ADDRESS i = f)
    /\ (forall (i : nat) (f : list Z),
          Adjustment.first_byte_cleared (Adjustment.adjustmentOffset pMeasInfo) !! i
          = Some f ->
          Adjustment.flash_float flash' Adjustment.CONVERSION_OFFSET_ADDRESS i = f)
    /\ (forall j : nat, ~ (j < 40)%nat -> ~ (0x40 <= j < 0x40 + 40)%nat ->
          flash' !! j = flash !! j).
Proof.
  intros Hcoeff Hoffset Hflash. unfold Adjustment.Adjustment_SaveAdjustmentToFlash.
  destruct (Adjustment_WriteToFlash_exact (Adjustment.adjustmentCoeff pMeasInfo) flash
              Adjustment.CONVERSION_COEFFICIENT_ADDRESS Hcoeff)
    as (flash1 & -> & Hlen1 & Hfloats1 & Hrest1);
    [vm_compute; discriminate | change (0 + 40 <= Z.of_nat (length flash)); lia |].
  cbn [bind fst snd].
  destruct (Adjustment_WriteToFlash_exact (Adjustment.adjustmentOffset pMeasInfo) flash1
              Adjustment.CONVERSION_OFFSET_ADDRESS Hoffset)
    as (flash2 & -> & Hlen2 & Hfloats2 & Hrest2);
    [vm_compute; discriminate | change (64 + 40 <= Z.of_nat (length flash1)); lia |].
  cbn [bind fst snd].
  change (Z.to_nat (Adjustment.flash_index Adjustment.CONVERSION_COEFFICIENT_ADDRESS))
    with 0%nat in *.
  change (Z.to_nat (Adjustment.flash_index Adjustment.CONVERSION_OFFSET_ADDRESS))
    with 64%nat in *.
  exists flash2. split; [reflexivity |]. split; [congruence |].
  split; [| split; [exact Hfloats2 |]].
  - intros i f Hi. rewrite <- (Hfloats1 i f Hi).
    unfold Adjustment.flash_float.
    change (Z.to_nat (Adjustment.flash_index Adjustment.CONVERSION_COEFFICIENT_ADDRESS))
      with 0%nat.
    apply take_4_agree. intros k Hk. apply Hrest2.
    apply lookup_lt_Some in Hi.
    destruct (first_byte_cleared_ok _ Hcoeff) as [[Hl _] _]. lia.
  - intros j Hj1 Hj2. rewrite Hrest2 by lia. apply Hrest1. lia.
Qed.

(** X20.  Saving changes what it saves.  [Adjustment_SaveAdjustmentToFlash]
    clears the first byte of the first coefficient and of the first
    offset in [measInfo] (the write that is meant to erase the flash
    memory goes to the floats), leaves the rest of [measInfo] as it is,
    and stores the forty bytes of either array, as they then are, from
    [0x1000] and from [0x1040] on; no other byte of the flash memory is
    written. *)
Theorem SaveAdjustmentToFlash_effect (pMeasInfo : Adjustment.T_MeasureInformation)
    (flash : list Z) :
  Adjustment.floats_ok (Adjustment.adjustmentCoeff pMeasInfo) ->
  Adjustment.floats_ok (Adjustment.adjustmentOffset pMeasInfo) ->
  (0x40 + 40 <= length flash)%nat ->
  exists flash',
    Adjustment.Adjustment_SaveAdjustmentToFlash pMeasInfo flash
    = Ok (Adjustment.mkMeasureInformation
            (Adjustment.rawMeas pMeasInfo) (Adjustment.measResults pMeasInfo)
            (Adjustment.first_byte_cleared (Adjustment.adjustmentCoeff pMeasInfo))
            (Adjustment.first_byte_cleared (Adjustment.adjustmentOffset pMeasInfo)),
          flash')
    /\ length flash' = length flash
    /\ (forall (i : nat) (f : list Z),
          Adjustment.first_byte_cleared (Adjustment.adjustmentCoeff pMeasInfo) !! i
          = Some f ->
          Adjustment.flash_float flash' Adjustment.CONVERSION_COEFFICIENT_ADDRESS i = f)
    /\ (forall (i : nat) (f : list Z),
          Adjustment.first_byte_cleared (Adjustment.adjustmentOffset pMeasInfo) !! i
          = Some f ->
          Adjustment.flash_float flash' Adjustment.CONVERSION_OFFSET_ADDRESS i = f)
    /\ (forall j : nat, ~ (j < 40)%nat -> ~ (0x40 <= j < 0x40 + 40)%nat ->
          flash' !! j = flash !! j).
Proof. exact (Adjustment_SaveAdjustmentToFlash_exact pMeasInfo flash). Qed.

Lemma SaveAdjustmentToFlash_effect_witness :
  exists flash',
    Adjustment.Adjustment_SaveAdjustmentToFlash Adjustment.example_measInfo
      (replicate 128 0xFF)
    = Ok (Adjustment.mkMeasureInformation
            (Adjustment.rawMeas Adjustment.example_measInfo)
            (Adjustment.measResults Adjustment.example_measInfo)
            (Adjustment.first_byte_cleared
               (Adjustment.adjustmentCoeff Adjustment.example_measInfo))
            (Adjustment.first_byte_cleared
               (Adjustment.adjustmentOffset Adjustment.example_measInfo)),
          flash')
    /\ length flash' = length (replicate 128 0xFF)
    /\ (forall (i : nat) (f : list Z),
          Adjustment.first_byte_cleared
            (Adjustment.adjustmentCoeff Adjustment.example_measInfo) !! i = Some f ->
          Adjustment.flash_float flash' Adjustment.CONVERSION_COEFFICIENT_ADDRESS i = f)
    /\ (forall (i : nat) (f : list Z),
          Adjustment.first_byte_cleared
            (Adjustment.adjustmentOffset Adjustment.example_measInfo) !! i = Some f ->
          Adjustment.flash_float flash' Adjustment.CONVERSION_OFFSET_ADDRESS i = f)
    /\ (forall j : nat, ~ (j < 40)%nat -> ~ (0x40 <= j < 0x40 + 40)%nat ->
          flash' !! j = replicate 128 0xFF !! j).
Proof.
  apply (SaveAdjustmentToFlash_effect Adjustment.example_measInfo (replicate 128 0xFF)).
  - split; [reflexivity | repeat constructor].
  - split; [reflexivity | repeat constructor].
  - simpl. lia.
Defined.

Lemma read_float_saved (flash : list Z) (pFlash : Z) (i : nat) (f factory : list Z) :
  length f = 4%nat -> Adjustment.flash_float flash pFlash i = f ->
  Adjustment.read_float flash pFlash i factory
  = if decide (head f = Some 0xFF) then factory else f.
Proof.
  intros Hf Hflash. unfold Adjustment.read_float. rewrite Hflash.
  destruct f as [| first f]; [discriminate |]. cbn [head].
  destruct (Z.eqb_spec first 255) as [-> | Hne].
  - destruct (decide (Some 255 = Some 255)); [reflexivity | contradiction].
  - destruct (decide (Some first = Some 255)) as [E | _]; [congruence | reflexivity].
Qed.

(** X21.  Saved and read back.  The adjustment data that
    [Adjustment_SaveAdjustmentToFlash] has stored are what
    [Adjustment_GetCurrentAdjustment] reads afterwards, whatever
    [measInfo] holds then, but for the floats whose first byte is [0xFF]:
    these read as erased flash memory and come back as their factory
    values. *)
Theorem saved_adjustment_read_back (pMeasInfo pMeasInfo0 : Adjustment.T_MeasureInformation)
    (flash : list Z) :
  Adjustment.floats_ok (Adjustment.adjustmentCoeff pMeasInfo) ->
  Adjustment.floats_ok (Adjustment.adjustmentOffset pMeasInfo) ->
  Adjustment.floats_ok (Adjustment.adjustmentCoeff pMeasInfo0) ->
  Adjustment.floats_ok (Adjustment.adjustmentOffset pMeasInfo0) ->
  (0x40 + 40 <= length flash)%nat ->
  exists pMeasInfo1 flash1 pMeasInfo2,
    Adjustment.Adjustment_SaveAdjustmentToFlash pMeasInfo flash
      = Ok (pMeasInfo1, flash1)
    /\ Adjustment.Adjustment_GetCurrentAdjustment pMeasInfo0 flash1 = Ok pMeasInfo2
    /\ (forall (i : nat) (f factory : list Z),
          Adjustment.adjustmentCoeff pMeasInfo1 !! i = Some f ->
          Adjustment.ADJUSTMENT_COEFFICIENTS !! i = Some factory ->
          Adjustment.adjustmentCoeff pMeasInfo2 !! i
          = Some (if decide (head f = Some 0xFF) then factory else f))
    /\ (forall (i : nat) (f factory : list Z),
          Adjustment.adjustmentOffset pMeasInfo1 !! i = Some f ->
          Adjustment.ADJUSTMENT_OFFSETS !! i = Some factory ->
          Adjustment.adjustmentOffset pMeasInfo2 !! i
          = Some (if decide (head f = Some 0xFF) then factory else f)).
Proof.
  intros Hcoeff Hoffset Hcoeff0 Hoffset0 Hflash.
  destruct (Adjustment_SaveAdjustmentToFlash_exact pMeasInfo flash Hcoeff Hoffset Hflash)
    as (flash1 & Hsave & Hlen1 & Hc1 & Ho1 & _).
  destruct (GetCurrentAdjustment_floats_aux pMeasInfo0 flash1 Hcoeff0 Hoffset0)
    as (pMeasInfo2 & Hget & _ & _ & Hc2 & Ho2 & _); [lia |].
  eexists _, flash1, pMeasInfo2. split; [exact Hsave |]. split; [exact Hget |].
  cbn [Adjustment.adjustmentCoeff Adjustment.adjustmentOffset].
  destruct (first_byte_cleared_ok _ Hcoeff) as [[_ Hallc] _].
  destruct (first_byte_cleared_ok _ Hoffset) as [[_ Hallo] _].
  split.
  - intros i f factory Hf Hfactory. rewrite (Hc2 i factory Hfactory). f_equal.
    apply read_float_saved; [| exact (Hc1 i f Hf)].
    exact (proj1 (Forall_lookup _ _) Hallc i f Hf).
  - intros i f factory Hf Hfactory. rewrite (Ho2 i factory Hfactory). f_equal.
    apply read_float_saved; [| exact (Ho1 i f Hf)].
    exact (proj1 (Forall_lookup _ _) Hallo i f Hf).
Qed.

Lemma saved_adjustment_read_back_witness :
  exists pMeasInfo1 flash1 pMeasInfo2,
    Adjustment.Adjustment_SaveAdjustmentToFlash Adjustment.example_measInfo
      (replicate 128 0xFF) = Ok (pMeasInfo1, flash1)
    /\ Adjustment.Adjustment_GetCurrentAdjustment Adjustment.example_measInfo flash1
       = Ok pMeasInfo2
    /\ (forall (i : nat) (f factory : list Z),
          Adjustment.adjustmentCoeff pMeasInfo1 !! i = Some f ->
          Adjustment.ADJUSTMENT_COEFFICIENTS !! i = Some factory ->
          Adjustment.adjustmentCoeff pMeasInfo2 !! i
          = Some (if decide (head f = Some 0xFF) then factory else f))
    /\ (forall (i : nat) (f factory : list Z),
          Adjustment.adjustmentOffset pMeasInfo1 !! i = Some f ->
          Adjustment.ADJUSTMENT_OFFSETS !! i = Some factory ->
          Adjustment.adjustmentOffset pMeasInfo2 !! i
          = Some (if decide (head f = Some 0xFF) then factory else f)).
Proof.
  apply (saved_adjustment_read_back Adjustment.example_measInfo
           Adjustment.example_measInfo (replicate 128 0xFF)).
  - split; [reflexivity | repeat constructor].
  - split; [reflexivity | repeat constructor].
  - split; [reflexivity | repeat constructor].
  - split; [reflexivity | repeat constructor].
  - simpl. lia.
Defined.

(** * A number written and read *)

Lemma digit_value_digit (m : Z) : digit_value (digit m) = Some (m mod 10).
Proof.
  unfold digit.
  assert (Hd : 0 <= m mod 10 < 10) by (apply Z.mod_pos_bound; lia).
  assert (Hcase : m mod 10 = 0 \/ m mod 10 = 1 \/ m mod 10 = 2 \/ m mod 10 = 3
                  \/ m mod 10 = 4 \/ m mod 10 = 5 \/ m mod 10 = 6
                  \/ m mod 10 = 7 \/ m mod 10 = 8 \/ m mod 10 = 9) by lia.
  repeat (destruct Hcase as [Hcase | Hcase]; [rewrite Hcase; reflexivity |]).
  rewrite Hcase. reflexivity.
Qed.

Lemma float_text_read (n : Z) :
  0 <= n < 100000 ->
  text_value (float_text n) = n
  /\ Forall (fun c => c = " "%char) (before_digits (float_text n)).
Proof.
  intros Hn. unfold float_text, text_value, lead.
  cbn [fold_left before_digits].
  assert (Hblank : digit_value " "%char = None) by reflexivity.
  assert (Hcomma : digit_value ","%char = None) by reflexivity.
  destruct (n / 10000 >? 0) eqn:E4; destruct (n / 1000 >? 0) eqn:E3;
    rewrite ?digit_value_digit, ?Hblank, ?Hcomma;
    cbn [fold_left before_digits];
    rewrite ?digit_value_digit, ?Hblank, ?Hcomma.
  - split; [Z.div_mod_to_equations; lia | apply List.Forall_nil].
  - split; [Z.div_mod_to_equations; lia | apply List.Forall_nil].
  - split; [Z.div_mod_to_equations; lia |].
    apply List.Forall_cons; [reflexivity | apply List.Forall_nil].
  - split; [Z.div_mod_to_equations; lia |].
    apply List.Forall_cons; [reflexivity |].
    apply List.Forall_cons; [reflexivity | apply List.Forall_nil].
Qed.

Section NumberText.

Context `{FloatModel}.

(** X22.  The text of a number, read back.  For a value whose integer
    part has at most three digits [Menu_FloatToCharArray] writes six
    characters whose decimal digits, read from the left, are the value
    in hundredths; the fourth character is the comma, and the digits
    are preceded by spaces only. *)
Theorem Menu_FloatToCharArray_value (charArray : list ascii) (value : float) :
  length charArray = 8%nat ->
  0 <= hundredths value -> hundredths value / 100 < 1000 ->
  exists charArray',
    Menu_FloatToCharArray charArray value = Ok charArray'
    /\ text_value (take 6 charArray') = hundredths value
    /\ charArray' !! 3%nat = Some ","%char
    /\ Forall (fun c => c = " "%char) (before_digits (take 6 charArray')).
Proof.
  intros Hlen H0 H1. unfold Menu_FloatToCharArray.
  rewrite Menu_FloatToCharArray_uint_exact by assumption.
  eexists. split; [reflexivity |].
  assert (Htake : take 6 (float_text (hundredths value) ++ drop 6 charArray)
                  = float_text (hundredths value)).
  { apply take_app_length'. reflexivity. }
  rewrite Htake.
  destruct (float_text_read (hundredths value)) as [Hvalue Hblank];
    [Z.div_mod_to_equations; lia |].
  split; [exact Hvalue |]. split.
  - rewrite lookup_app_l by (simpl; lia).
    unfold float_text in *. cbn [lookup list_lookup].
    reflexivity.
  - exact Hblank.
Qed.

End NumberText.

Lemma Menu_FloatToCharArray_value_witness :
  exists charArray',
    Menu_FloatToCharArray (H := centi_floats) (replicate 8 NUL) 12345 = Ok charArray'
    /\ text_value (take 6 charArray') = 12345
    /\ charArray' !! 3%nat = Some ","%char
    /\ Forall (fun c => c = " "%char) (before_digits (take 6 charArray')).
Proof.
  apply (Menu_FloatToCharArray_value (H := centi_floats) (replicate 8 NUL) 12345).
  - reflexivity.
  - vm_compute. discriminate.
  - vm_compute. reflexivity.
Defined.

(** * The renderer: room for the fields *)

Section Room.

Context {int16 : IntModel}.

(** X23.  Where the renderer is safe.  Up to fifteen text fields, each
    with a terminated text that starts at a column [x >= 0] and, six
    columns a character and spaces at the end not counted, has
    [x + 6 * characters <= 129] (the fifth and last column of its last
    glyph is column 127 at most), are drawn without an access outside
    the page buffer or the other arrays, whatever their rows [y]: the
    result is eight pages of 128 bytes. *)
Theorem LCD_UpdateScreen_fits (tables : list (list ascii))
    (pTextFields : list T_TextField) (textFieldCount : nat) :
  (textFieldCount <= length pTextFields)%nat -> (textFieldCount <= 15)%nat ->
  Forall (field_fits tables) (take textFieldCount pTextFields) ->
  exists pages,
    LCD_UpdateScreen tables pTextFields (Z.of_nat textFieldCount) = Ok pages
    /\ length pages = 8%nat
    /\ Forall (fun page => length page = 128%nat) pages.
Proof.
  intros Hcount Hmax Hfit. apply LCD_UpdateScreen_within; [exact Hcount | exact Hmax |].
  intros i f Hi Hf. apply (proj1 (Forall_lookup _ _) Hfit i f).
  rewrite lookup_take_lt by exact Hi. exact Hf.
Qed.

End Room.

Lemma LCD_UpdateScreen_fits_witness :
  exists pages,
    LCD_UpdateScreen (int16 := shift_out) [] PANEL_VIEW_FIELDS (Z.of_nat 7) = Ok pages
    /\ length pages = 8%nat
    /\ Forall (fun page => length page = 128%nat) pages.
Proof.
  apply (LCD_UpdateScreen_fits (int16 := shift_out) [] PANEL_VIEW_FIELDS 7).
  - simpl. lia.
  - lia.
  - repeat (apply List.Forall_cons;
            [eexists; split; [reflexivity | vm_compute; reflexivity] |]).
    apply List.Forall_nil.
Defined.
